(** * Worker supervision and accept-lock arbitration (src/worker.c)

    A shallow embedding of the supervisor side (kore_worker_init,
    kore_worker_spawn, worker_reaper) and of the worker side (the accept
    lock, the per-round lock policy, the netwait computation and the
    keymgr / entropy message handlers) of worker.c, followed by the
    properties of the specification that concern them.

    Conventions of the embedding.
    - C integers are [Z]; where the source relies on a fixed width the
      wrap-around is written out ([u16], [size_t_wrap]).
    - Every process has the file's globals; they are the fields of
      [state].  A fork copies them, except for the shared segment
      (accept lock and worker table), of which each process simply sees
      the current value.
    - Calls that leave worker.c (the log, the message bus, fork, raise,
      the RNG, the listener) are recorded, in program order, in the
      [trace] of the process.  The compare-and-swap on the lock word is
      recorded as well, so that "no CAS is attempted" can be stated.
    - kore_debug() lines are compiled out of a regular build and are
      not modelled. *)

From Stdlib Require Import ZArith Lia Bool.
From stdpp Require Import base numbers list strings.

Open Scope Z_scope.

(** ** Constants *)

(** [#define WORKER_SOLO_COUNT 3] *)
Definition WORKER_SOLO_COUNT : Z := 3.

(** Modelled from the spec: kore.h, which defines KORE_WORKER_BASE, is not
    among the sources.  The spec reserves two slots of the worker table, for
    the key-manager and the ACME sibling, and numbers the network workers
    after them; kore_worker_init adds exactly those two slots to the
    configured count. *)
Definition KORE_WORKER_BASE : Z := 2.

(** POSIX fixes the number of SIGTERM. *)
Definition SIGTERM : Z := 15.

(** kore.h is not among the sources.  The caller of the keymgr verification
    tests its result with [!], so KORE_RESULT_ERROR is 0; KORE_RESULT_OK is
    the other truth value. *)
Definition KORE_RESULT_ERROR : Z := 0.
Definition KORE_RESULT_OK : Z := 1.

(** [u_int16_t] arithmetic. *)
Definition u16 (z : Z) : Z := z mod 65536.

(** [size_t] arithmetic (LP64). *)
Definition size_t_wrap (z : Z) : Z := z mod 2 ^ 64.

(** ** What the file hands to its collaborators *)

Inductive log_prio : Type :=
| LOG_DEBUG | LOG_NOTICE | LOG_WARNING | LOG_ERR | LOG_CRIT.

(** Message ids used by worker.c. *)
Inductive msg_id : Type :=
| KORE_MSG_ACCEPT_AVAILABLE
| KORE_MSG_CERTIFICATE
| KORE_MSG_CERTIFICATE_REQ
| KORE_MSG_CRL
| KORE_MSG_ENTROPY_REQ
| KORE_MSG_ENTROPY_RESP
| KORE_MSG_SHUTDOWN
| KORE_ACME_CHALLENGE_SET_CERT
| KORE_ACME_CHALLENGE_CLEAR_CERT
| KORE_MSG_OTHER (n : Z).

(** Destinations of kore_msg_send. *)
Inductive msg_dst : Type :=
| KORE_MSG_PARENT
| KORE_MSG_WORKER_ALL
| KORE_MSG_TO (worker_id : Z).

(** Handlers registered with kore_msg_register. *)
Inductive msg_handler : Type :=
| H_worker_keymgr_response
| H_worker_entropy_recv
| H_worker_accept_avail.

(** The arguments of a log line. *)
Inductive log_arg : Type :=
| LInt (z : Z)
| LStr (s : string).

(** A pointer to a certificate buffer, as [dom->acme_cert] holds it: NULL,
    a buffer that is allocated, or a pointer whose buffer has been handed
    to kore_free. *)
Inductive cert_ptr : Type :=
| CertNull
| CertLive (bytes : list Z)
| CertStale.

(** What [p] stands for once kore_free(p) has been called: the variable
    keeps its value, the buffer behind it is gone. *)
Definition freed (p : cert_ptr) : cert_ptr :=
  match p with
  | CertNull => CertNull
  | CertLive _ | CertStale => CertStale
  end.

Inductive event : Type :=
| EvCas (expected desired : Z) (swapped : bool)
    (* __sync_bool_compare_and_swap(&accept_lock->lock, expected, desired) *)
| EvLog (prio : log_prio) (fmt : string) (args : list log_arg)
| EvMsgSend (dst : msg_dst) (id : msg_id) (len : Z)
| EvMsgRegister (id : msg_id) (h : msg_handler)
| EvMsgParentRemove (idx : Z)
| EvMsgParentAdd (idx : Z)
| EvFork (ret : Z)
| EvRaise (sig : Z) (ret : Z)
| EvRandPoll
| EvRandSeed (buf : list Z) (num : Z)
| EvEnableAccept
| EvDisableAccept
| EvFree (p : cert_ptr).
    (* kore_free(p) *)

Definition is_cas (e : event) : bool :=
  match e with EvCas _ _ _ => true | _ => false end.

(** ** Data *)

(** [struct wlock] *)
Record wlock : Type := mk_wlock {
  lock : Z;        (* volatile int *)
  current : Z      (* pid_t *)
}.

(** The request handler a worker was running, as far as worker.c reads it. *)
Record kore_module_handle : Type := mk_hdlr {
  func : string;
  errors : Z
}.

(** [struct kore_worker], the fields worker.c touches. *)
Record kore_worker : Type := mk_worker {
  id : Z;
  cpu : Z;
  pid : Z;
  pipe : Z * Z;
  running : Z;
  has_lock : Z;
  restarted : Z;
  active_hdlr : option kore_module_handle;
  lb_offset : Z
}.

(** A slot after [memset(kore_workers, 0, ...)]. *)
Definition zero_worker : kore_worker :=
  mk_worker 0 0 0 (0, 0) 0 0 0 None 0.

Inductive policy : Type :=
| KORE_WORKER_POLICY_RESTART
| KORE_WORKER_POLICY_TERMINATE.

(** [struct kore_domain]: the name, and the fields the handlers of worker.c
    read or write.  A character buffer is the list of its bytes; bytes past the end
    of the list read as NUL. *)
Record kore_domain : Type := mk_domain {
  domain : list Z;
  ssl_ctx : option Z;
  acme_cert : cert_ptr;
  acme_cert_len : Z;
  acme_challenge : Z
}.

(** [struct kore_server] *)
Record kore_server : Type := mk_server {
  tls : Z;
  domains : list kore_domain
}.

(** [struct kore_msg], as the handlers read it. *)
Record kore_msg : Type := mk_msg {
  msg_id_of : msg_id;
  msg_length : Z
}.

(** [struct kore_x509_msg]: the view of a payload as a keymgr message. *)
Record kore_x509_msg : Type := mk_x509 {
  x509_domain : list Z;      (* char domain[KORE_DOMAINNAME_LEN + 1] *)
  data_len : Z;              (* size_t *)
  data : list Z              (* u_int8_t data[] *)
}.

(** Globals another file sets and worker.c reads. *)
Record config : Type := mk_config {
  cpu_count : Z;
  keymgr_active : Z;
  acme_provider : bool;            (* acme_provider != NULL *)
  kore_quiet : Z;
  nlisteners : Z;
  worker_policy : policy;
  worker_max_connections : Z;
  http_request_limit : Z
}.

(** The globals of a process. [worker] is the record the pointer of that
    name refers to (the process's own slot). *)
Record state : Type := mk_state {
  conf : config;
  accept_lock : wlock;
  kore_workers : list kore_worker;
  worker : kore_worker;
  worker_count : Z;
  worker_no_lock : Z;
  accept_avail : Z;
  worker_active_connections : Z;
  http_request_count : Z;
  sig_recv : Z;
  kore_servers : list kore_server;
  trace : list event
}.

(** Assignments to one global. *)
Definition set_accept_lock (v : wlock) (st : state) : state :=
  mk_state (conf st) v (kore_workers st) (worker st) (worker_count st) (worker_no_lock st) (accept_avail st) (worker_active_connections st) (http_request_count st) (sig_recv st) (kore_servers st) (trace st).

Definition set_kore_workers (v : list kore_worker) (st : state) : state :=
  mk_state (conf st) (accept_lock st) v (worker st) (worker_count st) (worker_no_lock st) (accept_avail st) (worker_active_connections st) (http_request_count st) (sig_recv st) (kore_servers st) (trace st).

Definition set_worker (v : kore_worker) (st : state) : state :=
  mk_state (conf st) (accept_lock st) (kore_workers st) v (worker_count st) (worker_no_lock st) (accept_avail st) (worker_active_connections st) (http_request_count st) (sig_recv st) (kore_servers st) (trace st).

Definition set_worker_count (v : Z) (st : state) : state :=
  mk_state (conf st) (accept_lock st) (kore_workers st) (worker st) v (worker_no_lock st) (accept_avail st) (worker_active_connections st) (http_request_count st) (sig_recv st) (kore_servers st) (trace st).

Definition set_worker_no_lock (v : Z) (st : state) : state :=
  mk_state (conf st) (accept_lock st) (kore_workers st) (worker st) (worker_count st) v (accept_avail st) (worker_active_connections st) (http_request_count st) (sig_recv st) (kore_servers st) (trace st).

Definition set_accept_avail (v : Z) (st : state) : state :=
  mk_state (conf st) (accept_lock st) (kore_workers st) (worker st) (worker_count st) (worker_no_lock st) v (worker_active_connections st) (http_request_count st) (sig_recv st) (kore_servers st) (trace st).

Definition set_worker_active_connections (v : Z) (st : state) : state :=
  mk_state (conf st) (accept_lock st) (kore_workers st) (worker st) (worker_count st) (worker_no_lock st) (accept_avail st) v (http_request_count st) (sig_recv st) (kore_servers st) (trace st).

Definition set_kore_servers (v : list kore_server) (st : state) : state :=
  mk_state (conf st) (accept_lock st) (kore_workers st) (worker st) (worker_count st) (worker_no_lock st) (accept_avail st) (worker_active_connections st) (http_request_count st) (sig_recv st) v (trace st).

Definition set_trace (v : list event) (st : state) : state :=
  mk_state (conf st) (accept_lock st) (kore_workers st) (worker st) (worker_count st) (worker_no_lock st) (accept_avail st) (worker_active_connections st) (http_request_count st) (sig_recv st) (kore_servers st) v.

(** Assignments to one field of a worker record. *)
Definition kw_set_id (v : Z) (kw : kore_worker) : kore_worker :=
  mk_worker v (cpu kw) (pid kw) (pipe kw) (running kw) (has_lock kw) (restarted kw) (active_hdlr kw) (lb_offset kw).

Definition kw_set_cpu (v : Z) (kw : kore_worker) : kore_worker :=
  mk_worker (id kw) v (pid kw) (pipe kw) (running kw) (has_lock kw) (restarted kw) (active_hdlr kw) (lb_offset kw).

Definition kw_set_pid (v : Z) (kw : kore_worker) : kore_worker :=
  mk_worker (id kw) (cpu kw) v (pipe kw) (running kw) (has_lock kw) (restarted kw) (active_hdlr kw) (lb_offset kw).

Definition kw_set_pipe (v : Z * Z) (kw : kore_worker) : kore_worker :=
  mk_worker (id kw) (cpu kw) (pid kw) v (running kw) (has_lock kw) (restarted kw) (active_hdlr kw) (lb_offset kw).

Definition kw_set_running (v : Z) (kw : kore_worker) : kore_worker :=
  mk_worker (id kw) (cpu kw) (pid kw) (pipe kw) v (has_lock kw) (restarted kw) (active_hdlr kw) (lb_offset kw).

Definition kw_set_has_lock (v : Z) (kw : kore_worker) : kore_worker :=
  mk_worker (id kw) (cpu kw) (pid kw) (pipe kw) (running kw) v (restarted kw) (active_hdlr kw) (lb_offset kw).

Definition kw_set_restarted (v : Z) (kw : kore_worker) : kore_worker :=
  mk_worker (id kw) (cpu kw) (pid kw) (pipe kw) (running kw) (has_lock kw) v (active_hdlr kw) (lb_offset kw).

Definition kw_set_active_hdlr (v : option kore_module_handle) (kw : kore_worker) : kore_worker :=
  mk_worker (id kw) (cpu kw) (pid kw) (pipe kw) (running kw) (has_lock kw) (restarted kw) v (lb_offset kw).

Definition kw_set_lb_offset (v : Z) (kw : kore_worker) : kore_worker :=
  mk_worker (id kw) (cpu kw) (pid kw) (pipe kw) (running kw) (has_lock kw) (restarted kw) (active_hdlr kw) v.
Definition emit (e : event) (st : state) : state :=
  set_trace (trace st ++ [e]) st.

(** [kore_log(prio, fmt, ...)] *)
Definition kore_log (prio : log_prio) (fmt : string) (args : list log_arg)
    (st : state) : state :=
  emit (EvLog prio fmt args) st.

(** [kore_msg_send(dst, id, NULL, 0)] and the like. *)
Definition kore_msg_send (dst : msg_dst) (m : msg_id) (len : Z)
    (st : state) : state :=
  emit (EvMsgSend dst m len) st.

(** How a function of the supervisor can end. *)
Inductive outcome (A : Type) : Type :=
| Returns (a : A)
| Fatal (msg : string)                     (* fatal(): log and exit *)
| InChild (kw : kore_worker) (st : state)  (* fork() returned 0: the child
                                              runs kore_worker_entry(kw) *)
| Undefined                                (* a slot outside the table *)
| Loops.                                   (* the loop does not end *)

Arguments Returns {A} a.
Arguments Fatal {A} msg.
Arguments InChild {A} kw st.
Arguments Undefined {A}.
Arguments Loops {A}.

Definition bind {A B : Type} (o : outcome A) (k : A -> outcome B)
    : outcome B :=
  match o with
  | Returns a => k a
  | Fatal msg => Fatal msg
  | InChild kw st => InChild kw st
  | Undefined => Undefined
  | Loops => Loops
  end.

Notation "x <- o ;; k" := (bind o (fun x => k))
  (at level 100, o at next level, right associativity).

(** One round of a [for] loop body: go on, or leave the function. *)
Inductive ctl (S : Type) : Type :=
| Next (s : S)
| Stop (r : outcome S).

Arguments Next {S} s.
Arguments Stop {S} r.

(** [for (idx = from; idx < bound; idx++) body] with a [u_int16_t] index.
    The index takes at most 65536 values, so a loop that has not left after
    that many tests of its condition never does. *)
Fixpoint for_idx {S : Type} (fuel : nat) (idx bound : Z)
    (body : Z -> S -> ctl S) (s : S) : outcome S :=
  match fuel with
  | O => Loops
  | Datatypes.S fuel' =>
      if idx <? bound then
        match body idx s with
        | Next s' => for_idx fuel' (u16 (idx + 1)) bound body s'
        | Stop r => r
        end
      else Returns s
  end.

Definition U16_TESTS : nat := Z.to_nat 65536.

(** The result of the system calls of one kore_worker_spawn. *)
Record spawn_sys : Type := mk_spawn_sys {
  socketpair_ret : Z;
  socketpair_fds : Z * Z;
  nonblock0 : Z;          (* kore_connection_nonblock(kw->pipe[0], 0) *)
  nonblock1 : Z;
  fork_ret : Z;
  getpid_ret : Z
}.

Inductive cert_type : Type := KORE_PEM_CERT_CHAIN | KORE_DER_CERT_DATA.

(** What worker.c takes from the build and from files that are not at hand:
    the preprocessor configuration, constants of kore.h, the status macros
    of sys/wait.h, and functions of other files whose result it uses.
    [sizeof_worker_count] is the size in bytes of the unsigned integer type
    kore.h declares worker_count with. *)
Record env : Type := mk_env {
  KORE_NO_HTTP : bool;
  KORE_USE_ACME : bool;
  KORE_USE_PYTHON : bool;
  WORKER_DEBUG : bool;
  linux : bool;
  KORE_WORKER_KEYMGR_IDX : Z;
  KORE_WORKER_ACME_IDX : Z;
  KORE_WORKER_KEYMGR : Z;
  KORE_WORKER_ACME : Z;
  KORE_WAIT_INFINITE : Z;
  KORE_DOMAINNAME_LEN : Z;
  sizeof_kore_x509_msg : Z;
  sizeof_worker_count : positive;
  WIFEXITED : Z -> bool;
  WEXITSTATUS : Z -> Z;
  WIFSIGNALED : Z -> bool;
  WTERMSIG : Z -> Z;
  SIGSYS : Z;
  kore_seccomp_trace : Z -> Z -> Z;
  kore_domain_tlsinit : kore_domain -> cert_type -> list Z -> Z -> kore_domain;
  kore_domain_crl_add : kore_domain -> list Z -> Z -> kore_domain
}.

(** ** The functions of worker.c *)

Section Model.

Variable E : env.

(** *** The accept lock *)

(** [__sync_bool_compare_and_swap(&(accept_lock->lock), expected, desired)] *)
Definition compare_and_swap (expected desired : Z) (st : state)
    : bool * state :=
  if lock (accept_lock st) =? expected then
    (true, emit (EvCas expected desired true)
             (set_accept_lock
                (mk_wlock desired (current (accept_lock st))) st))
  else
    (false, emit (EvCas expected desired false) st).

Definition worker_trylock (st : state) : Z * state :=
  let (swapped, st1) := compare_and_swap 0 1 st in
  if negb swapped then (0, st1)
  else
    (1, set_accept_lock
          (mk_wlock (lock (accept_lock st1)) (pid (worker st1))) st1).

Definition worker_unlock (st : state) : state :=
  let st1 := set_accept_lock (mk_wlock (lock (accept_lock st)) 0) st in
  let (swapped, st2) := compare_and_swap 1 0 st1 in
  if negb swapped then
    kore_log LOG_NOTICE "worker_unlock(): wasn't locked" [] st2
  else st2.

(** [worker->has_lock = v] *)
Definition set_has_lock (v : Z) (st : state) : state :=
  set_worker (kw_set_has_lock v (worker st)) st.

(** [worker_count == WORKER_SOLO_COUNT || worker_no_lock == 1] *)
Definition arbitration_off (st : state) : bool :=
  (worker_count st =? WORKER_SOLO_COUNT) || (worker_no_lock st =? 1).

Definition worker_acceptlock_obtain (st : state) : Z * state :=
  if has_lock (worker st) =? 1 then (1, st)
  else if arbitration_off st then (1, set_has_lock 1 st)
  else if worker_active_connections st >=? worker_max_connections (conf st)
  then (0, st)
  else if negb (KORE_NO_HTTP E)
          && (http_request_count st >=? http_request_limit (conf st))
  then (0, st)
  else
    let (got, st1) := worker_trylock st in
    if negb (got =? 0) then
      let st2 := set_has_lock 1 st1 in
      (1, if WORKER_DEBUG E then kore_log LOG_DEBUG "got lock" [] st2
          else st2)
    else (0, st1).

(** The test that ends worker_acceptlock_release without a release:
    [worker_active_connections < worker_max_connections], and with HTTP
    compiled in also [http_request_count < http_request_limit]. *)
Definition below_limits (st : state) : bool :=
  if worker_active_connections st <? worker_max_connections (conf st) then
    if negb (KORE_NO_HTTP E) then
      http_request_count st <? http_request_limit (conf st)
    else true
  else false.

(** The tail of worker_acceptlock_release and of kore_worker_make_busy. *)
Definition unlock_and_broadcast (st : state) : state :=
  let st1 := worker_unlock st in
  let st2 := set_has_lock 0 st1 in
  kore_msg_send KORE_MSG_WORKER_ALL KORE_MSG_ACCEPT_AVAILABLE 0 st2.

Definition worker_acceptlock_release (st : state) : state :=
  if arbitration_off st then st
  else if negb (has_lock (worker st) =? 1) then st
  else if below_limits st then st
  else
    let st0 :=
      if WORKER_DEBUG E
      then kore_log LOG_DEBUG "worker busy, releasing lock" [] st
      else st in
    unlock_and_broadcast st0.

Definition kore_worker_make_busy (st : state) : state :=
  if arbitration_off st then st
  else if negb (has_lock (worker st) =? 0) then unlock_and_broadcast st
  else st.

(** [worker_accept_avail]: the handler of KORE_MSG_ACCEPT_AVAILABLE. *)
Definition worker_accept_avail (st : state) : state :=
  set_accept_avail 1 st.

(** *** The main loop of kore_worker_entry, as far as the lock and the
    event timeout go.  [had_lock] is the local variable of that name. *)

(** [if (!worker->has_lock && accept_avail) { ... }] *)
Definition kore_worker_entry_acquire (had_lock : Z) (st : state)
    : Z * state :=
  if (has_lock (worker st) =? 0) && negb (accept_avail st =? 0) then
    let (r, st1) := worker_acceptlock_obtain st in
    if negb (r =? 0) then
      let st2 := set_accept_avail 0 st1 in
      if had_lock =? 0 then (1, emit EvEnableAccept st2)
      else (had_lock, st2)
    else (had_lock, st1)
  else (had_lock, st).

(** [netwait = kore_timer_next_run(now); if (netwait == KORE_WAIT_INFINITE)
    { ... }].  [next_run] is what kore_timer_next_run returned and
    [coro_pending] what kore_python_coro_pending would return. *)
Definition kore_worker_entry_netwait (next_run coro_pending : Z)
    (st : state) : Z :=
  let netwait := next_run in
  if netwait =? KORE_WAIT_INFINITE E then
    let netwait := if negb (sig_recv st =? 0) then 10 else netwait in
    let netwait :=
      if negb (KORE_NO_HTTP E) && (http_request_count st >? 0)
      then 100 else netwait in
    let netwait :=
      if KORE_USE_PYTHON E && negb (coro_pending =? 0)
      then 10 else netwait in
    netwait
  else netwait.

(** [if (worker->has_lock) worker_acceptlock_release();
     if (!worker->has_lock) { if (had_lock == 1) { ... } }] *)
Definition kore_worker_entry_release (had_lock : Z) (st : state)
    : Z * state :=
  let st1 :=
    if negb (has_lock (worker st) =? 0) then worker_acceptlock_release st
    else st in
  if has_lock (worker st1) =? 0 then
    if had_lock =? 1 then (0, emit EvDisableAccept st1)
    else (had_lock, st1)
  else (had_lock, st1).

(** *** Entropy *)

Definition worker_entropy_recv (msg : kore_msg) (payload : list Z)
    (st : state) : state :=
  let st1 :=
    if negb (msg_length msg =? 1024) then
      kore_log LOG_WARNING
        "invalid entropy response (got:%zu - wanted:1024)"
        [LInt (msg_length msg)] st
    else st in
  let st2 := emit EvRandPoll st1 in
  emit (EvRandSeed payload (msg_length msg)) st2.

(** *** Keymgr responses *)

(** [strcmp] of the C library on two character buffers. *)
Fixpoint strcmp (a b : list Z) : Z :=
  match a, b with
  | [], [] => 0
  | x :: _, [] => x
  | [], y :: _ => - y
  | x :: a', y :: b' =>
      if x =? y then (if x =? 0 then 0 else strcmp a' b') else x - y
  end.

(** [TAILQ_FOREACH(dom, &srv->domains, list) if (!strcmp(...)) break;]:
    the position of the domain the loop stops at, if any. *)
Fixpoint domain_lookup (doms : list kore_domain) (name : list Z) (di : nat)
    : option nat :=
  match doms with
  | [] => None
  | dom :: rest =>
      if strcmp (domain dom) name =? 0 then Some di
      else domain_lookup rest name (S di)
  end.

(** [LIST_FOREACH(srv, &kore_servers, list) { ... }]: server and domain
    position of the domain found, if any. *)
Fixpoint server_lookup (srvs : list kore_server) (name : list Z) (si : nat)
    : option (nat * nat) :=
  match srvs with
  | [] => None
  | srv :: rest =>
      if tls srv =? 0 then server_lookup rest name (S si)
      else
        match domain_lookup (domains srv) name 0 with
        | Some di => Some (si, di)
        | None => server_lookup rest name (S si)
        end
  end.

(** [req->domain[KORE_DOMAINNAME_LEN]] *)
Definition domain_last_byte (req : kore_x509_msg) : Z :=
  nth (Z.to_nat (KORE_DOMAINNAME_LEN E)) (x509_domain req) 0.

(** [out_given] tells whether [out != NULL]; the second component of the
    result is what [*out] is set to. *)
Definition kore_worker_keymgr_response_verify (msg : kore_msg)
    (req : kore_x509_msg) (out_given : bool) (st : state)
    : Z * option (nat * nat) * state :=
  if msg_length msg <? sizeof_kore_x509_msg E then
    (KORE_RESULT_ERROR, None,
     kore_log LOG_WARNING "short keymgr message (%zu)"
       [LInt (msg_length msg)] st)
  else if negb (msg_length msg
                =? size_t_wrap (sizeof_kore_x509_msg E + data_len req)) then
    (KORE_RESULT_ERROR, None,
     kore_log LOG_WARNING "invalid keymgr payload (%zu)"
       [LInt (msg_length msg)] st)
  else if negb (domain_last_byte req =? 0) then
    (KORE_RESULT_ERROR, None,
     kore_log LOG_WARNING "domain not NUL-terminated" [] st)
  else if negb out_given then (KORE_RESULT_OK, None, st)
  else
    match server_lookup (kore_servers st) (x509_domain req) 0 with
    | None =>
        (KORE_RESULT_ERROR, None,
         kore_log LOG_WARNING
           "got keymgr response for domain that does not exist" [] st)
    | Some loc => (KORE_RESULT_OK, Some loc, st)
    end.

(** A write through the [dom] pointer the verification handed out. *)
Definition update_domain (loc : nat * nat)
    (f : kore_domain -> kore_domain) (st : state) : state :=
  set_kore_servers
    (alter (fun srv => mk_server (tls srv) (alter f (snd loc) (domains srv)))
       (fst loc) (kore_servers st)) st.

Definition lookup_domain (loc : nat * nat) (st : state)
    : option kore_domain :=
  match kore_servers st !! fst loc with
  | Some srv => domains srv !! snd loc
  | None => None
  end.

(** [if (dom->ssl_ctx == NULL) kore_domain_tlsinit(dom, KORE_DER_CERT_DATA,
    req->data, req->data_len);] *)
Definition acme_tlsinit (req : kore_x509_msg) (dom : kore_domain)
    : kore_domain :=
  match ssl_ctx dom with
  | None =>
      kore_domain_tlsinit E dom KORE_DER_CERT_DATA (data req) (data_len req)
  | Some _ => dom
  end.

(** [dom->acme_cert] of the domain the verification handed out. *)
Definition domain_cert (loc : nat * nat) (st : state) : cert_ptr :=
  match lookup_domain loc st with
  | Some dom => acme_cert dom
  | None => CertNull
  end.

(** [kore_free(dom->acme_cert)]: the call is made with whatever the field
    holds; the field is not reset to NULL, so that from then on it points
    to a buffer that has been freed. *)
Definition free_acme_cert (loc : nat * nat) (st : state) : state :=
  emit (EvFree (domain_cert loc st))
    (update_domain loc
       (fun dom => mk_domain (domain dom) (ssl_ctx dom)
                     (freed (acme_cert dom)) (acme_cert_len dom)
                     (acme_challenge dom)) st).

(** [dom->acme_cert_len = req->data_len;
     dom->acme_cert = kore_calloc(1, req->data_len);
     memcpy(dom->acme_cert, req->data, req->data_len);] *)
Definition acme_store_cert (req : kore_x509_msg) (dom : kore_domain)
    : kore_domain :=
  mk_domain (domain dom) (ssl_ctx dom)
    (CertLive (take (Z.to_nat (data_len req)) (data req))) (data_len req)
    (acme_challenge dom).

(** [dom->acme_challenge = v] *)
Definition acme_set_challenge (v : Z) (dom : kore_domain) : kore_domain :=
  mk_domain (domain dom) (ssl_ctx dom) (acme_cert dom) (acme_cert_len dom) v.

(** [dom->acme_cert_len = 0; dom->acme_challenge = 0;] *)
Definition acme_disarm (dom : kore_domain) : kore_domain :=
  mk_domain (domain dom) (ssl_ctx dom) (acme_cert dom) 0 0.

Definition domain_name_arg (loc : nat * nat) (st : state) : list log_arg :=
  match lookup_domain loc st with
  | Some dom => map LInt (domain dom)
  | None => []
  end.

(** [case KORE_ACME_CHALLENGE_SET_CERT] *)
Definition acme_set_cert (req : kore_x509_msg) (loc : nat * nat)
    (st : state) : state :=
  let st := update_domain loc (acme_tlsinit req) st in
  let st := free_acme_cert loc st in
  let st := update_domain loc (acme_store_cert req) st in
  let st := kore_log LOG_NOTICE "[%s] tls-alpn-01 challenge active"
              (domain_name_arg loc st) st in
  update_domain loc (acme_set_challenge 1) st.

(** [case KORE_ACME_CHALLENGE_CLEAR_CERT] *)
Definition acme_clear_cert (loc : nat * nat) (st : state) : state :=
  let st := update_domain loc acme_disarm st in
  let st := free_acme_cert loc st in
  kore_log LOG_NOTICE "[%s] tls-alpn-01 challenge disabled"
    (domain_name_arg loc st) st.

Definition worker_keymgr_response (msg : kore_msg) (req : kore_x509_msg)
    (st : state) : state :=
  let '(r, out, st1) := kore_worker_keymgr_response_verify msg req true st in
  if r =? 0 then st1
  else
    match out with
    | None => st1
    | Some loc =>
        match msg_id_of msg with
        | KORE_MSG_CERTIFICATE =>
            update_domain loc
              (fun dom => kore_domain_tlsinit E dom KORE_PEM_CERT_CHAIN
                            (data req) (data_len req)) st1
        | KORE_MSG_CRL =>
            update_domain loc
              (fun dom => kore_domain_crl_add E dom (data req) (data_len req))
              st1
        | KORE_ACME_CHALLENGE_SET_CERT =>
            if KORE_USE_ACME E then acme_set_cert req loc st1
            else
              kore_log LOG_WARNING "unknown keymgr request %u" [] st1
        | KORE_ACME_CHALLENGE_CLEAR_CERT =>
            if KORE_USE_ACME E then acme_clear_cert loc st1
            else
              kore_log LOG_WARNING "unknown keymgr request %u" [] st1
        | _ => kore_log LOG_WARNING "unknown keymgr request %u" [] st1
        end
    end.

(** *** The supervisor *)

(** [kw = WORKER(idx); ... *kw = v] *)
Definition store_worker (idx : Z) (kw : kore_worker) (st : state) : state :=
  set_kore_workers (<[Z.to_nat idx := kw]> (kore_workers st)) st.

Definition kore_worker_spawn (os : spawn_sys) (idx wid wcpu : Z)
    (st : state) : outcome state :=
  match kore_workers st !! Z.to_nat idx with
  | None => Undefined
  | Some kw =>
      let kw := kw_set_id wid kw in
      let kw := kw_set_cpu wcpu kw in
      let kw := kw_set_has_lock 0 kw in
      let kw := kw_set_active_hdlr None kw in
      let kw := kw_set_running 1 kw in
      if socketpair_ret os =? -1 then Fatal "socketpair(): %s"
      else
        let kw := kw_set_pipe (socketpair_fds os) kw in
        if (nonblock0 os =? 0) || (nonblock1 os =? 0) then
          Fatal "could not set pipe fds to nonblocking: %s"
        else
          let kw := kw_set_pid (fork_ret os) kw in
          let st1 := emit (EvFork (fork_ret os)) st in
          if fork_ret os =? -1 then Fatal "could not spawn worker child: %s"
          else if fork_ret os =? 0 then
            let kw := kw_set_pid (getpid_ret os) kw in
            InChild kw (store_worker idx kw st1)
          else Returns (store_worker idx kw st1)
  end.

(** The results of shmget and shmat in kore_worker_init. *)
Record init_sys : Type := mk_init_sys {
  shmget_ret : Z;
  shmat_failed : bool
}.

(** [kw = WORKER(idx); kw->lb.offset = 0;] *)
Definition init_log_buffer (idx : Z) (st : state) : ctl state :=
  match kore_workers st !! Z.to_nat idx with
  | None => Stop Undefined
  | Some kw => Next (store_worker idx (kw_set_lb_offset 0 kw) st)
  end.

(** The body of the loop that starts the network workers; the loop carries
    the locals [id] and [cpu]. *)
Definition spawn_next (os : Z -> spawn_sys) (idx : Z) (s : Z * Z * state)
    : ctl (Z * Z * state) :=
  let '(wid, wcpu, st) := s in
  let wcpu := if wcpu >=? cpu_count (conf st) then 0 else wcpu in
  match kore_worker_spawn (os idx) idx wid wcpu st with
  | Returns st1 => Next (u16 (wid + 1), u16 (wcpu + 1), st1)
  | Fatal msg => Stop (Fatal msg)
  | InChild kw st1 => Stop (InChild kw st1)
  | Undefined => Stop Undefined
  | Loops => Stop Loops
  end.

(** The values worker_count can hold, and a value as an assignment to
    worker_count stores it. *)
Definition worker_count_range : Z := 2 ^ (8 * Z.pos (sizeof_worker_count E)).

Definition to_worker_count (z : Z) : Z := z mod worker_count_range.

(** [os idx] holds the results of the system calls made while slot [idx] is
    spawned. *)
Definition kore_worker_init (sys : init_sys) (os : Z -> spawn_sys)
    (st : state) : outcome state :=
  let st := set_worker_no_lock 0 st in
  let st :=
    if worker_count st =? 0 then
      set_worker_count (to_worker_count (cpu_count (conf st))) st
    else st in
  let st := set_worker_count (to_worker_count (worker_count st + 2)) st in
  if shmget_ret sys =? -1 then Fatal "kore_worker_init(): shmget() %s"
  else if shmat_failed sys then Fatal "kore_worker_init(): shmat() %s"
  else
    let st := set_accept_lock (mk_wlock 0 0) st in
    let st :=
      set_kore_workers (replicate (Z.to_nat (worker_count st)) zero_worker)
        st in
    st <- for_idx U16_TESTS KORE_WORKER_BASE (worker_count st)
            init_log_buffer st ;;
    s <- for_idx U16_TESTS KORE_WORKER_BASE (worker_count st)
           (spawn_next os) (1, 1, st) ;;
    let st := snd s in
    if negb (keymgr_active (conf st) =? 0) then
      st <- (if KORE_USE_ACME E && acme_provider (conf st) then
               kore_worker_spawn (os (KORE_WORKER_ACME_IDX E))
                 (KORE_WORKER_ACME_IDX E) (KORE_WORKER_ACME E) 0 st
             else Returns st) ;;
      kore_worker_spawn (os (KORE_WORKER_KEYMGR_IDX E))
        (KORE_WORKER_KEYMGR_IDX E) (KORE_WORKER_KEYMGR E) 0 st
    else Returns st.

(** The start of kore_worker_entry, up to the main loop, as far as the
    globals of worker.c go.  The key-manager and ACME siblings leave for
    their own run loop and exit: [None]. *)
Definition kore_worker_entry_setup (kw : kore_worker) (st : state)
    : option state :=
  let st := set_worker kw st in
  if id kw =? KORE_WORKER_KEYMGR E then None
  else if KORE_USE_ACME E && (id kw =? KORE_WORKER_ACME E) then None
  else
    let st := set_accept_avail 1 st in
    let st := set_worker_active_connections 0 st in
    let st :=
      if negb (keymgr_active (conf st) =? 0) then
        let st := emit (EvMsgRegister KORE_MSG_CRL H_worker_keymgr_response)
                    st in
        let st := emit (EvMsgRegister KORE_MSG_ENTROPY_RESP
                          H_worker_entropy_recv) st in
        let st := emit (EvMsgRegister KORE_MSG_CERTIFICATE
                          H_worker_keymgr_response) st in
        let st :=
          if negb (restarted (worker st) =? 0) then
            kore_msg_send (KORE_MSG_TO (KORE_WORKER_KEYMGR E))
              KORE_MSG_CERTIFICATE_REQ 0 st
          else st in
        if KORE_USE_ACME E then
          let st := emit (EvMsgRegister KORE_ACME_CHALLENGE_SET_CERT
                            H_worker_keymgr_response) st in
          emit (EvMsgRegister KORE_ACME_CHALLENGE_CLEAR_CERT
                  H_worker_keymgr_response) st
        else st
      else st in
    let st := emit (EvMsgRegister KORE_MSG_ACCEPT_AVAILABLE
                      H_worker_accept_avail) st in
    let st := if nlisteners (conf st) =? 0 then set_worker_no_lock 1 st
              else st in
    let st :=
      if kore_quiet (conf st) =? 0 then
        kore_log LOG_NOTICE "worker %d started (cpu#%d, pid#%d)"
          [LInt (id kw); LInt (cpu kw); LInt (pid kw)] st
      else st in
    Some (set_worker (kw_set_restarted 0 (worker st)) st).

(** The results of the system calls of one worker_reaper. *)
Record reap_sys : Type := mk_reap_sys {
  respawn : spawn_sys;
  raise_ret : Z
}.

(** [if (raise(SIGTERM) != 0) kore_log(...)] *)
Definition raise_sigterm (os : reap_sys) (st : state) : state :=
  let st := emit (EvRaise SIGTERM (raise_ret os)) st in
  if negb (raise_ret os =? 0) then
    kore_log LOG_WARNING "failed to raise SIGTERM signal" [] st
  else st.

(** The body of the loop of worker_reaper. Every path through a matching
    slot ends in [break], after which the function returns. *)
Definition reap_slot (os : reap_sys) (wpid status : Z) (idx : Z)
    (st : state) : ctl state :=
  match kore_workers st !! Z.to_nat idx with
  | None => Stop Undefined
  | Some kw =>
      if negb (pid kw =? wpid) then Next st
      else
        let st :=
          if kore_quiet (conf st) =? 0 then
            kore_log LOG_NOTICE "worker %s (%d) exited with status %d"
              [LInt (id kw); LInt wpid; LInt status] st
          else st in
        let kw := kw_set_running 0 kw in
        if WIFEXITED E status && (WEXITSTATUS E status =? 0) then
          Stop (Returns (store_worker idx (kw_set_pid 0 kw) st))
        else
          let fn :=
            if negb (KORE_NO_HTTP E) then
              match active_hdlr kw with
              | Some h => func h
              | None => "none"
              end
            else "none" in
          let st :=
            kore_log LOG_NOTICE "worker %d (pid: %d) (hdlr: %s) gone"
              [LInt (id kw); LInt (pid kw); LStr fn] st in
          let st :=
            if linux E && WIFSIGNALED E status
               && (WTERMSIG E status =? SIGSYS E) then
              kore_log LOG_NOTICE "worker %d died from sandbox violation"
                [LInt (id kw)] st
            else st in
          if (id kw =? KORE_WORKER_KEYMGR E)
             || (id kw =? KORE_WORKER_ACME E) then
            let st :=
              kore_log LOG_CRIT "keymgr or acme process gone, stopping" []
                st in
            let kw := kw_set_pid 0 kw in
            Stop (Returns (raise_sigterm os (store_worker idx kw st)))
          else
            let st :=
              if (pid kw =? current (accept_lock st))
                 && (worker_no_lock st =? 0)
              then worker_unlock st else st in
            let '(kw, st) :=
              if negb (KORE_NO_HTTP E) then
                match active_hdlr kw with
                | Some h =>
                    let h := mk_hdlr (func h) (errors h + 1) in
                    (kw_set_active_hdlr (Some h) kw,
                     kore_log LOG_NOTICE "hdlr %s has caused %d error(s)"
                       [LStr (func h); LInt (errors h)] st)
                | None => (kw, st)
                end
              else (kw, st) in
            match worker_policy (conf st) with
            | KORE_WORKER_POLICY_TERMINATE =>
                let kw := kw_set_pid 0 kw in
                let st :=
                  kore_log LOG_NOTICE
                    "worker policy is 'terminate', stopping" [] st in
                Stop (Returns (raise_sigterm os (store_worker idx kw st)))
            | KORE_WORKER_POLICY_RESTART =>
                let st :=
                  kore_log LOG_NOTICE "restarting worker %d" [LInt (id kw)]
                    st in
                let kw := kw_set_restarted 1 kw in
                let st := emit (EvMsgParentRemove idx) st in
                Stop (st <- kore_worker_spawn (respawn os) idx (id kw)
                              (cpu kw) (store_worker idx kw st) ;;
                      Returns (emit (EvMsgParentAdd idx) st))
            end
  end.

Definition worker_reaper (os : reap_sys) (wpid status : Z) (st : state)
    : outcome state :=
  if linux E && negb (kore_seccomp_trace E wpid status =? 0) then Returns st
  else for_idx U16_TESTS 0 (worker_count st) (reap_slot os wpid status) st.

(** kore_worker_reap hands every child waitpid reports to worker_reaper;
    [reap_all] is the effect of a run of such reports. *)
Fixpoint reap_all (rs : list (reap_sys * Z * Z)) (st : state)
    : outcome state :=
  match rs with
  | [] => Returns st
  | (os, wpid, status) :: rest =>
      st1 <- worker_reaper os wpid status st ;; reap_all rest st1
  end.

End Model.

(** ** The rest of the supervisor *)

(** [kore_worker_data(u_int8_t id)]: the argument is converted to eight
    bits at the call. *)
Definition kore_worker_data (wid : Z) (st : state) : outcome kore_worker :=
  let id8 := wid mod 256 in
  if id8 >=? worker_count st then Fatal "id %u too large for worker count"
  else
    match kore_workers st !! Z.to_nat id8 with
    | Some kw => Returns kw
    | None => Undefined
    end.

(** The body of the loop of kore_worker_dispatch_signal; the loop state is
    the calls of kill(2) made so far, each with its pid and signal. What
    kill returns only shows in a debug line. *)
Definition dispatch_slot (sig : Z) (st : state) (idx : Z)
    (kills : list (Z * Z)) : ctl (list (Z * Z)) :=
  match kore_workers st !! Z.to_nat idx with
  | None => Stop Undefined
  | Some kw => Next (kills ++ [(pid kw, sig)])
  end.

Definition kore_worker_dispatch_signal (sig : Z) (st : state)
    : outcome (list (Z * Z)) :=
  for_idx U16_TESTS 0 (worker_count st) (dispatch_slot sig st) [].

(** The results of the system calls of kore_worker_shutdown:
    [waitpid_ret round idx] is what waitpid returns for slot [idx] in the
    given round of the outer loop. *)
Record shutdown_sys : Type := mk_shutdown_sys {
  waitpid_ret : nat -> Z -> Z;
  shmctl_ret : Z
}.

(** The body of the first inner loop of kore_worker_shutdown. The result
    of kore_seccomp_trace is not used. *)
Definition shutdown_wait (sys : shutdown_sys) (round : nat) (idx : Z)
    (st : state) : ctl state :=
  match kore_workers st !! Z.to_nat idx with
  | None => Stop Undefined
  | Some kw =>
      if running kw =? 0 then Next st
      else if negb (pid kw =? 0) then
        if waitpid_ret sys round idx =? -1 then Next st
        else
          let kw := kw_set_running 0 (kw_set_pid 0 kw) in
          let st := store_worker idx kw st in
          Next (if kore_quiet (conf st) =? 0 then
                  kore_log LOG_NOTICE "worker %s exited" [LInt (id kw)] st
                else st)
      else Next st
  end.

(** The body of the second inner loop; the loop state is [done]. *)
Definition shutdown_count (st : state) (idx : Z) (done : Z) : ctl Z :=
  match kore_workers st !! Z.to_nat idx with
  | None => Stop Undefined
  | Some kw => if running kw =? 0 then Next (u16 (done + 1)) else Next done
  end.

(** The outer [for (;;)] of kore_worker_shutdown, for at most [fuel]
    rounds. *)
Fixpoint shutdown_rounds (sys : shutdown_sys) (fuel round : nat)
    (st : state) : outcome state :=
  match fuel with
  | O => Loops
  | S fuel' =>
      st1 <- for_idx U16_TESTS 0 (worker_count st)
               (shutdown_wait sys round) st ;;
      done <- for_idx U16_TESTS 0 (worker_count st1) (shutdown_count st1)
                0 ;;
      if done =? worker_count st1 then Returns st1
      else shutdown_rounds sys fuel' (S round) st1
  end.

Definition kore_worker_shutdown (sys : shutdown_sys) (fuel : nat)
    (st : state) : outcome state :=
  let st :=
    if kore_quiet (conf st) =? 0 then
      kore_log LOG_NOTICE "waiting for workers to drain and shutdown" [] st
    else st in
  st1 <- shutdown_rounds sys fuel 0 st ;;
  Returns (if shmctl_ret sys =? -1 then
             kore_log LOG_NOTICE "failed to deleted shm segment: %s" [] st1
           else st1).

(** [errno] after a failed waitpid, as far as kore_worker_reap tells the
    values apart. *)
Inductive wait_errno : Type :=
| ECHILD
| EINTR
| EOTHER.

(** One call of [waitpid(WAIT_ANY, &status, WNOHANG)], with the system
    calls of the worker_reaper that may follow it. *)
Record wait_sys : Type := mk_wait_sys {
  wait_ret : Z;
  wait_err : wait_errno;
  wait_status : Z;
  wait_reap : reap_sys
}.

Section Reap.

Variable E : env.

(** [ws] holds the answers to the calls of waitpid, in order; the loop
    goes on for as long as there are answers. *)
Fixpoint kore_worker_reap (ws : list wait_sys) (st : state)
    : outcome state :=
  match ws with
  | [] => Loops
  | w :: rest =>
      if wait_ret w =? -1 then
        match wait_err w with
        | ECHILD => Returns st
        | EINTR => kore_worker_reap rest st
        | EOTHER =>
            Returns (kore_log LOG_ERR "failed to wait for children: %s" []
                       st)
        end
      else if wait_ret w =? 0 then Returns st
      else
        st1 <- worker_reaper E (wait_reap w) (wait_ret w) (wait_status w)
                 st ;;
        kore_worker_reap rest st1
  end.

End Reap.

(** ** Dropping privileges *)

Definition u32 (z : Z) : Z := z mod 2 ^ 32.

(** The system calls of kore_worker_privdrop, and its log lines. *)
Inductive priv_call : Type :=
| Cgetpwnam (name : string)
| Cchroot (path : string)
| Cchdir (path : string)
| Cgetrlimit
| Csetrlimit (cur max : Z)
| Csetgroups
| Csetgid
| Csetegid
| Csetuid
| Cseteuid
| Csetresgid
| Csetresuid
| Csandbox
| Clog (prio : log_prio) (fmt : string).

(** What the system calls of one kore_worker_privdrop return. [ids_ret]
    gives the result of each call that sets a user or group id. *)
Record privdrop_sys : Type := mk_privdrop_sys {
  getpwnam_found : bool;
  chroot_ret : Z;
  chdir_ret : Z;
  getrlimit_ret : Z;
  rlim_cur : Z;
  fcntl_ret : Z -> Z;
  setrlimit_ret : Z;
  ids_ret : priv_call -> Z
}.

(** [for (fd = 0; fd < rl.rlim_cur; fd++) if (fcntl(fd, F_GETFD, NULL) != -1)
    worker_rlimit_nofiles++;], with [n] rounds to go. *)
Fixpoint count_fds (sys : privdrop_sys) (n : nat) (fd nofiles : Z) : Z :=
  match n with
  | O => nofiles
  | S n' =>
      count_fds sys n' (fd + 1)
        (if negb (fcntl_ret sys fd =? -1) then u32 (nofiles + 1)
         else nofiles)
  end.

(** [a() || b() || ...]: the calls made, and whether one of them did not
    return 0. *)
Fixpoint drop_chain (sys : privdrop_sys) (cs : list priv_call)
    : bool * list priv_call :=
  match cs with
  | [] => (false, [])
  | c :: rest =>
      if negb (ids_ret sys c =? 0) then (true, [c])
      else let (failed, made) := drop_chain sys rest in (failed, c :: made)
  end.

(** The calls that give up the privileges; [mach] stands for
    [defined(__MACH__) || defined(NetBSD)]. *)
Definition drop_calls (mach : bool) : list priv_call :=
  if mach then [Csetgroups; Csetgid; Csetegid; Csetuid; Cseteuid]
  else [Csetgroups; Csetresgid; Csetresuid].

(** [skip_runas] and [skip_chroot] are the globals of these names,
    [nofiles] is worker_rlimit_nofiles; the result is the new
    worker_rlimit_nofiles and the calls made, in order. *)
Definition kore_worker_privdrop (mach : bool) (sys : privdrop_sys)
    (skip_runas skip_chroot : Z) (runas root : option string) (nofiles : Z)
    : outcome (Z * list priv_call) :=
  match root with
  | None => Fatal "no root directory for kore_worker_privdrop"
  | Some root =>
      calls <- (if skip_runas =? 0 then
                  match runas with
                  | None => Fatal "no runas user given and -r not specified"
                  | Some user =>
                      if getpwnam_found sys then Returns [Cgetpwnam user]
                      else Fatal "cannot getpwnam(%s) for user: %s"
                  end
                else Returns []) ;;
      calls <- (if skip_chroot =? 0 then
                  if chroot_ret sys =? -1 then Fatal "cannot chroot(%s): %s"
                  else if chdir_ret sys =? -1 then Fatal "cannot chdir(/): %s"
                  else Returns (calls ++ [Cchroot root; Cchdir "/"])
                else
                  if chdir_ret sys =? -1 then Fatal "cannot chdir(%s): %s"
                  else Returns (calls ++ [Cchdir root])) ;;
      let calls := calls ++ [Cgetrlimit] in
      let '(nofiles, calls) :=
        if getrlimit_ret sys =? -1 then
          (nofiles,
           calls ++ [Clog LOG_WARNING "getrlimit(RLIMIT_NOFILE): %s"])
        else (count_fds sys (Z.to_nat (rlim_cur sys)) 0 nofiles, calls) in
      let calls := calls ++ [Csetrlimit nofiles nofiles] in
      let calls :=
        if setrlimit_ret sys =? -1 then
          calls ++ [Clog LOG_ERR "setrlimit(RLIMIT_NOFILE, %u): %s"]
        else calls in
      calls <- (if skip_runas =? 0 then
                  let (failed, made) := drop_chain sys (drop_calls mach) in
                  if failed then Fatal "cannot drop privileges"
                  else Returns (calls ++ made)
                else Returns calls) ;;
      Returns (nofiles, calls ++ [Csandbox])
  end.

(** ** Notions used by the properties *)

(** The lock word is 0 (free) or 1 (held): it starts at 0 and changes by
    compare-and-swap between 0 and 1 only ([lock_wf_init], [lock_wf_cas]). *)
Definition lock_wf (l : wlock) : Prop := lock l = 0 \/ lock l = 1.

(** The domain [name] is served by a TLS-enabled server. *)
Definition domain_known (srvs : list kore_server) (name : list Z) : Prop :=
  exists srv dom,
    In srv srvs /\ tls srv <> 0 /\ In dom (domains srv)
    /\ strcmp (domain dom) name = 0.

(** What a worker does to its accept state between two waits: the two lock
    steps of a round, kore_worker_make_busy called by a request handler, an
    ACCEPT_AVAILABLE message, and connections and requests coming and
    going. *)
Inductive worker_op : Type :=
| OpAcquire
| OpRelease
| OpMakeBusy
| OpAcceptAvail
| OpLoad (connections requests : Z).

Definition set_load (connections requests : Z) (st : state) : state :=
  mk_state (conf st) (accept_lock st) (kore_workers st) (worker st)
    (worker_count st) (worker_no_lock st) (accept_avail st) connections
    requests (sig_recv st) (kore_servers st) (trace st).

Definition run_op (E : env) (op : worker_op) (s : Z * state) : Z * state :=
  match op with
  | OpAcquire => kore_worker_entry_acquire E (fst s) (snd s)
  | OpRelease => kore_worker_entry_release E (fst s) (snd s)
  | OpMakeBusy => (fst s, kore_worker_make_busy (snd s))
  | OpAcceptAvail => (fst s, worker_accept_avail (snd s))
  | OpLoad c r => (fst s, set_load c r (snd s))
  end.

Definition run_ops (E : env) (ops : list worker_op) (s : Z * state)
    : Z * state :=
  fold_left (fun s op => run_op E op s) ops s.

(** The system calls of a spawn went through, in the parent. *)
Definition spawn_ok (os : spawn_sys) : Prop :=
  socketpair_ret os <> -1 /\ nonblock0 os <> 0 /\ nonblock1 os <> 0
  /\ fork_ret os <> -1 /\ fork_ret os <> 0.

(** Identity and cpu of every slot of the table. *)
Definition slot_ids (st : state) : list (Z * Z) :=
  map (fun kw => (id kw, cpu kw)) (kore_workers st).

(** Slot [i] is the slot worker_reaper finds for [wpid]: the first one
    that records this pid. *)
Definition reaped_slot (st : state) (wpid i : Z) (kw : kore_worker) : Prop :=
  0 <= i < worker_count st /\ i < 65536
  /\ kore_workers st !! Z.to_nat i = Some kw /\ pid kw = wpid
  /\ forall j, 0 <= j < i ->
       exists kwj, kore_workers st !! Z.to_nat j = Some kwj
                   /\ pid kwj <> wpid.

(** What the three tests put in place of an infinite wait. *)
Definition idle_netwait (E : env) (coro_pending : Z) (st : state) : Z :=
  if KORE_USE_PYTHON E && negb (coro_pending =? 0) then 10
  else if negb (KORE_NO_HTTP E) && (0 <? http_request_count st) then 100
  else if negb (sig_recv st =? 0) then 10
  else KORE_WAIT_INFINITE E.

(** The events of a release: the optional debug line, the compare-and-swap
    of worker_unlock with its complaint when the word was not 1, and the
    broadcast. *)
Definition release_events (E : env) (st : state) : list event :=
  (if WORKER_DEBUG E
   then [EvLog LOG_DEBUG "worker busy, releasing lock" []] else [])
  ++ [EvCas 1 0 (lock (accept_lock st) =? 1)]
  ++ (if lock (accept_lock st) =? 1 then []
      else [EvLog LOG_NOTICE "worker_unlock(): wasn't locked" []])
  ++ [EvMsgSend KORE_MSG_WORKER_ALL KORE_MSG_ACCEPT_AVAILABLE 0].

(** A limit is reached: connections, or with HTTP compiled in, requests. *)
Definition at_limit (E : env) (st : state) : Prop :=
  worker_max_connections (conf st) <= worker_active_connections st
  \/ (KORE_NO_HTTP E = false
      /\ http_request_limit (conf st) <= http_request_count st).

(** [P] holds of the result if the function returns in the supervisor,
    [C] of the child if it is left through a fork. *)
Definition outcome_sat {A : Type} (P : A -> Prop)
    (C : kore_worker -> state -> Prop) (o : outcome A) : Prop :=
  match o with
  | Returns a => P a
  | InChild kw st => C kw st
  | _ => True
  end.

(** The compare-and-swap events of a trace. *)
Definition cas_events (t : list event) : list event := List.filter is_cas t.

(** Where a worker stands once its has_lock is 1 with arbitration off. *)
Definition solo_inv (l : wlock) (cas : list event) (s : Z * state) : Prop :=
  arbitration_off (snd s) = true
  /\ has_lock (worker (snd s)) = 1
  /\ accept_lock (snd s) = l
  /\ cas_events (trace (snd s)) = cas.

(** The number of network workers kore_worker_init settles on: the
    configured count, or the cpu count when none is configured. *)
Definition pool_size (p : state) : Z :=
  if worker_count p =? 0 then cpu_count (conf p) else worker_count p.

(** worker_count as kore_worker_init leaves it. *)
Definition init_count (E : env) (p : state) : Z :=
  to_worker_count E
    ((if worker_count p =? 0 then to_worker_count E (cpu_count (conf p))
      else worker_count p) + 2).

(** The pool and its two reserved slots fit worker_count and the 16-bit
    index of the loops over the table. *)
Definition pool_fits (E : env) (p : state) : Prop :=
  0 <= pool_size p
  /\ pool_size p + 2 < worker_count_range E
  /\ pool_size p + 2 < 65536.

(** The first round of the main loop in a freshly forked child. *)
Definition child_first_round (E : env) (o : outcome state)
    : option (Z * state) :=
  match o with
  | InChild kw st0 =>
      match kore_worker_entry_setup E kw st0 with
      | Some st => Some (kore_worker_entry_acquire E 0 st)
      | None => None
      end
  | _ => None
  end.

(** The checks of the verification: the header is there, the length is the
    header plus the declared data, the last byte of the domain slot is NUL,
    and, when a domain is asked for, a TLS-enabled server has it. *)
Definition keymgr_valid (E : env) (msg : kore_msg) (req : kore_x509_msg)
    (out_given : bool) (st : state) : Prop :=
  sizeof_kore_x509_msg E <= msg_length msg
  /\ msg_length msg = sizeof_kore_x509_msg E + data_len req
  /\ domain_last_byte E req = 0
  /\ (out_given = true -> domain_known (kore_servers st) (x509_domain req)).

(** The cpus of the first two network workers: the round-robin starts at
    cpu 1 and wraps to 0 at cpu_count. *)
Definition first_cpus (cpus : Z) : Z * Z :=
  if cpus <=? 1 then (0, 0) else if cpus =? 2 then (1, 0) else (1, 2).

(** The state a supervisor function returned, if it did. *)
Definition returned {A : Type} (o : outcome A) : option A :=
  match o with Returns a => Some a | _ => None end.

(** Id and cpu of the network workers, after start-up. *)
Definition network_ids (o : outcome state) : option (list (Z * Z)) :=
  option_map (fun st => drop (Z.to_nat KORE_WORKER_BASE) (slot_ids st))
    (returned o).

(** The table has worker_count slots, few enough for the loop index. *)
Definition table_wf (st : state) : Prop :=
  Z.of_nat (length (kore_workers st)) = worker_count st
  /\ worker_count st < 65536.

(** Same table size and worker count. *)
Definition same_shape (st st' : state) : Prop :=
  length (kore_workers st') = length (kore_workers st)
  /\ worker_count st' = worker_count st.

(** The listener's accept readiness as the trace leaves it: [Some true]
    when enabled, [Some false] when disabled, [None] when the trace enables
    an enabled listener or disables a disabled one. *)
Definition accept_step (acc : option bool) (e : event) : option bool :=
  match acc, e with
  | Some false, EvEnableAccept => Some true
  | Some true, EvDisableAccept => Some false
  | Some _, EvEnableAccept => None
  | Some _, EvDisableAccept => None
  | _, _ => acc
  end.

Definition accept_state (t : list event) : option bool :=
  fold_left accept_step t (Some false).

Definition is_accept_event (e : event) : bool :=
  match e with
  | EvEnableAccept | EvDisableAccept => true
  | _ => false
  end.

(** Arbitration is on and no limit hinders: the worker would go for the
    lock. *)
Definition contending (E : env) (st : state) : Prop :=
  arbitration_off st = false
  /\ has_lock (worker st) = 0
  /\ ~ at_limit E st.

(** Where the listener stands between two steps of a worker: enabled
    exactly when [had_lock] is 1. *)
Definition accept_inv (s : Z * state) : Prop :=
  (fst s = 0 \/ fst s = 1)
  /\ accept_state (trace (snd s)) = Some (fst s =? 1).

(** Where a worker with arbitration off stands: the lock region and the
    compare-and-swaps on record are those it started with. *)
Definition off_inv (l : wlock) (cas : list event) (s : Z * state) : Prop :=
  arbitration_off (snd s) = true
  /\ accept_lock (snd s) = l
  /\ cas_events (trace (snd s)) = cas.

(** A pool of workers around one lock region. Each member carries the
    [had_lock] of its main loop and its globals; the lock region it sees
    is the shared one. A step is one whole operation of one member. *)
Definition pool : Type := wlock * list (Z * state).

Definition pool_step (E : env) (p : pool) (step : nat * worker_op) : pool :=
  match snd p !! fst step with
  | None => p
  | Some s =>
      let s' := run_op E (snd step) (fst s, set_accept_lock (fst p) (snd s)) in
      (accept_lock (snd s'), <[fst step := s']> (snd p))
  end.

Definition pool_run (E : env) (schedule : list (nat * worker_op)) (p : pool)
    : pool :=
  fold_left (pool_step E) schedule p.

(** Member [i] believes it holds the lock. *)
Definition believes_held (p : pool) (i : nat) : Prop :=
  exists s, snd p !! i = Some s /\ has_lock (worker (snd s)) = 1.

(** The lock word is 0 or 1, every member arbitrates and has a has_lock of
    0 or 1, and a member with has_lock 1 is the recorded holder of a taken
    lock and the only such member. *)
Definition exclusive (p : pool) : Prop :=
  lock_wf (fst p)
  /\ (forall i s, snd p !! i = Some s ->
        arbitration_off (snd s) = false
        /\ (has_lock (worker (snd s)) = 0 \/ has_lock (worker (snd s)) = 1))
  /\ (forall i s, snd p !! i = Some s -> has_lock (worker (snd s)) = 1 ->
        lock (fst p) = 1 /\ current (fst p) = pid (worker (snd s)))
  /\ (forall i j, believes_held p i -> believes_held p j -> i = j).

(** The forks on record. *)
Definition is_fork (e : event) : bool :=
  match e with EvFork _ => true | _ => false end.

Definition fork_events (t : list event) : list event := List.filter is_fork t.

(** The reap is not taken for a seccomp trace stop. *)
Definition not_traced (E : env) (wpid status : Z) : Prop :=
  (linux E && negb (kore_seccomp_trace E wpid status =? 0)) = false.

(** The status is that of a clean exit. *)
Definition clean_exit (E : env) (status : Z) : bool :=
  WIFEXITED E status && (WEXITSTATUS E status =? 0).

(** The slot once its process is gone for good. *)
Definition emptied (kw : kore_worker) : kore_worker :=
  kw_set_pid 0 (kw_set_running 0 kw).

(** The log lines of the reaper for a process that did not exit cleanly. *)
Definition gone_logged (E : env) (wpid status : Z) (kw : kore_worker)
    (st : state) : state :=
  let st :=
    if kore_quiet (conf st) =? 0 then
      kore_log LOG_NOTICE "worker %s (%d) exited with status %d"
        [LInt (id kw); LInt wpid; LInt status] st
    else st in
  let fn :=
    if negb (KORE_NO_HTTP E) then
      match active_hdlr kw with
      | Some h => func h
      | None => "none"
      end
    else "none" in
  let st :=
    kore_log LOG_NOTICE "worker %d (pid: %d) (hdlr: %s) gone"
      [LInt (id kw); LInt (pid kw); LStr fn] st in
  if linux E && WIFSIGNALED E status && (WTERMSIG E status =? SIGSYS E) then
    kore_log LOG_NOTICE "worker %d died from sandbox violation"
      [LInt (id kw)] st
  else st.

(** The reaper's release of the lock of a dead holder. *)
Definition holder_unlocked (kw : kore_worker) (st : state) : state :=
  if (pid kw =? current (accept_lock st)) && (worker_no_lock st =? 0)
  then worker_unlock st else st.

(** The reaper's count of the crashes of the handler that was running. *)
Definition blamed (E : env) (kw : kore_worker) (st : state)
    : kore_worker * state :=
  if negb (KORE_NO_HTTP E) then
    match active_hdlr kw with
    | Some h =>
        (kw_set_active_hdlr (Some (mk_hdlr (func h) (errors h + 1))) kw,
         kore_log LOG_NOTICE "hdlr %s has caused %d error(s)"
           [LStr (func h); LInt (errors h + 1)] st)
    | None => (kw, st)
    end
  else (kw, st).

(** The worker is one of the two siblings. *)
Definition is_sibling (E : env) (kw : kore_worker) : bool :=
  (id kw =? KORE_WORKER_KEYMGR E) || (id kw =? KORE_WORKER_ACME E).

(** The lock region and the compare-and-swaps on record stay, and so does
    the reason the reaper has to leave the lock alone. *)
Definition lock_kept (st st' : state) : Prop :=
  accept_lock st' = accept_lock st
  /\ worker_no_lock st' = worker_no_lock st
  /\ cas_events (trace st') = cas_events (trace st).

(** The requests for certificates on record. *)
Definition is_cert_req (e : event) : bool :=
  match e with
  | EvMsgSend _ KORE_MSG_CERTIFICATE_REQ _ => true
  | _ => false
  end.

Definition cert_requests (t : list event) : list event :=
  List.filter is_cert_req t.

(** The system calls of a spawn went through, in the child. *)
Definition spawn_in_child (os : spawn_sys) : Prop :=
  socketpair_ret os <> -1 /\ nonblock0 os <> 0 /\ nonblock1 os <> 0
  /\ fork_ret os = 0.

(** The slot of the network worker started in slot [i] of a machine with
    [cpus] cpus, as the supervisor records it. *)
Definition network_slot (os : Z -> spawn_sys) (cpus : Z) (i : Z)
    : kore_worker :=
  mk_worker (i - 1) ((i - 1) mod cpus) (fork_ret (os i))
    (socketpair_fds (os i)) 1 0 0 None 0.

(** The table after the start of [n] network workers and no sibling. *)
Definition init_table (os : Z -> spawn_sys) (cpus n : Z)
    : list kore_worker :=
  [zero_worker; zero_worker] ++ map (network_slot os cpus) (seqZ 2 n).

(** The forks of the start of [n] network workers. *)
Definition init_forks (os : Z -> spawn_sys) (n : Z) : list event :=
  map (fun i => EvFork (fork_ret (os i))) (seqZ 2 n).

(** The state of the supervisor once the network workers of slots 2 to
    [i - 1] have been started. *)
Definition init_upto (os : Z -> spawn_sys) (p : state) (i : Z) : state :=
  mk_state (conf p) (mk_wlock 0 0)
    (init_table os (cpu_count (conf p)) (i - 2)
       ++ replicate (Z.to_nat (pool_size p + 2 - i)) zero_worker)
    (worker p) (pool_size p + 2) 0 (accept_avail p)
    (worker_active_connections p) (http_request_count p) (sig_recv p)
    (kore_servers p) (trace p ++ init_forks os (i - 2)).

(** The slot of a sibling started in slot [i] with id [wid]. *)
Definition sibling_slot (os : Z -> spawn_sys) (i wid : Z) : kore_worker :=
  mk_worker wid 0 (fork_ret (os i)) (socketpair_fds (os i)) 1 0 0 None 0.

(** The siblings have the two reserved slots. *)
Definition reserved_slots (E : env) : Prop :=
  0 <= KORE_WORKER_KEYMGR_IDX E < KORE_WORKER_BASE
  /\ 0 <= KORE_WORKER_ACME_IDX E < KORE_WORKER_BASE
  /\ KORE_WORKER_KEYMGR_IDX E <> KORE_WORKER_ACME_IDX E.

(** The ACME sibling is built in and asked for. *)
Definition acme_wanted (E : env) (p : state) : bool :=
  KORE_USE_ACME E && acme_provider (conf p).

(** Domain [di] of server [si] is where the lookup of the verification
    stops for [name]: the first domain with this name of the first
    TLS-enabled server that has one. *)
Definition first_match (srvs : list kore_server) (name : list Z)
    (si di : nat) : Prop :=
  exists srv dom,
    srvs !! si = Some srv /\ tls srv <> 0
    /\ domains srv !! di = Some dom /\ strcmp (domain dom) name = 0
    /\ (forall dj d, (dj < di)%nat -> domains srv !! dj = Some d ->
          strcmp (domain d) name <> 0)
    /\ (forall sj srv' d, (sj < si)%nat -> srvs !! sj = Some srv' ->
          tls srv' <> 0 -> In d (domains srv') ->
          strcmp (domain d) name <> 0).



(** The calls of kore_free on record. *)
Definition is_free (e : event) : bool :=
  match e with EvFree _ => true | _ => false end.

Definition free_events (t : list event) : list event := List.filter is_free t.

(** kore_domain_tlsinit leaves the name of the domain alone. *)
Definition tlsinit_keeps_name (E : env) : Prop :=
  forall dom t buf len,
    domain (kore_domain_tlsinit E dom t buf len) = domain dom.

(** The message passes the checks of the verification that do not look at
    the servers. *)
Definition well_formed (E : env) (msg : kore_msg) (req : kore_x509_msg)
    : bool :=
  negb (msg_length msg <? sizeof_kore_x509_msg E)
  && (msg_length msg =? size_t_wrap (sizeof_kore_x509_msg E + data_len req))
  && (domain_last_byte E req =? 0).

(** The calls of kill(2) for one signal to every slot of the table. *)
Definition kill_calls (sig : Z) (st : state) : list (Z * Z) :=
  map (fun kw => (pid kw, sig)) (kore_workers st).

(** The slot is not running. *)
Definition stopped (kw : kore_worker) : bool := running kw =? 0.

(** In this round kore_worker_shutdown gets hold of the worker of slot
    [i]: it is running, has a pid, and waitpid does not fail. *)
Definition reaped (sys : shutdown_sys) (round i : nat) (kw : kore_worker)
    : bool :=
  negb (running kw =? 0) && negb (pid kw =? 0)
  && negb (waitpid_ret sys round (Z.of_nat i) =? -1).

(** Slot [i] after one round. *)
Definition waited (sys : shutdown_sys) (round i : nat) (kw : kore_worker)
    : kore_worker :=
  if reaped sys round i kw then kw_set_running 0 (kw_set_pid 0 kw) else kw.

(** The log line of one round for slot [i]. *)
Definition exit_log (sys : shutdown_sys) (round : nat) (c : config)
    (i : nat) (kw : kore_worker) : list event :=
  if reaped sys round i kw && (kore_quiet c =? 0) then
    [EvLog LOG_NOTICE "worker %s exited" [LInt (id kw)]]
  else [].

(** The supervisor in a round of kore_worker_shutdown, once the slots
    below [i] have been waited for. *)
Definition round_upto (sys : shutdown_sys) (round : nat) (st : state)
    (i : nat) : state :=
  mk_state (conf st) (accept_lock st)
    (imap (waited sys round) (take i (kore_workers st))
       ++ drop i (kore_workers st))
    (worker st) (worker_count st) (worker_no_lock st) (accept_avail st)
    (worker_active_connections st) (http_request_count st) (sig_recv st)
    (kore_servers st)
    (trace st
       ++ concat (imap (exit_log sys round (conf st))
                    (take i (kore_workers st)))).

(** The supervisor after a whole round. *)
Definition round_state (sys : shutdown_sys) (round : nat) (st : state)
    : state :=
  round_upto sys round st (length (kore_workers st)).

(** The first and the last log line of kore_worker_shutdown. *)
Definition shutdown_start (st : state) : state :=
  if kore_quiet (conf st) =? 0 then
    kore_log LOG_NOTICE "waiting for workers to drain and shutdown" [] st
  else st.

Definition shutdown_end (sys : shutdown_sys) (st : state) : state :=
  if shmctl_ret sys =? -1 then
    kore_log LOG_NOTICE "failed to deleted shm segment: %s" [] st
  else st.

(** A slot once kore_worker_shutdown has waited for its worker. *)
Definition halted (kw : kore_worker) : kore_worker :=
  if stopped kw then kw else kw_set_running 0 (kw_set_pid 0 kw).

(** The log lines for the workers that were running. *)
Definition exit_lines (c : config) (tbl : list kore_worker) : list event :=
  concat
    (map (fun kw =>
            if negb (stopped kw) && (kore_quiet c =? 0) then
              [EvLog LOG_NOTICE "worker %s exited" [LInt (id kw)]]
            else []) tbl).

(** What kore_worker_shutdown leaves behind when it returns. *)
Definition shut_down (st st' : state) : Prop :=
  Forall (fun kw => running kw = 0) (kore_workers st')
  /\ slot_ids st' = slot_ids st
  /\ accept_lock st' = accept_lock st
  /\ worker_count st' = worker_count st.

(** Every worker that is still running can be waited for in the first
    round. *)
Definition all_waitable (sys : shutdown_sys) (st : state) : Prop :=
  forall i kw,
    kore_workers st !! i = Some kw -> running kw <> 0 ->
    pid kw <> 0 /\ waitpid_ret sys 0 (Z.of_nat i) <> -1.

(** The children a run of waitpid answers reports: every answer but the
    failures. *)
Definition children (ws : list wait_sys) : list (reap_sys * Z * Z) :=
  map (fun w => (wait_reap w, wait_ret w, wait_status w))
    (List.filter (fun w => negb (wait_ret w =? -1)) ws).

(** The answer reports a child, or is a failure with EINTR. *)
Definition goes_on (w : wait_sys) : Prop :=
  wait_ret w <> 0 /\ (wait_ret w = -1 -> wait_err w = EINTR).

(** The answer ends kore_worker_reap: no child has changed state, or
    waitpid failed with something other than EINTR. *)
Definition ends_reap (w : wait_sys) : Prop :=
  wait_ret w = 0 \/ (wait_ret w = -1 /\ wait_err w <> EINTR).

(** The log line of the end of kore_worker_reap. *)
Definition reap_end (w : wait_sys) (st : state) : state :=
  if wait_ret w =? -1 then
    match wait_err w with
    | EOTHER => kore_log LOG_ERR "failed to wait for children: %s" [] st
    | _ => st
    end
  else st.

(** The descriptors below [lim] that are open, as fcntl tells. *)
Definition open_fds (sys : privdrop_sys) (fd : Z) (n : nat) : Z :=
  Z.of_nat
    (length (List.filter (fun fd => negb (fcntl_ret sys fd =? -1))
               (seqZ fd (Z.of_nat n)))).

(** The call sets a user or group id. *)
Definition sets_id (c : priv_call) : bool :=
  match c with
  | Csetgroups | Csetgid | Csetegid | Csetuid | Cseteuid
  | Csetresgid | Csetresuid => true
  | _ => false
  end.

(** The event is a log line or a compare-and-swap. *)
Definition is_log_or_cas (e : event) : bool :=
  match e with
  | EvLog _ _ _ | EvCas _ _ _ => true
  | _ => false
  end.

(** The slot of a worker the supervisor has started again. *)
Definition restarted_slot (os : reap_sys) (kw : kore_worker) : kore_worker :=
  mk_worker (id kw) (cpu kw) (fork_ret (respawn os))
    (socketpair_fds (respawn os)) 1 0 1 None (lb_offset kw).

(** ** Values for the examples *)

(** The characters of a string. *)
Fixpoint chars (s : string) : list Z :=
  match s with
  | EmptyString => []
  | String a s' => Z.of_N (Ascii.N_of_ascii a) :: chars s'
  end.

(** A domain slot of [n + 1] bytes holding [s]. *)
Definition domain_slot (n : nat) (s : string) : list Z :=
  take (S n) (chars s ++ replicate (S n) 0).

(** A Linux build with HTTP and ACME and without Python.  The entries for
    kore.h are sample values; the status macros follow the usual encoding
    of wait statuses. *)
Definition sample_env : env :=
  {| KORE_NO_HTTP := false;
     KORE_USE_ACME := true;
     KORE_USE_PYTHON := false;
     WORKER_DEBUG := false;
     linux := true;
     KORE_WORKER_KEYMGR_IDX := 0;
     KORE_WORKER_ACME_IDX := 1;
     KORE_WORKER_KEYMGR := 2000;
     KORE_WORKER_ACME := 2001;
     KORE_WAIT_INFINITE := 2 ^ 64 - 1;
     KORE_DOMAINNAME_LEN := 255;
     sizeof_kore_x509_msg := 264;
     sizeof_worker_count := 1;
     WIFEXITED := fun s => Z.land s 127 =? 0;
     WEXITSTATUS := fun s => Z.land (Z.shiftr s 8) 255;
     WIFSIGNALED := fun s => (0 <? Z.land s 127) && (Z.land s 127 <? 127);
     WTERMSIG := fun s => Z.land s 127;
     SIGSYS := 31;
     kore_seccomp_trace := fun _ _ => 0;
     kore_domain_tlsinit := fun dom _ _ _ =>
       mk_domain (domain dom) (Some 1) (acme_cert dom) (acme_cert_len dom)
         (acme_challenge dom);
     kore_domain_crl_add := fun dom _ _ => dom |}.

Definition sample_conf (cpus : Z) : config :=
  {| cpu_count := cpus;
     keymgr_active := 0;
     acme_provider := false;
     kore_quiet := 0;
     nlisteners := 1;
     worker_policy := KORE_WORKER_POLICY_RESTART;
     worker_max_connections := 512;
     http_request_limit := 1000 |}.

(** The supervisor before kore_worker_init, with [n] configured workers on
    a machine with [cpus] cpus. *)
Definition boot_state (n cpus : Z) : state :=
  {| conf := sample_conf cpus;
     accept_lock := mk_wlock 0 0;
     kore_workers := [];
     worker := zero_worker;
     worker_count := n;
     worker_no_lock := 0;
     accept_avail := 0;
     worker_active_connections := 0;
     http_request_count := 0;
     sig_recv := 0;
     kore_servers := [];
     trace := [] |}.

Definition shm_ok : init_sys := mk_init_sys 7 false.

(** Every spawn succeeds; slot [idx] gets pid [100 + idx]. *)
Definition forks_ok (idx : Z) : spawn_sys :=
  mk_spawn_sys 0 (10 + 2 * idx, 11 + 2 * idx) 1 1 (100 + idx) (100 + idx).

(** As [forks_ok], seen from the child forked for slot [slot]. *)
Definition forks_child (slot idx : Z) : spawn_sys :=
  if idx =? slot then
    mk_spawn_sys 0 (10 + 2 * idx, 11 + 2 * idx) 1 1 0 (100 + idx)
  else forks_ok idx.

(** A worker of a pool of [n] configured workers, in its main loop. *)
Definition worker_state (n : Z) (held : Z) (l : wlock)
    (connections : Z) : state :=
  {| conf := sample_conf 4;
     accept_lock := l;
     kore_workers := [];
     worker := mk_worker 1 1 102 (14, 15) 1 held 0 None 0;
     worker_count := n + 2;
     worker_no_lock := 0;
     accept_avail := 1;
     worker_active_connections := connections;
     http_request_count := 0;
     sig_recv := 0;
     kore_servers := [];
     trace := [] |}.

(** A TLS server for [example.com] and a plain one for [plain.test]. *)
Definition sample_servers : list kore_server :=
  [ mk_server 0 [mk_domain (chars "plain.test") None CertNull 0 0];
    mk_server 1 [mk_domain (chars "example.com") None CertNull 0 0] ].

Definition with_servers (srvs : list kore_server) (st : state) : state :=
  set_kore_servers srvs st.

(** A worker of a pool of four with SIGTERM pending. *)
Definition signalled_worker : state :=
  mk_state (sample_conf 4) (mk_wlock 0 0) []
    (mk_worker 1 1 102 (14, 15) 1 0 0 None 0) 6 0 1 0 0 SIGTERM [] [].

(** A worker of a pool of four with one HTTP request in flight. *)
Definition serving_worker : state :=
  mk_state (sample_conf 4) (mk_wlock 0 0) []
    (mk_worker 1 1 102 (14, 15) 1 0 0 None 0) 6 0 1 1 1 0 [] [].

(** A worker that knows [sample_servers]. *)
Definition tls_worker : state :=
  with_servers sample_servers (worker_state 4 0 (mk_wlock 0 0) 0).

(** A CERTIFICATE message of three bytes for [name]. *)
Definition cert_msg : kore_msg := mk_msg KORE_MSG_CERTIFICATE 267.

Definition cert_req (name : string) : kore_x509_msg :=
  mk_x509 (domain_slot 255 name) 3 [1; 2; 3].

(** The supervisor once kore_worker_init has returned. *)
Definition started (n cpus : Z) : state :=
  match kore_worker_init sample_env shm_ok forks_ok (boot_state n cpus) with
  | Returns st => st
  | _ => boot_state n cpus
  end.

(** The respawn succeeds and gives the new child pid [newpid]. *)
Definition respawn_as (newpid : Z) : reap_sys :=
  mk_reap_sys (mk_spawn_sys 0 (30, 31) 1 1 newpid newpid) 0.

(** Wait status of a child killed by SIGKILL. *)
Definition killed : Z := 9.

(** A pool of four on four cpus in which the worker of slot 4 (id 3,
    pid 104) holds the accept lock. *)
Definition holder_record : kore_worker :=
  mk_worker 3 3 104 (18, 19) 1 1 0 None 0.

Definition pool_with_holder : state :=
  set_accept_lock (mk_wlock 1 104)
    (store_worker 4 holder_record (started 4 4)).

(** A supervisor state for a server without listeners. *)
Definition no_listener_conf : config :=
  mk_config 4 0 false 0 0 KORE_WORKER_POLICY_RESTART 512 1000.

(** A worker of a pool of four with pid [wpid], at the start of its main
    loop. *)
Definition member (wpid : Z) : Z * state :=
  (0, mk_state (sample_conf 4) (mk_wlock 0 0) []
        (mk_worker 1 1 wpid (14, 15) 1 0 0 None 0) 6 0 1 0 0 0 [] []).

(** Two workers: the first takes the lock, fills up and releases it; the
    second then takes it. *)
Definition handover : list (nat * worker_op) :=
  [(0%nat, OpAcquire); (1%nat, OpAcquire); (0%nat, OpLoad 600 0);
   (0%nat, OpRelease); (1%nat, OpAcceptAvail); (1%nat, OpAcquire)].

(** [pool_with_holder] under policy terminate. *)
Definition terminate_pool : state :=
  mk_state
    (mk_config 4 0 false 0 1 KORE_WORKER_POLICY_TERMINATE 512 1000)
    (mk_wlock 1 104) (kore_workers pool_with_holder) zero_worker 6 0 0 0 0 0
    [] [].

(** The respawn succeeds; seen from the new child, whose pid is [newpid]. *)
Definition respawn_child (newpid : Z) : reap_sys :=
  mk_reap_sys (mk_spawn_sys 0 (30, 31) 1 1 0 newpid) 0.

(** The supervisor before kore_worker_init, with a keymgr and an ACME
    provider configured. *)
Definition keymgr_boot (n cpus : Z) : state :=
  mk_state
    (mk_config cpus 1 true 0 1 KORE_WORKER_POLICY_RESTART 512 1000)
    (mk_wlock 0 0) [] zero_worker n 0 0 0 0 0 [] [].

(** A plain server and a TLS server that both serve [example.com]. *)
Definition shadowed_servers : list kore_server :=
  [ mk_server 0 [mk_domain (chars "example.com") None CertNull 0 0];
    mk_server 1 [mk_domain (chars "kore.test") None CertNull 0 0;
                 mk_domain (chars "example.com") None CertNull 0 0] ].

(** The two messages of an ACME challenge for [name]. *)
Definition challenge_set : kore_msg := mk_msg KORE_ACME_CHALLENGE_SET_CERT 267.

Definition challenge_clear : kore_msg :=
  mk_msg KORE_ACME_CHALLENGE_CLEAR_CERT 264.

Definition clear_req (name : string) : kore_x509_msg :=
  mk_x509 (domain_slot 255 name) 0 [].

(** Every waitpid of the shutdown succeeds, and so does shmctl. *)
Definition waits_ok : shutdown_sys := mk_shutdown_sys (fun _ idx => 100 + idx) 0.

(** No waitpid of the shutdown ever succeeds. *)
Definition waits_fail : shutdown_sys := mk_shutdown_sys (fun _ _ => -1) 0.

(** Answers of waitpid: a child that was killed, an interrupted call, and
    no child left. *)
Definition wait_child (wpid newpid : Z) : wait_sys :=
  mk_wait_sys wpid ECHILD killed (respawn_as newpid).

Definition wait_eintr : wait_sys := mk_wait_sys (-1) EINTR 0 (respawn_as 0).

Definition wait_none : wait_sys := mk_wait_sys 0 ECHILD 0 (respawn_as 0).

(** The system calls of a privilege drop that goes through; descriptors 0
    to 4 are open. *)
Definition privdrop_ok : privdrop_sys :=
  mk_privdrop_sys true 0 0 0 1024 (fun fd => if fd <? 5 then 0 else -1) 0
    (fun _ => 0).

(** The calls of a drop to user [kore] under [/var/chroot/kore]. *)
Definition privdrop_calls : list priv_call :=
  [Cgetpwnam "kore"; Cchroot "/var/chroot/kore"; Cchdir "/"; Cgetrlimit;
   Csetrlimit 773 773; Csetgroups; Csetresgid; Csetresuid; Csandbox].

(** ** Properties *)

(** *** Helpers *)

Ltac zcases :=
  repeat match goal with
  | |- context [?a =? ?b] => destruct (Z.eqb_spec a b)
  | |- context [?a <? ?b] => destruct (Z.ltb_spec a b)
  | |- context [?a >=? ?b] => rewrite (Z.geb_leb a b)
  | |- context [?a >? ?b] => rewrite (Z.gtb_ltb a b)
  | |- context [?a <=? ?b] => destruct (Z.leb_spec a b)
  end.

Lemma lock_wf_init : lock_wf (mk_wlock 0 0).
Proof. left; reflexivity. Qed.

Lemma lock_wf_cas (st : state) :
  lock_wf (accept_lock st) ->
  lock_wf (accept_lock (snd (compare_and_swap 0 1 st)))
  /\ lock_wf (accept_lock (snd (compare_and_swap 1 0 st))).
Proof.
  unfold lock_wf, compare_and_swap; intros Hwf; split; zcases; cbn; lia.
Qed.

Lemma trace_kore_log prio fmt args st :
  trace (kore_log prio fmt args st) = trace st ++ [EvLog prio fmt args].
Proof. reflexivity. Qed.

(** *** The lock word *)

(** C9. From any state of the lock region (the word is 0 or 1, whoever the
    recorded holder is), worker_trylock followed at once by worker_unlock in
    the same process leaves the lock word at 0. *)
Theorem trylock_then_unlock_frees (st : state) :
  lock_wf (accept_lock st) ->
  lock (accept_lock (worker_unlock (snd (worker_trylock st)))) = 0.
Proof.
  unfold lock_wf, worker_unlock, worker_trylock, compare_and_swap.
  destruct st as [c [l cur] tbl w wc nl av conns reqs sig srvs tr].
  cbn. intros [-> | ->]; reflexivity.
Qed.

Lemma trylock_then_unlock_frees_witness :
  lock_wf (accept_lock (worker_state 4 0 (mk_wlock 1 999) 0))
  /\ lock (accept_lock
             (worker_unlock
                (snd (worker_trylock
                        (worker_state 4 0 (mk_wlock 1 999) 0))))) = 0.
Proof.
  split.
  - right; reflexivity.
  - apply (trylock_then_unlock_frees (worker_state 4 0 (mk_wlock 1 999) 0)).
    right; reflexivity.
Defined.

(** C10. A worker whose has_lock is already 1 gets 1 from
    worker_acceptlock_obtain and is left exactly as it was: no
    compare-and-swap is recorded and neither the worker nor the lock region
    changes. *)
Theorem obtain_while_holding_is_noop (E : env) (st : state) :
  has_lock (worker st) = 1 ->
  worker_acceptlock_obtain E st = (1, st).
Proof.
  intros Hheld. unfold worker_acceptlock_obtain.
  rewrite Hheld. reflexivity.
Qed.

Lemma obtain_while_holding_is_noop_witness :
  has_lock (worker (worker_state 4 1 (mk_wlock 1 102) 0)) = 1
  /\ worker_acceptlock_obtain sample_env
       (worker_state 4 1 (mk_wlock 1 102) 0)
     = (1, worker_state 4 1 (mk_wlock 1 102) 0).
Proof.
  split.
  - reflexivity.
  - apply (obtain_while_holding_is_noop sample_env
             (worker_state 4 1 (mk_wlock 1 102) 0)).
    reflexivity.
Defined.

(** *** Entropy responses *)

Lemma entropy_recv_any_length (msg : kore_msg) (payload : list Z)
    (st : state) :
  exists logged,
    trace (worker_entropy_recv msg payload st)
    = trace st ++ logged
        ++ [EvRandPoll; EvRandSeed payload (msg_length msg)]
    /\ (msg_length msg = 1024 -> logged = [])
    /\ (msg_length msg <> 1024 ->
        logged = [EvLog LOG_WARNING
                    "invalid entropy response (got:%zu - wanted:1024)"
                    [LInt (msg_length msg)]]).
Proof.
  unfold worker_entropy_recv.
  destruct (Z.eqb_spec (msg_length msg) 1024) as [Heq | Hne]; cbn.
  - exists []. rewrite <- app_assoc. cbn. repeat split; congruence.
  - exists [EvLog LOG_WARNING
              "invalid entropy response (got:%zu - wanted:1024)"
              [LInt (msg_length msg)]].
    rewrite <- !app_assoc. cbn. repeat split; congruence.
Qed.

(** C3. An ENTROPY_RESP of 512 bytes is not dropped: after the one warning
    the handler goes on to RAND_poll and seeds the RNG from the 512 bytes of
    the payload. *)
Theorem entropy_recv_short_payload_seeds (payload : list Z) (st : state) :
  trace (worker_entropy_recv (mk_msg KORE_MSG_ENTROPY_RESP 512) payload st)
  = trace st
      ++ [EvLog LOG_WARNING
            "invalid entropy response (got:%zu - wanted:1024)" [LInt 512];
          EvRandPoll;
          EvRandSeed payload 512].
Proof.
  unfold worker_entropy_recv; cbn. rewrite <- !app_assoc. reflexivity.
Qed.

(** *** The event timeout *)

(** C4, as the code has it. With a timer pending the timeout is the time to
    that timer, whatever else is going on. Only when no timer is pending
    (kore_timer_next_run gave KORE_WAIT_INFINITE) is the wait shortened: to
    10 ms when a coroutine is runnable, else to 100 ms when an HTTP request
    is in flight, else to 10 ms when a signal is pending; and the timeout is
    infinite exactly when no timer is pending and none of the three holds. *)
Theorem netwait_spec (E : env) (next_run coro_pending : Z) (st : state) :
  KORE_WAIT_INFINITE E <> 10 ->
  KORE_WAIT_INFINITE E <> 100 ->
  let netwait := kore_worker_entry_netwait E next_run coro_pending st in
  (next_run <> KORE_WAIT_INFINITE E -> netwait = next_run)
  /\ (next_run = KORE_WAIT_INFINITE E ->
      netwait = idle_netwait E coro_pending st)
  /\ (netwait = KORE_WAIT_INFINITE E <->
      next_run = KORE_WAIT_INFINITE E
      /\ sig_recv st = 0
      /\ (KORE_NO_HTTP E = true \/ http_request_count st <= 0)
      /\ (KORE_USE_PYTHON E = false \/ coro_pending = 0)).
Proof.
  intros H10 H100 netwait. subst netwait.
  unfold kore_worker_entry_netwait, idle_netwait.
  rewrite Z.gtb_ltb.
  destruct (Z.eqb_spec next_run (KORE_WAIT_INFINITE E)) as [Hinf | Hfin].
  - subst next_run.
    destruct (KORE_USE_PYTHON E), (KORE_NO_HTTP E);
      destruct (Z.eqb_spec coro_pending 0);
      destruct (Z.eqb_spec (sig_recv st) 0);
      destruct (Z.ltb_spec 0 (http_request_count st));
      cbn; (split; [congruence | split; [reflexivity | ]]);
      split; intros; try congruence; try lia; intuition (try lia; congruence).
  - split; [reflexivity | split; [congruence | ]].
    split; intros; [congruence | tauto].
Qed.

Lemma netwait_spec_witness :
  KORE_WAIT_INFINITE sample_env <> 10
  /\ KORE_WAIT_INFINITE sample_env <> 100
  /\ kore_worker_entry_netwait sample_env (2 ^ 64 - 1) 0 serving_worker
     = 100.
Proof.
  assert (H10 : KORE_WAIT_INFINITE sample_env <> 10)
    by (vm_compute; discriminate).
  assert (H100 : KORE_WAIT_INFINITE sample_env <> 100)
    by (vm_compute; discriminate).
  split; [exact H10 | split; [exact H100 | ]].
  destruct (netwait_spec sample_env (2 ^ 64 - 1) 0 serving_worker H10 H100)
    as (_ & Hidle & _).
  rewrite Hidle; reflexivity.
Defined.

(** C4, as stated, fails: with SIGTERM pending and the next timer 5000 ms
    away the timeout is 5000 ms, not 10 ms. *)
Lemma netwait_signal_does_not_shorten_timer :
  sig_recv signalled_worker <> 0
  /\ kore_worker_entry_netwait sample_env 5000 0 signalled_worker = 5000
  /\ ~ 5000 <= 10.
Proof.
  split; [vm_compute; discriminate | split; [reflexivity | lia]].
Qed.

(** *** The release check *)

Lemma below_limits_false (E : env) (st : state) :
  below_limits E st = false <-> at_limit E st.
Proof.
  unfold below_limits, at_limit.
  destruct (KORE_NO_HTTP E); cbn; zcases; intuition (try lia; congruence).
Qed.

(** C7. For a worker whose has_lock is 1: while arbitration is on, that
    is, while the worker holds the lock it took (worker_count is not
    WORKER_SOLO_COUNT and worker_no_lock is not 1), the release check
    releases exactly when the active connections have reached
    worker_max_connections or, with HTTP compiled in, the requests in
    flight have reached http_request_limit; a release clears has_lock and
    the holder, takes the lock word from 1 to 0 and ends with the
    ACCEPT_AVAILABLE broadcast; otherwise nothing changes. While
    arbitration is off the check changes nothing at all. *)
Theorem release_check_spec (E : env) (st : state) :
  has_lock (worker st) = 1 ->
  let st' := worker_acceptlock_release E st in
  (arbitration_off st = true -> st' = st)
  /\ (arbitration_off st = false -> ~ at_limit E st -> st' = st)
  /\ (arbitration_off st = false -> at_limit E st ->
      has_lock (worker st') = 0
      /\ current (accept_lock st') = 0
      /\ (lock (accept_lock st) = 1 -> lock (accept_lock st') = 0)
      /\ trace st' = trace st ++ release_events E st).
Proof.
  intros Hheld st'. subst st'. unfold worker_acceptlock_release.
  rewrite Hheld. cbn [Z.eqb Pos.eqb negb].
  destruct (arbitration_off st) eqn:Hoff.
  - repeat split; intros; try reflexivity; discriminate.
  - split; [discriminate | ].
    destruct (below_limits E st) eqn:Hlim.
    + split; [reflexivity | ].
      intros _ Hat. apply below_limits_false in Hat. congruence.
    + split; [intros _ Hn; exfalso; apply Hn, below_limits_false, Hlim | ].
      intros _ _.
      unfold unlock_and_broadcast, worker_unlock, compare_and_swap,
        release_events.
      destruct st as [c [l cur] tbl w wc nl av conns reqs sig srvs tr].
      destruct (WORKER_DEBUG E); cbn;
        destruct (Z.eqb_spec l 1); cbn;
        rewrite <- ?app_assoc; cbn;
        repeat split; try reflexivity; try congruence.
Qed.

Lemma release_check_spec_witness :
  has_lock (worker (worker_state 4 1 (mk_wlock 1 102) 512)) = 1
  /\ arbitration_off (worker_state 4 1 (mk_wlock 1 102) 512) = false
  /\ at_limit sample_env (worker_state 4 1 (mk_wlock 1 102) 512)
  /\ lock (accept_lock
             (worker_acceptlock_release sample_env
                (worker_state 4 1 (mk_wlock 1 102) 512))) = 0.
Proof.
  assert (Hheld : has_lock (worker (worker_state 4 1 (mk_wlock 1 102) 512))
                  = 1) by reflexivity.
  assert (Hat : at_limit sample_env (worker_state 4 1 (mk_wlock 1 102) 512))
    by (left; cbn; lia).
  split; [exact Hheld | split; [reflexivity | split; [exact Hat | ]]].
  destruct (release_check_spec sample_env
              (worker_state 4 1 (mk_wlock 1 102) 512) Hheld)
    as (_ & _ & Hrel).
  destruct (Hrel eq_refl Hat) as (_ & _ & Hlock & _).
  apply Hlock; reflexivity.
Defined.

(** *** Reasoning about outcomes and loops *)

Lemma bind_sat {A B : Type} (P : A -> Prop) (Q : B -> Prop) C
    (o : outcome A) (k : A -> outcome B) :
  outcome_sat P C o ->
  (forall a, P a -> outcome_sat Q C (k a)) ->
  outcome_sat Q C (bind o k).
Proof. destruct o; cbn; auto. Qed.

Lemma outcome_sat_weaken {A : Type} (P P' : A -> Prop)
    (C C' : kore_worker -> state -> Prop) (o : outcome A) :
  (forall a, P a -> P' a) ->
  (forall kw st, C kw st -> C' kw st) ->
  outcome_sat P C o -> outcome_sat P' C' o.
Proof. destruct o; cbn; auto. Qed.

Lemma for_idx_sat {S : Type} (Inv : S -> Prop) C (body : Z -> S -> ctl S)
    (bound : Z) :
  (forall i s, Inv s ->
     match body i s with
     | Next s' => Inv s'
     | Stop r => outcome_sat Inv C r
     end) ->
  forall fuel idx s, Inv s -> outcome_sat Inv C (for_idx fuel idx bound body s).
Proof.
  intros Hbody fuel.
  induction fuel as [| fuel IH]; intros idx s Hs; cbn; [exact I | ].
  destruct (idx <? bound); [ | exact Hs].
  specialize (Hbody idx s Hs).
  destruct (body idx s) as [s' | r]; [apply IH, Hbody | exact Hbody].
Qed.

Lemma cas_events_app (t u : list event) :
  cas_events (t ++ u) = cas_events t ++ cas_events u.
Proof. apply List.filter_app. Qed.

(** What a spawn leaves behind, in the supervisor and in the child: the
    slot holds the given id and cpu and no lock, the fork is recorded, and
    nothing else has changed. *)
Lemma kore_worker_spawn_sat (os : spawn_sys) (idx wid wcpu : Z)
    (st : state) :
  let after kw st' :=
    st' = store_worker idx kw (emit (EvFork (fork_ret os)) st)
    /\ id kw = wid /\ cpu kw = wcpu /\ has_lock kw = 0
    /\ is_Some (kore_workers st !! Z.to_nat idx) in
  outcome_sat (fun st' => exists kw, after kw st') after
    (kore_worker_spawn os idx wid wcpu st).
Proof.
  unfold kore_worker_spawn.
  destruct (kore_workers st !! Z.to_nat idx) as [kw | ] eqn:Hslot;
    [ | exact I].
  repeat match goal with
         | |- context [if ?c then _ else _] => destruct c; cbn; try exact I
         end.
  - repeat split; eauto.
  - eexists; repeat split; eauto.
Qed.

(** *** The solo pool *)

Lemma run_op_solo (E : env) (l : wlock) (cas : list event)
    (op : worker_op) (s : Z * state) :
  solo_inv l cas s -> solo_inv l cas (run_op E op s).
Proof.
  destruct s as [h st]. unfold solo_inv. cbn [fst snd].
  intros (Hoff & Hheld & Hl & Hcas).
  destruct op; cbn [run_op fst snd].
  - unfold kore_worker_entry_acquire. rewrite Hheld. cbn. auto.
  - unfold kore_worker_entry_release, worker_acceptlock_release.
    rewrite Hheld, Hoff. cbn. rewrite Hheld. cbn. auto.
  - unfold kore_worker_make_busy. rewrite Hoff. auto.
  - destruct st; cbn in *; auto.
  - destruct st; cbn in *; auto.
Qed.

Lemma run_ops_solo (E : env) (l : wlock) (cas : list event)
    (ops : list worker_op) :
  forall s, solo_inv l cas s -> solo_inv l cas (run_ops E ops s).
Proof.
  induction ops as [| op ops IH]; intros s Hs; cbn; [exact Hs | ].
  apply IH, run_op_solo, Hs.
Qed.

Lemma first_acquire_solo (E : env) (st : state) :
  arbitration_off st = true ->
  has_lock (worker st) = 0 ->
  accept_avail st <> 0 ->
  solo_inv (accept_lock st) (cas_events (trace st))
    (kore_worker_entry_acquire E 0 st).
Proof.
  intros Hoff Hfree Havail.
  unfold kore_worker_entry_acquire, worker_acceptlock_obtain, solo_inv.
  rewrite Hfree, Hoff.
  destruct (Z.eqb_spec (accept_avail st) 0) as [ | _]; [contradiction | ].
  destruct st; cbn in *.
  rewrite cas_events_app; cbn. rewrite app_nil_r. auto.
Qed.

Lemma spawn_keeps_worker_count (os : spawn_sys) (idx wid wcpu : Z)
    (st : state) :
  outcome_sat (fun st' => worker_count st' = worker_count st)
    (fun kw st' => worker_count st' = worker_count st /\ has_lock kw = 0)
    (kore_worker_spawn os idx wid wcpu st).
Proof.
  eapply outcome_sat_weaken; [ | | apply kore_worker_spawn_sat]; cbn.
  - intros st' (kw & -> & _). reflexivity.
  - intros kw st' (-> & _ & _ & Hfree & _). auto.
Qed.

Lemma worker_count_range_min (E : env) : 256 <= worker_count_range E.
Proof.
  unfold worker_count_range. change 256 with (2 ^ 8).
  apply Z.pow_le_mono_r; lia.
Qed.

Lemma to_worker_count_fits (E : env) (z : Z) :
  0 <= z < worker_count_range E -> to_worker_count E z = z.
Proof. intros Hz. unfold to_worker_count. apply Z.mod_small, Hz. Qed.

Lemma init_count_fits (E : env) (p : state) :
  0 <= pool_size p ->
  pool_size p + 2 < worker_count_range E ->
  init_count E p = pool_size p + 2.
Proof.
  unfold init_count, pool_size. intros H0 Hfit.
  destruct (worker_count p =? 0).
  - rewrite (to_worker_count_fits E (cpu_count (conf p))) by lia.
    apply to_worker_count_fits. lia.
  - apply to_worker_count_fits. lia.
Qed.

Lemma kore_worker_init_sat (E : env) (sys : init_sys)
    (os : Z -> spawn_sys) (p : state) :
  outcome_sat (fun st' => worker_count st' = init_count E p)
    (fun kw st' => worker_count st' = init_count E p /\ has_lock kw = 0)
    (kore_worker_init E sys os p).
Proof.
  unfold kore_worker_init.
  destruct (shmget_ret sys =? -1); [exact I | ].
  destruct (shmat_failed sys); [exact I | ].
  eapply bind_sat with (P := fun st => worker_count st = init_count E p).
  { apply for_idx_sat.
    - intros i s Hs. unfold init_log_buffer.
      destruct (kore_workers s !! Z.to_nat i); cbn; auto.
    - unfold init_count.
      destruct p as [c l tbl w wc nl av conns reqs sig srvs tr]. cbn.
      destruct (wc =? 0); reflexivity. }
  intros st1 H1.
  eapply bind_sat
    with (P := fun s : Z * Z * state =>
                 worker_count (snd s) = init_count E p).
  { apply for_idx_sat.
    - intros i [[wid wcpu] s] Hs. cbn in Hs. unfold spawn_next.
      pose proof (spawn_keeps_worker_count (os i) i wid
                    (if wcpu >=? cpu_count (conf s) then 0 else wcpu) s)
        as Hsp.
      destruct (kore_worker_spawn _ _ _ _ s); cbn in *;
        try exact I; intuition congruence.
    - cbn. exact H1. }
  intros [[wid wcpu] st2] H2. cbn in H2. cbn [snd].
  destruct (negb (keymgr_active (conf st2) =? 0)); [ | exact H2].
  eapply bind_sat with (P := fun st => worker_count st = init_count E p).
  - destruct (KORE_USE_ACME E && acme_provider (conf st2)); [ | exact H2].
    eapply outcome_sat_weaken; [ | | apply spawn_keeps_worker_count];
      cbn; intuition congruence.
  - intros st3 H3.
    eapply outcome_sat_weaken; [ | | apply spawn_keeps_worker_count];
      cbn; intuition congruence.
Qed.

Lemma kore_worker_entry_setup_start (E : env) (kw : kore_worker)
    (st0 st : state) :
  kore_worker_entry_setup E kw st0 = Some st ->
  worker_count st = worker_count st0
  /\ accept_avail st = 1
  /\ has_lock (worker st) = has_lock kw.
Proof.
  unfold kore_worker_entry_setup.
  repeat match goal with
         | |- context [if ?c then _ else _] => destruct c
         end;
    try discriminate; intros [= <-]; cbn; auto.
Qed.

(** C1, as the code has it. In a pool of exactly one network worker (one
    configured, or none configured on a machine with one cpu), for which
    kore_worker_init leaves worker_count at WORKER_SOLO_COUNT, the worker
    has has_lock 1 from the first round of its main loop on, whatever it
    does afterwards, and never attempts a compare-and-swap: the lock region
    stays as it was. *)
Theorem solo_pool_skips_arbitration (E : env) (sys : init_sys)
    (os : Z -> spawn_sys) (p : state) (kw : kore_worker) (st0 st : state)
    (ops : list worker_op) :
  pool_size p = 1 ->
  kore_worker_init E sys os p = InChild kw st0 ->
  kore_worker_entry_setup E kw st0 = Some st ->
  let s' := run_ops E (OpAcquire :: ops) (0, st) in
  has_lock (worker (snd s')) = 1
  /\ accept_lock (snd s') = accept_lock st
  /\ cas_events (trace (snd s')) = cas_events (trace st).
Proof.
  intros Hsize Hinit Hsetup s'. subst s'.
  pose proof (kore_worker_init_sat E sys os p) as Hsat.
  rewrite Hinit in Hsat. cbn in Hsat. destruct Hsat as [Hcount Hfree].
  destruct (kore_worker_entry_setup_start E kw st0 st Hsetup)
    as (Hwc & Havail & Hlock).
  assert (Hoff : arbitration_off st = true).
  { pose proof (worker_count_range_min E) as Hmin.
    unfold arbitration_off, WORKER_SOLO_COUNT.
    rewrite Hwc, Hcount, init_count_fits, Hsize by lia. reflexivity. }
  assert (Hinv : solo_inv (accept_lock st) (cas_events (trace st))
                   (run_ops E (OpAcquire :: ops) (0, st))).
  { cbn [run_ops fold_left run_op fst snd].
    apply run_ops_solo, first_acquire_solo; [exact Hoff | congruence | lia]. }
  destruct Hinv as (_ & Hheld & Hl & Hcas). auto.
Qed.

Lemma solo_pool_skips_arbitration_witness :
  exists kw st0 st,
    pool_size (boot_state 1 4) = 1
    /\ kore_worker_init sample_env shm_ok (forks_child 2) (boot_state 1 4)
       = InChild kw st0
    /\ kore_worker_entry_setup sample_env kw st0 = Some st
    /\ has_lock
         (worker
            (snd (run_ops sample_env
                    [OpAcquire; OpLoad 600 0; OpRelease; OpMakeBusy]
                    (0, st)))) = 1.
Proof.
  eexists _, _, _.
  assert (Hsize : pool_size (boot_state 1 4) = 1) by reflexivity.
  split; [exact Hsize | ].
  split; [vm_compute; reflexivity | ].
  split; [vm_compute; reflexivity | ].
  refine (proj1
            (solo_pool_skips_arbitration sample_env shm_ok (forks_child 2)
               (boot_state 1 4) _ _ _ [OpLoad 600 0; OpRelease; OpMakeBusy]
               Hsize _ _));
    vm_compute; reflexivity.
Defined.

(** C1, as stated, fails for a pool of two (which is below three): its
    first worker attempts the compare-and-swap in its first round, and a
    worker that finds the lock held by its sibling reports has_lock 0. *)
Lemma pool_of_two_contends :
  2 <= WORKER_SOLO_COUNT
  /\ option_map (fun s => cas_events (trace (snd s)))
       (child_first_round sample_env
          (kore_worker_init sample_env shm_ok (forks_child 2)
             (boot_state 2 4)))
     = Some [EvCas 0 1 true]
  /\ worker_count (worker_state 2 0 (mk_wlock 1 103) 0) = 2 + 2
  /\ has_lock
       (worker
          (snd (kore_worker_entry_acquire sample_env 0
                  (worker_state 2 0 (mk_wlock 1 103) 0)))) = 0.
Proof.
  split; [unfold WORKER_SOLO_COUNT; lia | ].
  split; [vm_compute; reflexivity | ].
  split; reflexivity.
Qed.

(** *** Keymgr payloads *)

Lemma size_sum_no_wrap (S D L : Z) :
  0 <= S < 2 ^ 64 -> 0 <= D < 2 ^ 64 -> S <= L < 2 ^ 64 ->
  (L = size_t_wrap (S + D) <-> L = S + D).
Proof.
  intros HS HD HL. unfold size_t_wrap.
  destruct (Z_lt_le_dec (S + D) (2 ^ 64)) as [Hsmall | Hbig].
  - rewrite Z.mod_small by lia. tauto.
  - assert (Hmod : (S + D) mod 2 ^ 64 = S + D - 2 ^ 64).
    { symmetry. apply Z.mod_unique with (q := 1); lia. }
    rewrite Hmod. lia.
Qed.

Lemma domain_lookup_found (doms : list kore_domain) (name : list Z) :
  forall di,
    is_Some (domain_lookup doms name di)
    <-> exists dom, In dom doms /\ strcmp (domain dom) name = 0.
Proof.
  induction doms as [| dom rest IH]; intros di; cbn.
  - split; [intros [x Hx]; discriminate | intros (dom & [] & _)].
  - destruct (Z.eqb_spec (strcmp (domain dom) name) 0) as [Heq | Hne].
    + split; [intros _; exists dom; auto | intros _; eexists; reflexivity].
    + rewrite IH. split.
      * intros (d & Hin & Hd). exists d; auto.
      * intros (d & [<- | Hin] & Hd); [contradiction | exists d; auto].
Qed.

Lemma server_lookup_known (srvs : list kore_server) (name : list Z) :
  forall si,
    is_Some (server_lookup srvs name si) <-> domain_known srvs name.
Proof.
  unfold domain_known.
  induction srvs as [| srv rest IH]; intros si; cbn.
  - split; [intros [x Hx]; discriminate | intros (s & d & [] & _)].
  - destruct (Z.eqb_spec (tls srv) 0) as [Hplain | Htls].
    + rewrite IH. split.
      * intros (s & d & Hin & H). exists s, d; tauto.
      * intros (s & d & [<- | Hin] & Ht & H); [contradiction | ].
        exists s, d; tauto.
    + pose proof (domain_lookup_found (domains srv) name 0%nat) as Hdom.
      destruct (domain_lookup (domains srv) name 0) as [di | ].
      * split; [intros _ | intros _; eexists; reflexivity].
        destruct (proj1 Hdom) as (d & Hin & Hd); [eexists; reflexivity | ].
        exists srv, d; auto.
      * rewrite IH. split.
        -- intros (s & d & Hin & H). exists s, d; tauto.
        -- intros (s & d & [<- | Hin] & Ht & Hd & Hcmp).
           ++ destruct (proj2 Hdom) as [x Hx]; [eauto | discriminate].
           ++ exists s, d; tauto.
Qed.

(** The verification either finds the message valid and leaves the state
    alone, or rejects it with one warning line. *)
Lemma keymgr_verify_cases (E : env) (msg : kore_msg) (req : kore_x509_msg)
    (out_given : bool) (st : state) :
  0 <= sizeof_kore_x509_msg E < 2 ^ 64 ->
  0 <= data_len req < 2 ^ 64 ->
  0 <= msg_length msg < 2 ^ 64 ->
  (keymgr_valid E msg req out_given st
   /\ exists out,
        kore_worker_keymgr_response_verify E msg req out_given st
        = (KORE_RESULT_OK, out, st))
  \/ (~ keymgr_valid E msg req out_given st
      /\ exists fmt args,
           kore_worker_keymgr_response_verify E msg req out_given st
           = (KORE_RESULT_ERROR, None, kore_log LOG_WARNING fmt args st)).
Proof.
  intros HS HD HL.
  unfold kore_worker_keymgr_response_verify, keymgr_valid.
  destruct (Z.ltb_spec (msg_length msg) (sizeof_kore_x509_msg E))
    as [Hshort | Hlong].
  { right. split; [intros (H1 & _); lia | eauto]. }
  pose proof (size_sum_no_wrap (sizeof_kore_x509_msg E) (data_len req)
                (msg_length msg) HS HD (conj Hlong (proj2 HL))) as Hsum.
  destruct (Z.eqb_spec (msg_length msg)
              (size_t_wrap (sizeof_kore_x509_msg E + data_len req)))
    as [Hlen | Hlen]; cbn [negb].
  2: { right. split; [intros (_ & H2 & _); apply Hsum in H2; auto | eauto]. }
  apply Hsum in Hlen.
  destruct (Z.eqb_spec (domain_last_byte E req) 0) as [Hnul | Hnul];
    cbn [negb].
  2: { right. split; [intros (_ & _ & H3 & _); auto | eauto]. }
  destruct out_given; cbn [negb].
  - pose proof (server_lookup_known (kore_servers st) (x509_domain req)
                  0%nat) as Hknown.
    destruct (server_lookup (kore_servers st) (x509_domain req) 0)
      as [loc | ].
    + left. split; [ | eauto].
      repeat split; auto. intros _. apply Hknown. eexists; reflexivity.
    + right. split; [ | eauto].
      intros (_ & _ & _ & H4). apply Hknown in H4; [ | reflexivity].
      destruct H4 as [x Hx]. discriminate.
  - left. split; [ | eauto]. repeat split; auto. discriminate.
Qed.

(** C5, as the code has it. Handed a place for the domain, as
    worker_keymgr_response does, the verification accepts a message exactly
    when its length is at least the header size, equals the header size
    plus data_len, the last byte of the domain slot is NUL, and a
    TLS-enabled server has the domain; called without one it leaves the
    lookup out and the first three checks decide. An accepted message
    leaves no trace; a rejected one is answered with one warning line and
    nothing else, and worker_keymgr_response returns on it without touching
    a domain. *)
Theorem keymgr_verify_spec (E : env) (msg : kore_msg) (req : kore_x509_msg)
    (out_given : bool) (st : state) :
  0 <= sizeof_kore_x509_msg E < 2 ^ 64 ->
  0 <= data_len req < 2 ^ 64 ->
  0 <= msg_length msg < 2 ^ 64 ->
  let v := kore_worker_keymgr_response_verify E msg req out_given st in
  (fst (fst v) = KORE_RESULT_OK <-> keymgr_valid E msg req out_given st)
  /\ (keymgr_valid E msg req out_given st -> snd v = st)
  /\ (~ keymgr_valid E msg req out_given st ->
      fst (fst v) = KORE_RESULT_ERROR
      /\ exists fmt args, snd v = kore_log LOG_WARNING fmt args st)
  /\ (~ keymgr_valid E msg req true st ->
      exists fmt args,
        worker_keymgr_response E msg req st
        = kore_log LOG_WARNING fmt args st).
Proof.
  intros HS HD HL v. subst v.
  assert (Hhandler :
            ~ keymgr_valid E msg req true st ->
            exists fmt args,
              worker_keymgr_response E msg req st
              = kore_log LOG_WARNING fmt args st).
  { intros Hbad.
    destruct (keymgr_verify_cases E msg req true st HS HD HL)
      as [[Hok _] | [_ (fmt & args & Hv)]]; [contradiction | ].
    exists fmt, args. unfold worker_keymgr_response. rewrite Hv.
    reflexivity. }
  destruct (keymgr_verify_cases E msg req out_given st HS HD HL)
    as [[Hok (out & Hv)] | [Hbad (fmt & args & Hv)]]; rewrite Hv;
    cbn [fst snd].
  - split; [tauto | ]. split; [reflexivity | ].
    split; [contradiction | exact Hhandler].
  - split; [split; [discriminate | contradiction] | ].
    split; [contradiction | ].
    split; [eauto | exact Hhandler].
Qed.

Lemma keymgr_verify_spec_witness :
  0 <= sizeof_kore_x509_msg sample_env < 2 ^ 64
  /\ 0 <= data_len (cert_req "example.com") < 2 ^ 64
  /\ 0 <= msg_length cert_msg < 2 ^ 64
  /\ (fst (fst (kore_worker_keymgr_response_verify sample_env cert_msg
                  (cert_req "example.com") true tls_worker))
      = KORE_RESULT_OK
      <-> keymgr_valid sample_env cert_msg (cert_req "example.com") true
            tls_worker).
Proof.
  assert (HS : 0 <= sizeof_kore_x509_msg sample_env < 2 ^ 64)
    by (cbn; lia).
  assert (HD : 0 <= data_len (cert_req "example.com") < 2 ^ 64)
    by (cbn; lia).
  assert (HL : 0 <= msg_length cert_msg < 2 ^ 64) by (cbn; lia).
  split; [exact HS | split; [exact HD | split; [exact HL | ]]].
  exact (proj1 (keymgr_verify_spec sample_env cert_msg
                  (cert_req "example.com") true tls_worker HS HD HL)).
Defined.

(** C5, as stated, fails: called without a place for the domain, the
    verification accepts a well-formed message for a domain that no server
    has. *)
Lemma keymgr_verify_without_out_skips_lookup :
  fst (fst (kore_worker_keymgr_response_verify sample_env cert_msg
              (cert_req "unknown.test") false tls_worker))
  = KORE_RESULT_OK
  /\ ~ domain_known (kore_servers tls_worker)
         (x509_domain (cert_req "unknown.test")).
Proof.
  split; [vm_compute; reflexivity | ].
  intros Hknown.
  apply (server_lookup_known _ _ 0%nat) in Hknown.
  destruct Hknown as [loc Hloc]. vm_compute in Hloc. discriminate.
Qed.

(** *** Start-up *)

Lemma kore_worker_spawn_ok (os : spawn_sys) (idx wid wcpu : Z) (st : state)
    (kw : kore_worker) :
  spawn_ok os ->
  kore_workers st !! Z.to_nat idx = Some kw ->
  kore_worker_spawn os idx wid wcpu st
  = Returns
      (store_worker idx
         (mk_worker wid wcpu (fork_ret os) (socketpair_fds os) 1 0
            (restarted kw) None (lb_offset kw))
         (emit (EvFork (fork_ret os)) st)).
Proof.
  intros (Hsp & Hn0 & Hn1 & Hf1 & Hf0) Hslot.
  unfold kore_worker_spawn. rewrite Hslot.
  destruct (Z.eqb_spec (socketpair_ret os) (-1)); [contradiction | ].
  destruct (Z.eqb_spec (nonblock0 os) 0); [contradiction | ].
  destruct (Z.eqb_spec (nonblock1 os) 0); [contradiction | ].
  destruct (Z.eqb_spec (fork_ret os) (-1)); [contradiction | ].
  destruct (Z.eqb_spec (fork_ret os) 0); [contradiction | ].
  reflexivity.
Qed.

Lemma U16_TESTS_unfold : U16_TESTS = S (S (S (Z.to_nat 65533))).
Proof. unfold U16_TESTS. lia. Qed.

(** C2, as the code has it. Initialised with worker_count 2 and no
    key-manager, the supervisor spawns exactly two workers, in slots 2 and
    3, with ids 1 and 2; the cpus are dealt round-robin starting at cpu 1:
    1 and 2 on a machine with three cpus or more, 1 and 0 with two cpus, 0
    and 0 with one. *)
Theorem init_two_workers (E : env) (sys : init_sys) (os : Z -> spawn_sys)
    (p : state) :
  worker_count p = 2 ->
  keymgr_active (conf p) = 0 ->
  shmget_ret sys <> -1 ->
  shmat_failed sys = false ->
  spawn_ok (os 2) ->
  spawn_ok (os 3) ->
  exists st',
    kore_worker_init E sys os p = Returns st'
    /\ kore_workers st'
       = [ zero_worker; zero_worker;
           mk_worker 1 (fst (first_cpus (cpu_count (conf p))))
             (fork_ret (os 2)) (socketpair_fds (os 2)) 1 0 0 None 0;
           mk_worker 2 (snd (first_cpus (cpu_count (conf p))))
             (fork_ret (os 3)) (socketpair_fds (os 3)) 1 0 0 None 0 ]
    /\ trace st'
       = trace p ++ [EvFork (fork_ret (os 2)); EvFork (fork_ret (os 3))].
Proof.
  intros Hcount Hkey Hget Hat Hos2 Hos3.
  unfold kore_worker_init. rewrite U16_TESTS_unfold.
  generalize (Z.to_nat 65533) as fuel; intros fuel.
  destruct (Z.eqb_spec (shmget_ret sys) (-1)); [contradiction | ].
  rewrite Hat.
  destruct p as [c l tbl w wc nl av conns reqs sig srvs tr].
  cbn in Hcount, Hkey. subst wc.
  assert (Hfits : to_worker_count E (2 + 2) = 4).
  { pose proof (worker_count_range_min E). apply to_worker_count_fits. lia. }
  unfold KORE_WORKER_BASE, init_log_buffer, spawn_next, store_worker.
  cbn -[kore_worker_spawn to_worker_count]. rewrite !Hfits.
  change (2 <? 4) with true.
  change (u16 (2 + 1)) with 3. change (3 <? 4) with true.
  change (u16 (3 + 1)) with 4. change (4 <? 4) with false.
  change (Z.to_nat 4) with 4%nat. change (Z.to_nat 2) with 2%nat.
  change (Z.to_nat 3) with 3%nat.
  cbn -[kore_worker_spawn].
  erewrite kore_worker_spawn_ok; [ | exact Hos2 | reflexivity].
  cbn -[kore_worker_spawn].
  erewrite kore_worker_spawn_ok; [ | exact Hos3 | reflexivity].
  cbn. rewrite Hkey. cbn.
  eexists; split; [reflexivity | ]. cbn.
  split; [ | rewrite <- app_assoc; reflexivity].
  change (u16 (1 + 1)) with 2.
  change (Z.to_nat 2) with 2%nat. change (Z.to_nat 3) with 3%nat. cbn.
  unfold first_cpus, u16.
  rewrite !Z.geb_leb.
  destruct (Z.leb_spec (cpu_count c) 1) as [Hone | Hmore].
  - change ((0 + 1) mod 65536) with 1.
    destruct (Z.leb_spec (cpu_count c) 1); [reflexivity | lia].
  - change ((1 + 1) mod 65536) with 2.
    destruct (Z.leb_spec (cpu_count c) 2);
      destruct (Z.eqb_spec (cpu_count c) 2); try lia; reflexivity.
Qed.

Lemma init_two_workers_witness :
  worker_count (boot_state 2 4) = 2
  /\ keymgr_active (conf (boot_state 2 4)) = 0
  /\ shmget_ret shm_ok <> -1
  /\ shmat_failed shm_ok = false
  /\ spawn_ok (forks_ok 2)
  /\ spawn_ok (forks_ok 3)
  /\ exists st',
       kore_worker_init sample_env shm_ok forks_ok (boot_state 2 4)
       = Returns st'
       /\ map pid (kore_workers st') = [0; 0; 102; 103].
Proof.
  assert (Hget : shmget_ret shm_ok <> -1) by (cbn; lia).
  assert (Hos2 : spawn_ok (forks_ok 2)) by (unfold spawn_ok; cbn; lia).
  assert (Hos3 : spawn_ok (forks_ok 3)) by (unfold spawn_ok; cbn; lia).
  repeat (split; [first [reflexivity | assumption] | ]).
  destruct (init_two_workers sample_env shm_ok forks_ok (boot_state 2 4)
              eq_refl eq_refl Hget eq_refl Hos2 Hos3)
    as (st' & Hinit & Htable & _).
  exists st'. split; [exact Hinit | ]. rewrite Htable. reflexivity.
Defined.

(** C2, as stated, fails: the two workers are not put on cpus 0 and 1.
    With four cpus they run on cpus 1 and 2, with two cpus on 1 and 0. *)
Lemma two_workers_start_at_cpu_1 :
  network_ids (kore_worker_init sample_env shm_ok forks_ok (boot_state 2 4))
  = Some [(1, 1); (2, 2)]
  /\ network_ids
       (kore_worker_init sample_env shm_ok forks_ok (boot_state 2 2))
     = Some [(1, 1); (2, 0)]
  /\ [(1, 1); (2, 2)] <> [(1, 0); (2, 1)]
  /\ [(1, 1); (2, 0)] <> [(1, 0); (2, 1)].
Proof.
  split; [vm_compute; reflexivity | ].
  split; [vm_compute; reflexivity | ].
  split; discriminate.
Qed.

(** *** Reaping *)

Lemma map_insert_same {A B : Type} (f : A -> B) (l : list A) (x y : A) :
  forall i, l !! i = Some x -> f y = f x -> map f (<[i:=y]> l) = map f l.
Proof.
  induction l as [| a l IH]; intros [| i] Hi Hf; cbn in *;
    try discriminate.
  - injection Hi as ->. congruence.
  - f_equal. eauto.
Qed.

Lemma slot_ids_store (idx : Z) (kw kw' : kore_worker) (st st1 : state) :
  kore_workers st1 = kore_workers st ->
  kore_workers st !! Z.to_nat idx = Some kw ->
  id kw' = id kw -> cpu kw' = cpu kw ->
  slot_ids (store_worker idx kw' st1) = slot_ids st.
Proof.
  intros Htbl Hslot Hid Hcpu. unfold slot_ids, store_worker. cbn.
  rewrite Htbl. apply map_insert_same with (x := kw); [exact Hslot | ].
  congruence.
Qed.

Lemma store_worker_lookup (idx : Z) (kw kw' : kore_worker) (st : state) :
  kore_workers st !! Z.to_nat idx = Some kw ->
  kore_workers (store_worker idx kw' st) !! Z.to_nat idx = Some kw'.
Proof.
  intros Hslot. unfold store_worker. cbn.
  apply list_lookup_insert_eq. eapply lookup_lt_Some, Hslot.
Qed.

Lemma kore_workers_unlock (st : state) :
  kore_workers (worker_unlock st) = kore_workers st.
Proof.
  unfold worker_unlock, compare_and_swap.
  destruct (lock _ =? 1); reflexivity.
Qed.

Lemma kore_workers_raise (os : reap_sys) (st : state) :
  kore_workers (raise_sigterm os st) = kore_workers st.
Proof. unfold raise_sigterm. destruct (negb _); reflexivity. Qed.

Lemma worker_count_raise (os : reap_sys) (st : state) :
  worker_count (raise_sigterm os st) = worker_count st.
Proof.
  unfold raise_sigterm. destruct (negb (raise_ret os =? 0)); reflexivity.
Qed.

Lemma worker_count_unlock (st : state) :
  worker_count (worker_unlock st) = worker_count st.
Proof.
  unfold worker_unlock, compare_and_swap.
  destruct (lock _ =? 1); reflexivity.
Qed.

Lemma slot_ids_ext (st st1 : state) :
  kore_workers st1 = kore_workers st -> slot_ids st1 = slot_ids st.
Proof. unfold slot_ids. intros ->. reflexivity. Qed.

(** Whatever the reaper does with a slot, the ids and cpus of the table
    stay, in the supervisor and in a child it forks. *)
Lemma reap_slot_keeps_ids (E : env) (os : reap_sys) (wpid status idx : Z)
    (st : state) :
  match reap_slot E os wpid status idx st with
  | Next st' => slot_ids st' = slot_ids st
  | Stop r =>
      outcome_sat (fun st' => slot_ids st' = slot_ids st)
        (fun _ st' => slot_ids st' = slot_ids st) r
  end.
Proof.
  unfold reap_slot.
  destruct (kore_workers st !! Z.to_nat idx) as [kw | ] eqn:Hslot;
    [ | exact I].
  destruct (negb (pid kw =? wpid)); [reflexivity | ].
  set (st1 := if kore_quiet (conf st) =? 0 then _ else st).
  assert (H1 : kore_workers st1 = kore_workers st)
    by (subst st1; destruct (kore_quiet (conf st) =? 0); reflexivity).
  destruct (WIFEXITED E status && (WEXITSTATUS E status =? 0)).
  { cbn. eapply slot_ids_store; eauto. }
  set (st2 := kore_log LOG_NOTICE "worker %d (pid: %d) (hdlr: %s) gone"
                _ st1).
  set (st3 := if linux E && WIFSIGNALED E status
                 && (WTERMSIG E status =? SIGSYS E) then _ else st2).
  assert (H3 : kore_workers st3 = kore_workers st).
  { subst st3 st2. destruct (_ && _ && _); cbn; exact H1. }
  destruct ((id (kw_set_running 0 kw) =? KORE_WORKER_KEYMGR E)
            || (id (kw_set_running 0 kw) =? KORE_WORKER_ACME E)).
  { cbn [outcome_sat]. unfold slot_ids. rewrite kore_workers_raise.
    cbn. rewrite H3. apply map_insert_same with (x := kw); auto. }
  set (st4 := if (pid _ =? current (accept_lock st3))
                 && (worker_no_lock st3 =? 0) then _ else st3).
  assert (H4 : kore_workers st4 = kore_workers st).
  { subst st4. destruct ((pid _ =? _) && _);
      [rewrite kore_workers_unlock | ]; exact H3. }
  set (pr := if negb (KORE_NO_HTTP E) then _ else _).
  assert (Hpr : kore_workers (snd pr) = kore_workers st
                /\ id (fst pr) = id kw /\ cpu (fst pr) = cpu kw
                /\ conf (snd pr) = conf st4).
  { subst pr. destruct (negb (KORE_NO_HTTP E)); [ | auto].
    cbn. destruct (active_hdlr kw); cbn; auto. }
  destruct pr as [kw5 st5]. cbn [fst snd] in Hpr.
  destruct Hpr as (H5 & Hid & Hcpu & _).
  destruct (worker_policy (conf st5)).
  - (* restart *)
    cbn [outcome_sat].
    match goal with
    | |- context [kore_worker_spawn ?o ?i ?a ?b ?s] =>
        pose proof (kore_worker_spawn_sat o i a b s) as Hsp;
        destruct (kore_worker_spawn o i a b s) as [st6 | | kw6 st6 | | ]
    end; cbn in Hsp |- *; try exact I.
    + destruct Hsp as (kw6 & -> & Hid6 & Hcpu6 & _).
      unfold slot_ids. cbn. rewrite list_insert_insert_eq, H5.
      apply map_insert_same with (x := kw); auto; cbn; congruence.
    + destruct Hsp as (-> & Hid6 & Hcpu6 & _).
      unfold slot_ids. cbn. rewrite list_insert_insert_eq, H5.
      apply map_insert_same with (x := kw); auto; cbn; congruence.
  - (* terminate *)
    cbn [outcome_sat]. unfold slot_ids. rewrite kore_workers_raise.
    cbn. rewrite H5.
    apply map_insert_same with (x := kw); [exact Hslot | cbn; congruence].
Qed.

Lemma worker_reaper_keeps_ids (E : env) (os : reap_sys) (wpid status : Z)
    (st : state) :
  outcome_sat (fun st' => slot_ids st' = slot_ids st)
    (fun _ st' => slot_ids st' = slot_ids st)
    (worker_reaper E os wpid status st).
Proof.
  unfold worker_reaper.
  destruct (linux E && negb (kore_seccomp_trace E wpid status =? 0));
    [reflexivity | ].
  apply for_idx_sat with (Inv := fun st' => slot_ids st' = slot_ids st);
    [ | reflexivity].
  intros i s Hs.
  pose proof (reap_slot_keeps_ids E os wpid status i s) as Hslot.
  destruct (reap_slot E os wpid status i s) as [s' | r].
  - congruence.
  - eapply outcome_sat_weaken; [ | | exact Hslot]; cbn; intros; congruence.
Qed.

(** A loop over a table that fits a [u_int16_t] index returns, provided its
    body does. *)
Lemma for_idx_returns {S : Type} (Inv : S -> Prop) (body : Z -> S -> ctl S)
    (bound : Z) :
  bound < 65536 ->
  (forall i s, 0 <= i < bound -> Inv s ->
     match body i s with
     | Next s' => Inv s'
     | Stop r => exists s', r = Returns s' /\ Inv s'
     end) ->
  forall fuel idx s,
    0 <= idx -> 0 < Z.of_nat fuel -> bound - idx < Z.of_nat fuel -> Inv s ->
    exists s', for_idx fuel idx bound body s = Returns s' /\ Inv s'.
Proof.
  intros Hbound Hbody fuel.
  induction fuel as [| fuel IH]; intros idx s Hidx Hpos Hfuel Hs; [lia | ].
  cbn [for_idx].
  destruct (Z.ltb_spec idx bound) as [Hlt | Hge]; [ | eauto].
  specialize (Hbody idx s (conj Hidx Hlt) Hs).
  destruct (body idx s) as [s' | r]; [ | exact Hbody].
  assert (Hu : u16 (idx + 1) = idx + 1)
    by (unfold u16; apply Z.mod_small; lia).
  rewrite Hu. apply IH; [lia | lia | lia | exact Hbody].
Qed.

Lemma table_wf_shape (st st' : state) :
  same_shape st st' -> table_wf st -> table_wf st'.
Proof. unfold table_wf, same_shape. intros [-> ->]. auto. Qed.

Lemma reap_slot_returns (E : env) (os : reap_sys) (wpid status idx : Z)
    (st : state) :
  spawn_ok (respawn os) ->
  0 <= idx < worker_count st ->
  table_wf st ->
  match reap_slot E os wpid status idx st with
  | Next st' => same_shape st st'
  | Stop r => exists st', r = Returns st' /\ same_shape st st'
  end.
Proof.
  intros Hos Hidx Hwf. unfold reap_slot, same_shape.
  destruct (kore_workers st !! Z.to_nat idx) as [kw | ] eqn:Hslot.
  2: { apply lookup_ge_None in Hslot. destruct Hwf as [Hlen _]. lia. }
  destruct (negb (pid kw =? wpid)); [auto | ].
  set (st1 := if kore_quiet (conf st) =? 0 then _ else st).
  assert (H1 : kore_workers st1 = kore_workers st
               /\ worker_count st1 = worker_count st)
    by (subst st1; destruct (kore_quiet (conf st) =? 0); auto).
  destruct H1 as [H1 W1].
  destruct (WIFEXITED E status && (WEXITSTATUS E status =? 0)).
  { eexists; split; [reflexivity | ].
    cbn. rewrite length_insert. split; congruence. }
  set (st2 := kore_log LOG_NOTICE "worker %d (pid: %d) (hdlr: %s) gone"
                _ st1).
  set (st3 := if linux E && WIFSIGNALED E status
                 && (WTERMSIG E status =? SIGSYS E) then _ else st2).
  assert (H3 : kore_workers st3 = kore_workers st
               /\ worker_count st3 = worker_count st).
  { subst st3 st2. destruct (_ && _ && _); cbn; auto. }
  destruct H3 as [H3 W3].
  destruct ((id (kw_set_running 0 kw) =? KORE_WORKER_KEYMGR E)
            || (id (kw_set_running 0 kw) =? KORE_WORKER_ACME E)).
  { eexists; split; [reflexivity | ]. split.
    - rewrite kore_workers_raise. cbn. rewrite length_insert. congruence.
    - rewrite worker_count_raise. cbn. congruence. }
  set (st4 := if (pid _ =? current (accept_lock st3))
                 && (worker_no_lock st3 =? 0) then _ else st3).
  assert (H4 : kore_workers st4 = kore_workers st
               /\ worker_count st4 = worker_count st).
  { subst st4. destruct ((pid _ =? _) && _); [ | auto].
    rewrite kore_workers_unlock, worker_count_unlock. auto. }
  destruct H4 as [H4 W4].
  set (pr := if negb (KORE_NO_HTTP E) then _ else _).
  assert (Hpr : kore_workers (snd pr) = kore_workers st
                /\ worker_count (snd pr) = worker_count st).
  { subst pr. destruct (negb (KORE_NO_HTTP E)); [ | auto].
    cbn. destruct (active_hdlr kw); cbn; auto. }
  destruct pr as [kw5 st5]. cbn [fst snd] in Hpr. destruct Hpr as [H5 W5].
  destruct (worker_policy (conf st5)).
  - erewrite kore_worker_spawn_ok; [ | exact Hos | ].
    2: { apply store_worker_lookup with (kw := kw). cbn. congruence. }
    cbn [bind]. eexists; split; [reflexivity | ].
    cbn. rewrite !length_insert. split; congruence.
  - eexists; split; [reflexivity | ]. split.
    + rewrite kore_workers_raise. cbn. rewrite length_insert. congruence.
    + rewrite worker_count_raise. cbn. congruence.
Qed.

Lemma worker_reaper_returns (E : env) (os : reap_sys) (wpid status : Z)
    (st : state) :
  spawn_ok (respawn os) ->
  table_wf st ->
  exists st', worker_reaper E os wpid status st = Returns st' /\ table_wf st'.
Proof.
  intros Hos Hwf. unfold worker_reaper.
  destruct (linux E && negb (kore_seccomp_trace E wpid status =? 0));
    [eauto | ].
  destruct (for_idx_returns (fun s => table_wf s /\ same_shape st s)
              (reap_slot E os wpid status) (worker_count st) (proj2 Hwf))
    with (fuel := U16_TESTS) (idx := 0) (s := st)
    as (st' & Hret & Hwf' & _).
  - intros i s Hi [Hs Hshape].
    pose proof (reap_slot_returns E os wpid status i s Hos) as Hslot.
    rewrite (proj2 Hshape) in Hslot. specialize (Hslot Hi Hs).
    destruct (reap_slot E os wpid status i s) as [s' | r].
    + split; [eapply table_wf_shape; eauto | ].
      unfold same_shape in *. intuition congruence.
    + destruct Hslot as (s' & -> & Hsh). exists s'.
      split; [reflexivity | ].
      split; [eapply table_wf_shape; eauto | ].
      unfold same_shape in *. intuition congruence.
  - lia.
  - unfold U16_TESTS. lia.
  - destruct Hwf. unfold U16_TESTS. lia.
  - split; [exact Hwf | split; reflexivity].
  - eauto.
Qed.

(** C8. Whatever children the supervisor reaps, and however often a slot
    crashes and is restarted, the id and the cpu of every slot stay what
    they were: this holds of every state the reaping returns (and of the
    table a freshly forked child sees), and the reaping does return when
    the table is intact and the respawns succeed. *)
Theorem restarts_keep_id_and_cpu (E : env) (rs : list (reap_sys * Z * Z))
    (st : state) :
  outcome_sat (fun st' => slot_ids st' = slot_ids st)
    (fun _ st' => slot_ids st' = slot_ids st) (reap_all E rs st)
  /\ (table_wf st ->
      Forall (fun r => spawn_ok (respawn (fst (fst r)))) rs ->
      exists st',
        reap_all E rs st = Returns st' /\ slot_ids st' = slot_ids st).
Proof.
  revert st. induction rs as [| [[os wpid] status] rest IH]; intros st.
  - cbn. split; [reflexivity | eauto].
  - cbn [reap_all]. split.
    + eapply bind_sat; [apply worker_reaper_keeps_ids | ].
      intros st1 H1. cbn in H1.
      eapply outcome_sat_weaken; [ | | apply (proj1 (IH st1))]; cbn;
        intros; congruence.
    + intros Hwf Hall. inversion Hall as [| r l Hos Hrest]; subst.
      cbn in Hos.
      destruct (worker_reaper_returns E os wpid status st Hos Hwf)
        as (st1 & Hret & Hwf1).
      pose proof (worker_reaper_keeps_ids E os wpid status st) as Hids.
      rewrite Hret in Hids |- *. cbn in Hids |- *.
      destruct (proj2 (IH st1) Hwf1 Hrest) as (st' & Hall' & Hids').
      exists st'. split; [exact Hall' | congruence].
Qed.

Lemma restarts_keep_id_and_cpu_witness :
  table_wf (started 2 4)
  /\ exists st',
       reap_all sample_env
         [(respawn_as 200, 103, killed); (respawn_as 201, 200, killed)]
         (started 2 4) = Returns st'
       /\ slot_ids st' = [(0, 0); (0, 0); (1, 1); (2, 2)].
Proof.
  assert (Hwf : table_wf (started 2 4))
    by (vm_compute; split; [reflexivity | reflexivity]).
  split; [exact Hwf | ].
  destruct (proj2 (restarts_keep_id_and_cpu sample_env
                     [(respawn_as 200, 103, killed);
                      (respawn_as 201, 200, killed)] (started 2 4)) Hwf)
    as (st' & Hret & Hids).
  - repeat constructor; cbn; lia.
  - exists st'. split; [exact Hret | ]. rewrite Hids. reflexivity.
Defined.

(** *** The lock of a dead holder *)

Lemma worker_unlock_frees (st : state) :
  lock_wf (accept_lock st) -> accept_lock (worker_unlock st) = mk_wlock 0 0.
Proof.
  unfold lock_wf, worker_unlock, compare_and_swap.
  destruct st as [c [l cur] tbl w wc nl av conns reqs sig srvs tr]. cbn.
  intros [-> | ->]; reflexivity.
Qed.

Lemma accept_lock_raise (os : reap_sys) (st : state) :
  accept_lock (raise_sigterm os st) = accept_lock st.
Proof. unfold raise_sigterm. destruct (negb _); reflexivity. Qed.

(** A search loop leaves through the first slot whose body stops. *)
Lemma for_idx_stops_at {S : Type} (body : Z -> S -> ctl S) (bound : Z)
    (s : S) (i : Z) (r : outcome S) :
  0 <= i < bound -> i < 65536 ->
  (forall j, 0 <= j < i -> body j s = Next s) ->
  body i s = Stop r ->
  forall fuel idx,
    0 <= idx <= i -> i - idx < Z.of_nat fuel ->
    for_idx fuel idx bound body s = r.
Proof.
  intros Hi H16 Hskip Hstop fuel.
  induction fuel as [| fuel IH]; intros idx Hidx Hfuel; [lia | ].
  cbn [for_idx].
  destruct (Z.ltb_spec idx bound) as [_ | Hge]; [ | lia].
  destruct (Z.eq_dec idx i) as [-> | Hne].
  - rewrite Hstop. reflexivity.
  - rewrite Hskip by lia.
    assert (Hu : u16 (idx + 1) = idx + 1)
      by (unfold u16; apply Z.mod_small; lia).
    rewrite Hu. apply IH; lia.
Qed.

Lemma reap_slot_skips (E : env) (os : reap_sys) (wpid status j : Z)
    (st : state) (kwj : kore_worker) :
  kore_workers st !! Z.to_nat j = Some kwj ->
  pid kwj <> wpid ->
  reap_slot E os wpid status j st = Next st.
Proof.
  intros Hslot Hpid. unfold reap_slot. rewrite Hslot.
  destruct (Z.eqb_spec (pid kwj) wpid); [contradiction | reflexivity].
Qed.

(** The reaper at the slot of a network worker that died uncleanly while
    recorded as the holder of the lock. *)
Lemma reap_slot_holder (E : env) (os : reap_sys) (wpid status i : Z)
    (st : state) (kw : kore_worker) :
  kore_workers st !! Z.to_nat i = Some kw ->
  pid kw = wpid ->
  WIFEXITED E status && (WEXITSTATUS E status =? 0) = false ->
  id kw <> KORE_WORKER_KEYMGR E ->
  id kw <> KORE_WORKER_ACME E ->
  wpid = current (accept_lock st) ->
  worker_no_lock st = 0 ->
  lock_wf (accept_lock st) ->
  worker_policy (conf st) = KORE_WORKER_POLICY_TERMINATE
  \/ spawn_ok (respawn os) ->
  exists st',
    reap_slot E os wpid status i st = Stop (Returns st')
    /\ accept_lock st' = mk_wlock 0 0.
Proof.
  intros Hslot Hpid Hunclean Hkey Hacme Hcur Hnl Hwf Hgo.
  unfold reap_slot. rewrite Hslot.
  destruct (Z.eqb_spec (pid kw) wpid) as [_ | ]; [ | contradiction].
  cbn [negb]. rewrite Hunclean.
  set (st1 := if kore_quiet (conf st) =? 0 then _ else st).
  assert (H1 : accept_lock st1 = accept_lock st
               /\ worker_no_lock st1 = worker_no_lock st
               /\ conf st1 = conf st
               /\ kore_workers st1 = kore_workers st)
    by (subst st1; destruct (kore_quiet (conf st) =? 0); auto).
  set (st2 := kore_log LOG_NOTICE "worker %d (pid: %d) (hdlr: %s) gone"
                _ st1).
  set (st3 := if linux E && WIFSIGNALED E status
                 && (WTERMSIG E status =? SIGSYS E) then _ else st2).
  assert (H3 : accept_lock st3 = accept_lock st
               /\ worker_no_lock st3 = worker_no_lock st
               /\ conf st3 = conf st
               /\ kore_workers st3 = kore_workers st).
  { subst st3 st2. destruct (_ && _ && _); cbn; exact H1. }
  destruct H3 as (L3 & N3 & C3 & T3).
  destruct (Z.eqb_spec (id (kw_set_running 0 kw)) (KORE_WORKER_KEYMGR E));
    [contradiction | ].
  destruct (Z.eqb_spec (id (kw_set_running 0 kw)) (KORE_WORKER_ACME E));
    [contradiction | ].
  cbn [orb].
  assert (Htest : (pid (kw_set_running 0 kw) =? current (accept_lock st3))
                  && (worker_no_lock st3 =? 0) = true).
  { rewrite L3, N3, Hnl. cbn [pid kw_set_running].
    rewrite Hpid, Hcur, Z.eqb_refl. reflexivity. }
  rewrite Htest.
  assert (L4 : accept_lock (worker_unlock st3) = mk_wlock 0 0)
    by (apply worker_unlock_frees; rewrite L3; exact Hwf).
  assert (C4 : conf (worker_unlock st3) = conf st).
  { rewrite <- C3. unfold worker_unlock, compare_and_swap.
    destruct (lock _ =? 1); reflexivity. }
  assert (T4 : kore_workers (worker_unlock st3) = kore_workers st)
    by (rewrite kore_workers_unlock; exact T3).
  set (pr := if negb (KORE_NO_HTTP E) then _ else _).
  assert (Hpr : accept_lock (snd pr) = mk_wlock 0 0
                /\ conf (snd pr) = conf st
                /\ kore_workers (snd pr) = kore_workers st).
  { subst pr. destruct (negb (KORE_NO_HTTP E)); [ | auto].
    destruct (active_hdlr (kw_set_running 0 kw)); cbn; auto. }
  destruct pr as [kw5 st5]. cbn [fst snd] in Hpr.
  destruct Hpr as (L5 & C5 & T5).
  rewrite C5.
  destruct (worker_policy (conf st)) eqn:Hpol.
  - destruct Hgo as [Hterm | Hos]; [discriminate | ].
    erewrite kore_worker_spawn_ok; [ | exact Hos | ].
    2: { apply store_worker_lookup with (kw := kw). cbn. congruence. }
    cbn [bind]. eexists; split; [reflexivity | ]. cbn. exact L5.
  - eexists; split; [reflexivity | ].
    rewrite accept_lock_raise. cbn. exact L5.
Qed.

(** C6. When a network worker has exited uncleanly while its pid is the
    recorded holder of the accept lock, the supervisor's reap of that pid
    returns with the lock word and accept_lock.current both 0, under either
    policy (with policy restart, once the respawn has gone through). *)
Theorem reap_of_holder_frees_lock (E : env) (os : reap_sys)
    (wpid status i : Z) (st : state) (kw : kore_worker) :
  reaped_slot st wpid i kw ->
  linux E && negb (kore_seccomp_trace E wpid status =? 0) = false ->
  WIFEXITED E status && (WEXITSTATUS E status =? 0) = false ->
  id kw <> KORE_WORKER_KEYMGR E ->
  id kw <> KORE_WORKER_ACME E ->
  wpid = current (accept_lock st) ->
  worker_no_lock st = 0 ->
  lock_wf (accept_lock st) ->
  worker_policy (conf st) = KORE_WORKER_POLICY_TERMINATE
  \/ spawn_ok (respawn os) ->
  exists st',
    worker_reaper E os wpid status st = Returns st'
    /\ lock (accept_lock st') = 0
    /\ current (accept_lock st') = 0.
Proof.
  intros (Hi & H16 & Hslot & Hpid & Hfirst) Hseccomp Hunclean Hkey Hacme
    Hcur Hnl Hwf Hgo.
  destruct (reap_slot_holder E os wpid status i st kw Hslot Hpid Hunclean
              Hkey Hacme Hcur Hnl Hwf Hgo) as (st' & Hstop & Hlock).
  exists st'. unfold worker_reaper. rewrite Hseccomp.
  split; [ | rewrite Hlock; auto].
  apply for_idx_stops_at with (i := i); auto.
  - intros j Hj. destruct (Hfirst j Hj) as (kwj & Hj1 & Hj2).
    eapply reap_slot_skips; eauto.
  - lia.
  - unfold U16_TESTS. lia.
Qed.

Lemma reap_of_holder_frees_lock_witness :
  reaped_slot pool_with_holder 104 4 holder_record
  /\ current (accept_lock pool_with_holder) = 104
  /\ exists st',
       worker_reaper sample_env (respawn_as 204) 104 killed pool_with_holder
       = Returns st'
       /\ lock (accept_lock st') = 0
       /\ current (accept_lock st') = 0.
Proof.
  assert (Hslot : reaped_slot pool_with_holder 104 4 holder_record).
  { unfold reaped_slot.
    split; [vm_compute; split; [discriminate | reflexivity] | ].
    split; [lia | ].
    split; [vm_compute; reflexivity | ].
    split; [reflexivity | ].
    intros j Hj.
    assert (Hcases : j = 0 \/ j = 1 \/ j = 2 \/ j = 3) by lia.
    destruct Hcases as [-> | [-> | [-> | ->]]];
      eexists; (split; [vm_compute; reflexivity | cbn; lia]). }
  split; [exact Hslot | split; [reflexivity | ]].
  apply (reap_of_holder_frees_lock sample_env (respawn_as 204) 104 killed 4
           pool_with_holder holder_record Hslot).
  - reflexivity.
  - reflexivity.
  - cbn; lia.
  - cbn; lia.
  - reflexivity.
  - reflexivity.
  - right; reflexivity.
  - right. unfold spawn_ok. cbn. lia.
Defined.

(** ** Further properties *)

(** *** The acquire policy *)

(** With arbitration on, a worker that has reached
    worker_max_connections or, with HTTP compiled in, http_request_limit
    declines: worker_acceptlock_obtain returns 0 and leaves everything as it
    is, without a compare-and-swap. *)
Theorem obtain_at_limit_declines (E : env) (st : state) :
  arbitration_off st = false ->
  has_lock (worker st) <> 1 ->
  at_limit E st ->
  worker_acceptlock_obtain E st = (0, st).
Proof.
  intros Hon Hfree Hlim. unfold worker_acceptlock_obtain.
  destruct (Z.eqb_spec (has_lock (worker st)) 1); [contradiction | ].
  rewrite Hon. rewrite !Z.geb_leb.
  destruct Hlim as [Hconn | [Hhttp Hreq]].
  - destruct (Z.leb_spec (worker_max_connections (conf st))
                (worker_active_connections st)); [reflexivity | lia].
  - destruct (Z.leb_spec (worker_max_connections (conf st))
                (worker_active_connections st)); [reflexivity | ].
    rewrite Hhttp. cbn [negb andb].
    destruct (Z.leb_spec (http_request_limit (conf st))
                (http_request_count st)); [reflexivity | lia].
Qed.

Lemma obtain_at_limit_declines_witness :
  worker_acceptlock_obtain sample_env (worker_state 4 0 (mk_wlock 0 0) 512)
  = (0, worker_state 4 0 (mk_wlock 0 0) 512).
Proof.
  apply (obtain_at_limit_declines sample_env
           (worker_state 4 0 (mk_wlock 0 0) 512)).
  - reflexivity.
  - cbn; lia.
  - left; cbn; lia.
Defined.

Lemma contending_tests (E : env) (st : state) :
  contending E st ->
  (has_lock (worker st) =? 1) = false
  /\ arbitration_off st = false
  /\ (worker_active_connections st >=? worker_max_connections (conf st))
     = false
  /\ (negb (KORE_NO_HTTP E)
      && (http_request_count st >=? http_request_limit (conf st))) = false.
Proof.
  unfold contending, at_limit. intros (Hon & Hfree & Hlim).
  rewrite !Z.geb_leb, Hfree.
  split; [reflexivity | split; [exact Hon | split]].
  - destruct (Z.leb_spec (worker_max_connections (conf st))
                (worker_active_connections st)); [tauto | reflexivity].
  - destruct (KORE_NO_HTTP E); [reflexivity | ]. cbn [negb andb].
    destruct (Z.leb_spec (http_request_limit (conf st))
                (http_request_count st)); [ | reflexivity].
    exfalso. apply Hlim. right. auto.
Qed.

(** X1. A worker that goes for the lock gets it exactly when the lock word
    is 0: then the word becomes 1, the holder its pid and has_lock 1; when
    the word is not 0 the call returns 0 and changes nothing but for the
    record of the failed compare-and-swap. *)
Theorem obtain_contended (E : env) (st : state) :
  contending E st ->
  (lock (accept_lock st) = 0 ->
   fst (worker_acceptlock_obtain E st) = 1
   /\ accept_lock (snd (worker_acceptlock_obtain E st))
      = mk_wlock 1 (pid (worker st))
   /\ worker (snd (worker_acceptlock_obtain E st))
      = kw_set_has_lock 1 (worker st)
   /\ cas_events (trace (snd (worker_acceptlock_obtain E st)))
      = cas_events (trace st) ++ [EvCas 0 1 true])
  /\ (lock (accept_lock st) <> 0 ->
      worker_acceptlock_obtain E st = (0, emit (EvCas 0 1 false) st)).
Proof.
  intros Hc. destruct (contending_tests E st Hc) as (T1 & T2 & T3 & T4).
  unfold worker_acceptlock_obtain. rewrite T1, T2, T3, T4.
  unfold worker_trylock, compare_and_swap.
  destruct st as [c [l cur] tbl w wc nl av conns reqs sig srvs tr].
  cbn [accept_lock lock].
  split.
  - intros ->. cbn.
    destruct (WORKER_DEBUG E); cbn; rewrite ?cas_events_app; cbn;
      rewrite ?app_nil_r; auto.
  - intros Hne. destruct (Z.eqb_spec l 0); [contradiction | reflexivity].
Qed.

Lemma obtain_contended_witness :
  contending sample_env (worker_state 4 0 (mk_wlock 0 0) 0)
  /\ fst (worker_acceptlock_obtain sample_env
            (worker_state 4 0 (mk_wlock 0 0) 0)) = 1.
Proof.
  assert (Hc : contending sample_env (worker_state 4 0 (mk_wlock 0 0) 0)).
  { unfold contending, at_limit. cbn.
    split; [reflexivity | split; [reflexivity | lia]]. }
  split; [exact Hc | ].
  apply (proj1 (obtain_contended sample_env
                  (worker_state 4 0 (mk_wlock 0 0) 0) Hc)).
  reflexivity.
Defined.

(** X2. Acquire and hand back: a worker that takes the free lock and then
    calls kore_worker_make_busy leaves the lock word at 0, no holder
    recorded and has_lock 0, having swapped the word twice and told all
    workers that accepting is available. *)
Theorem obtain_then_make_busy (E : env) (st : state) :
  contending E st ->
  lock (accept_lock st) = 0 ->
  let st' := kore_worker_make_busy (snd (worker_acceptlock_obtain E st)) in
  accept_lock st' = mk_wlock 0 0
  /\ worker st' = worker st
  /\ cas_events (trace st')
     = cas_events (trace st) ++ [EvCas 0 1 true; EvCas 1 0 true]
  /\ last (trace st')
     = Some (EvMsgSend KORE_MSG_WORKER_ALL KORE_MSG_ACCEPT_AVAILABLE 0).
Proof.
  intros Hc Hfree st'. subst st'.
  destruct (contending_tests E st Hc) as (T1 & T2 & T3 & T4).
  destruct Hc as (Hon & Hheld & _).
  unfold worker_acceptlock_obtain. rewrite T1, T2, T3, T4.
  unfold worker_trylock, compare_and_swap, kore_worker_make_busy,
    unlock_and_broadcast, worker_unlock, compare_and_swap, arbitration_off
    in *.
  destruct st as [c [l cur] tbl w wc nl av conns reqs sig srvs tr].
  destruct w as [wid wcpu wpid wpipe wrun wlk wres whd wlb].
  cbn in Hfree, Hheld, Hon |- *. subst l wlk.
  destruct (WORKER_DEBUG E); cbn; rewrite Hon; cbn;
    rewrite ?cas_events_app, ?last_snoc; cbn;
    rewrite ?app_nil_r, <- ?app_assoc; cbn; auto.
Qed.

Lemma obtain_then_make_busy_witness :
  accept_lock
    (kore_worker_make_busy
       (snd (worker_acceptlock_obtain sample_env
               (worker_state 4 0 (mk_wlock 0 0) 0))))
  = mk_wlock 0 0.
Proof.
  refine (proj1 (obtain_then_make_busy sample_env
                   (worker_state 4 0 (mk_wlock 0 0) 0) _ _)).
  - unfold contending, at_limit. cbn.
    split; [reflexivity | split; [reflexivity | lia]].
  - reflexivity.
Defined.

(** *** Accept readiness *)

Lemma accept_state_snoc (t : list event) (e : event) :
  accept_state (t ++ [e]) = accept_step (accept_state t) e.
Proof. unfold accept_state. rewrite fold_left_app. reflexivity. Qed.

Lemma accept_state_emit (e : event) (st : state) :
  accept_state (trace (emit e st)) = accept_step (accept_state (trace st)) e.
Proof. apply accept_state_snoc. Qed.

Lemma accept_step_other (acc : option bool) (e : event) :
  is_accept_event e = false -> accept_step acc e = acc.
Proof. destruct acc as [[] | ], e; cbn; congruence. Qed.

Lemma accept_state_unlock (st : state) :
  accept_state (trace (worker_unlock st)) = accept_state (trace st).
Proof.
  unfold worker_unlock, compare_and_swap, kore_log.
  destruct (lock _ =? 1); cbn [negb fst snd];
    rewrite ?accept_state_emit, ?accept_step_other by reflexivity;
    reflexivity.
Qed.

Lemma accept_state_broadcast (st : state) :
  accept_state (trace (unlock_and_broadcast st)) = accept_state (trace st).
Proof.
  unfold unlock_and_broadcast, kore_msg_send.
  rewrite accept_state_emit, accept_step_other by reflexivity.
  apply accept_state_unlock.
Qed.

Lemma accept_state_obtain (E : env) (st : state) :
  accept_state (trace (snd (worker_acceptlock_obtain E st)))
  = accept_state (trace st).
Proof.
  unfold worker_acceptlock_obtain, worker_trylock, compare_and_swap,
    kore_log.
  destruct st as [c [l cur] tbl w wc nl av conns reqs sig srvs tr].
  repeat match goal with
         | |- context [if ?c then _ else _] => destruct c; cbn
         end;
    unfold accept_state; rewrite ?fold_left_app; cbn [fold_left];
    rewrite ?accept_step_other by reflexivity; reflexivity.
Qed.

Lemma accept_state_release (E : env) (st : state) :
  accept_state (trace (worker_acceptlock_release E st))
  = accept_state (trace st).
Proof.
  unfold worker_acceptlock_release, kore_log.
  repeat match goal with
         | |- context [if ?c then _ else _] => destruct c
         end;
    rewrite ?accept_state_broadcast, ?accept_state_emit,
      ?accept_step_other by reflexivity;
    reflexivity.
Qed.

Lemma accept_state_make_busy (st : state) :
  accept_state (trace (kore_worker_make_busy st)) = accept_state (trace st).
Proof.
  unfold kore_worker_make_busy.
  repeat match goal with
         | |- context [if ?c then _ else _] => destruct c
         end;
    rewrite ?accept_state_broadcast; reflexivity.
Qed.

Lemma run_op_accept (E : env) (op : worker_op) (s : Z * state) :
  accept_inv s -> accept_inv (run_op E op s).
Proof.
  destruct s as [h st]. unfold accept_inv. cbn [fst snd].
  intros [Hh Hacc].
  destruct op; cbn [run_op fst snd].
  - unfold kore_worker_entry_acquire.
    destruct ((has_lock (worker st) =? 0) && negb (accept_avail st =? 0));
      [ | auto].
    pose proof (accept_state_obtain E st) as Hob.
    destruct (worker_acceptlock_obtain E st) as [r st1]. cbn [snd] in Hob.
    destruct (negb (r =? 0)); cbn [fst snd]; [ | rewrite Hob; auto].
    destruct Hh as [-> | ->]; cbn [Z.eqb fst snd].
    + split; [auto | ].
      rewrite accept_state_emit. cbn [trace set_accept_avail].
      rewrite Hob, Hacc. reflexivity.
    + split; [auto | ]. cbn [trace set_accept_avail].
      rewrite Hob, Hacc. reflexivity.
  - unfold kore_worker_entry_release.
    set (st1 := if negb (has_lock (worker st) =? 0) then _ else st).
    assert (H1 : accept_state (trace st1) = accept_state (trace st)).
    { subst st1. destruct (negb _); [apply accept_state_release | auto]. }
    destruct (has_lock (worker st1) =? 0); cbn [fst snd];
      [ | rewrite H1; auto].
    destruct Hh as [-> | ->]; cbn [Z.eqb Pos.eqb fst snd].
    + rewrite H1. auto.
    + split; [auto | ]. rewrite accept_state_emit, H1, Hacc. reflexivity.
  - rewrite accept_state_make_busy. auto.
  - auto.
  - auto.
Qed.

(** X3. The listener follows the lock. Starting a main loop with accept
    readiness off, whatever the worker does, the listener is enabled and
    disabled in turn (never enabled twice in a row), it is enabled exactly
    while had_lock is 1, and after the release step of a round it is
    enabled only if has_lock is set. *)
Theorem accept_follows_lock (E : env) (ops : list worker_op) (st : state) :
  accept_state (trace st) = Some false ->
  let s' := run_ops E ops (0, st) in
  accept_state (trace (snd s')) = Some (fst s' =? 1)
  /\ (accept_state (trace (snd (run_op E OpRelease s'))) = Some true ->
      has_lock (worker (snd (run_op E OpRelease s'))) <> 0).
Proof.
  intros H0 s'.
  assert (Hinv : accept_inv s').
  { subst s'. generalize (0, st) (conj (or_introl eq_refl) H0
                                    : accept_inv (0, st)).
    induction ops as [| op ops IH]; intros s Hs; cbn; [exact Hs | ].
    apply IH, run_op_accept, Hs. }
  split; [exact (proj2 Hinv) | ].
  pose proof (run_op_accept E OpRelease s' Hinv) as [Hh Hacc].
  rewrite Hacc. intros Htrue.
  assert (H1 : fst (run_op E OpRelease s') = 1).
  { destruct Hh as [Hh | Hh]; [ | exact Hh].
    rewrite Hh in Htrue. discriminate. }
  clear Hacc Htrue Hh. cbn [run_op] in *.
  unfold kore_worker_entry_release in *.
  destruct (Z.eqb_spec (has_lock (worker
              (if negb (has_lock (worker (snd s')) =? 0)
               then worker_acceptlock_release E (snd s') else snd s'))) 0)
    as [Hz | Hnz]; [ | exact Hnz].
  exfalso.
  destruct (Z.eqb_spec (fst s') 1) as [Hone | Hnot]; cbn [fst] in H1.
  - discriminate.
  - contradiction.
Qed.

Lemma accept_follows_lock_witness :
  accept_state (trace (worker_state 4 0 (mk_wlock 0 0) 0)) = Some false
  /\ accept_state
       (trace
          (snd (run_ops sample_env [OpAcquire; OpRelease; OpLoad 600 0]
                  (0, worker_state 4 0 (mk_wlock 0 0) 0))))
     = Some true.
Proof.
  split; [reflexivity | ].
  rewrite (proj1 (accept_follows_lock sample_env
                    [OpAcquire; OpRelease; OpLoad 600 0]
                    (worker_state 4 0 (mk_wlock 0 0) 0) eq_refl)).
  vm_compute. reflexivity.
Defined.

(** *** Without listeners *)

Lemma run_op_off (E : env) (l : wlock) (cas : list event) (op : worker_op)
    (s : Z * state) :
  off_inv l cas s -> off_inv l cas (run_op E op s).
Proof.
  destruct s as [h st]. unfold off_inv. cbn [fst snd].
  intros (Hoff & Hl & Hcas).
  destruct op; cbn [run_op fst snd].
  - unfold kore_worker_entry_acquire, worker_acceptlock_obtain.
    rewrite Hoff.
    destruct st as [c lk tbl w wc nl av conns reqs sig srvs tr].
    unfold arbitration_off in *. cbn in *.
    repeat match goal with
           | |- context [if ?c then _ else _] => destruct c; cbn
           end;
      rewrite ?cas_events_app; cbn; rewrite ?app_nil_r; auto.
  - unfold kore_worker_entry_release, worker_acceptlock_release.
    rewrite Hoff.
    destruct st as [c lk tbl w wc nl av conns reqs sig srvs tr].
    unfold arbitration_off in *. cbn in *.
    repeat match goal with
           | |- context [if ?c then _ else _] => destruct c; cbn
           end;
      rewrite ?cas_events_app; cbn; rewrite ?app_nil_r; auto.
  - unfold kore_worker_make_busy. rewrite Hoff. auto.
  - destruct st; cbn in *; auto.
  - destruct st; cbn in *; auto.
Qed.

Lemma kore_worker_entry_setup_no_listeners (E : env) (kw : kore_worker)
    (st0 st : state) :
  nlisteners (conf st0) = 0 ->
  kore_worker_entry_setup E kw st0 = Some st ->
  worker_no_lock st = 1.
Proof.
  intros Hnl. unfold kore_worker_entry_setup.
  destruct st0 as [c lk tbl w wc nl av conns reqs sig srvs tr].
  cbn in Hnl.
  repeat (cbn; rewrite ?Hnl; change (0 =? 0) with true; cbn;
          match goal with
          | |- context [if ?c then _ else _] =>
              lazymatch c with
              | context [if _ then _ else _] => fail
              | _ => destruct c
              end
          end);
    cbn; try discriminate; intros [= <-]; reflexivity.
Qed.

(** X4. A worker started without listeners sets worker_no_lock and from
    then on never attempts a compare-and-swap, whatever it does and whatever
    the size of the pool: the lock region stays as the worker found it. *)
Theorem no_listeners_no_cas (E : env) (kw : kore_worker) (st0 st : state)
    (ops : list worker_op) (had_lock : Z) :
  nlisteners (conf st0) = 0 ->
  kore_worker_entry_setup E kw st0 = Some st ->
  let s' := run_ops E ops (had_lock, st) in
  accept_lock (snd s') = accept_lock st
  /\ cas_events (trace (snd s')) = cas_events (trace st).
Proof.
  intros Hnl Hsetup s'.
  pose proof (kore_worker_entry_setup_no_listeners E kw st0 st Hnl Hsetup)
    as Hno.
  assert (Hinv : off_inv (accept_lock st) (cas_events (trace st)) s').
  { subst s'.
    assert (H0 : off_inv (accept_lock st) (cas_events (trace st))
                   (had_lock, st)).
    { unfold off_inv, arbitration_off. cbn [fst snd].
      rewrite Hno. rewrite orb_true_r. auto. }
    revert H0. generalize (had_lock, st).
    induction ops as [| op ops IH]; intros s Hs; cbn; [exact Hs | ].
    apply IH, run_op_off, Hs. }
  destruct Hinv as (_ & Hl & Hcas). auto.
Qed.

Lemma no_listeners_no_cas_witness :
  exists st,
    kore_worker_entry_setup sample_env holder_record
      (mk_state no_listener_conf (mk_wlock 0 0) [] zero_worker 6 0 0 0 0 0
         [] []) = Some st
    /\ cas_events
         (trace (snd (run_ops sample_env
                        [OpAcquire; OpLoad 600 0; OpRelease; OpMakeBusy]
                        (0, st))))
       = cas_events (trace st).
Proof.
  eexists. split; [vm_compute; reflexivity | ].
  refine (proj2 (no_listeners_no_cas sample_env holder_record
                   (mk_state no_listener_conf (mk_wlock 0 0) [] zero_worker
                      6 0 0 0 0 0 [] [])
                   _ [OpAcquire; OpLoad 600 0; OpRelease; OpMakeBusy] 0
                   eq_refl _)).
  vm_compute. reflexivity.
Defined.

(** *** Mutual exclusion *)

Ltac split_ifs :=
  repeat match goal with
         | |- context [if ?c then _ else _] =>
             lazymatch c with
             | context [if _ then _ else _] => fail
             | _ => destruct c
             end; cbn
         end.

(** No operation of a worker changes its configuration, the worker count,
    worker_no_lock or its pid. *)
Lemma run_op_frame (E : env) (op : worker_op) (s : Z * state) :
  let st' := snd (run_op E op s) in
  worker_count st' = worker_count (snd s)
  /\ worker_no_lock st' = worker_no_lock (snd s)
  /\ pid (worker st') = pid (worker (snd s))
  /\ conf st' = conf (snd s).
Proof.
  destruct s as [h st].
  destruct st as [c [l cur] tbl w wc nl av conns reqs sig srvs tr].
  destruct w as [wid wcpu wpid wpipe wrun wlk wres whd wlb].
  destruct op; cbn [run_op fst snd];
    unfold kore_worker_entry_acquire, worker_acceptlock_obtain,
      worker_trylock, kore_worker_entry_release, worker_acceptlock_release,
      kore_worker_make_busy, unlock_and_broadcast, worker_unlock,
      compare_and_swap, arbitration_off, below_limits;
    cbn; split_ifs; auto.
Qed.

Lemma unlock_and_broadcast_effect (st : state) :
  accept_lock (unlock_and_broadcast st)
  = mk_wlock (if lock (accept_lock st) =? 1 then 0
              else lock (accept_lock st)) 0
  /\ has_lock (worker (unlock_and_broadcast st)) = 0.
Proof.
  destruct st as [c [l cur] tbl w wc nl av conns reqs sig srvs tr].
  unfold unlock_and_broadcast, worker_unlock, compare_and_swap. cbn.
  destruct (l =? 1); cbn; auto.
Qed.

(** The two tests of worker_acceptlock_obtain on connections and requests
    are the negation of the test of worker_acceptlock_release. *)
Lemma obtain_tests_below_limits (E : env) (st : state) :
  below_limits E st
  = negb (worker_active_connections st >=? worker_max_connections (conf st))
    && negb (negb (KORE_NO_HTTP E)
             && (http_request_count st >=? http_request_limit (conf st))).
Proof.
  unfold below_limits. rewrite !Z.geb_leb.
  destruct (Z.ltb_spec (worker_active_connections st)
              (worker_max_connections (conf st)));
    destruct (Z.leb_spec (worker_max_connections (conf st))
                (worker_active_connections st)); try lia; cbn; auto.
  destruct (KORE_NO_HTTP E); cbn; auto.
  destruct (Z.ltb_spec (http_request_count st) (http_request_limit (conf st)));
    destruct (Z.leb_spec (http_request_limit (conf st))
                (http_request_count st)); try lia; reflexivity.
Qed.

Lemma obtain_cases (E : env) (st : state) :
  arbitration_off st = false ->
  has_lock (worker st) = 0 ->
  (below_limits E st = false /\ worker_acceptlock_obtain E st = (0, st))
  \/ (below_limits E st = true /\ lock (accept_lock st) <> 0
      /\ worker_acceptlock_obtain E st = (0, emit (EvCas 0 1 false) st))
  \/ (below_limits E st = true /\ lock (accept_lock st) = 0
      /\ fst (worker_acceptlock_obtain E st) = 1
      /\ accept_lock (snd (worker_acceptlock_obtain E st))
         = mk_wlock 1 (pid (worker st))
      /\ has_lock (worker (snd (worker_acceptlock_obtain E st))) = 1
      /\ cas_events (trace (snd (worker_acceptlock_obtain E st)))
         = cas_events (trace st) ++ [EvCas 0 1 true]).
Proof.
  intros Hon Hfree.
  pose proof (obtain_tests_below_limits E st) as Hlim.
  unfold worker_acceptlock_obtain. rewrite Hfree, Hon.
  cbn [Z.eqb].
  destruct (worker_active_connections st >=? worker_max_connections (conf st));
    [left; split; [exact Hlim | reflexivity] | ].
  destruct (negb (KORE_NO_HTTP E)
            && (http_request_count st >=? http_request_limit (conf st)));
    [left; split; [exact Hlim | reflexivity] | ].
  cbn in Hlim. right.
  unfold worker_trylock, compare_and_swap.
  destruct st as [c [l cur] tbl w wc nl av conns reqs sig srvs tr].
  cbn [accept_lock lock] in *.
  destruct (Z.eqb_spec l 0) as [-> | Hne].
  - right. cbn.
    destruct (WORKER_DEBUG E); cbn; rewrite ?cas_events_app; cbn;
      rewrite ?app_nil_r; repeat split; auto.
  - left. auto.
Qed.

Lemma release_cases (E : env) (st : state) :
  arbitration_off st = false ->
  has_lock (worker st) = 1 ->
  (below_limits E st = true /\ worker_acceptlock_release E st = st)
  \/ (below_limits E st = false
      /\ accept_lock (worker_acceptlock_release E st)
         = mk_wlock (if lock (accept_lock st) =? 1 then 0
                     else lock (accept_lock st)) 0
      /\ has_lock (worker (worker_acceptlock_release E st)) = 0).
Proof.
  intros Hon Hheld. unfold worker_acceptlock_release.
  rewrite Hon, Hheld. cbn [Z.eqb Pos.eqb negb].
  destruct (below_limits E st); [left; auto | right].
  split; [reflexivity | ].
  set (st0 := if WORKER_DEBUG E then _ else st).
  assert (H0 : accept_lock st0 = accept_lock st)
    by (subst st0; destruct (WORKER_DEBUG E); reflexivity).
  rewrite <- H0. apply unlock_and_broadcast_effect.
Qed.

(** What one operation of an arbitrating worker can do to the lock: leave
    it, take it when it is free, or give it back when the worker has it. *)
Lemma run_op_effect (E : env) (op : worker_op) (h : Z) (st : state) :
  arbitration_off st = false ->
  has_lock (worker st) = 0 \/ has_lock (worker st) = 1 ->
  let st' := snd (run_op E op (h, st)) in
  (accept_lock st' = accept_lock st
   /\ has_lock (worker st') = has_lock (worker st))
  \/ (lock (accept_lock st) = 0 /\ has_lock (worker st) = 0
      /\ accept_lock st' = mk_wlock 1 (pid (worker st))
      /\ has_lock (worker st') = 1)
  \/ (has_lock (worker st) = 1 /\ has_lock (worker st') = 0
      /\ accept_lock st'
         = mk_wlock (if lock (accept_lock st) =? 1 then 0
                     else lock (accept_lock st)) 0).
Proof.
  intros Hon Hbin st'. subst st'.
  destruct op; cbn [run_op fst snd].
  - unfold kore_worker_entry_acquire.
    destruct Hbin as [Hfree | Hheld].
    + rewrite Hfree. cbn [Z.eqb andb].
      destruct (negb (accept_avail st =? 0)); [ | left; auto].
      destruct (obtain_cases E st Hon Hfree)
        as [[_ ->] | [(_ & _ & ->) | (_ & Hl & Hr & Hlock & Hhas & _)]].
      * cbn [Z.eqb negb fst snd]. left. auto.
      * cbn [Z.eqb negb fst snd]. left. destruct st; cbn; auto.
      * right. left.
        destruct (worker_acceptlock_obtain E st) as [r st1].
        cbn [fst snd] in *. subst r. cbn [Z.eqb negb].
        split; [exact Hl | split; [reflexivity | ]].
        destruct (h =? 0); cbn [snd]; auto.
    + rewrite Hheld. left. auto.
  - unfold kore_worker_entry_release.
    destruct Hbin as [Hfree | Hheld].
    + rewrite Hfree. cbn [Z.eqb negb]. rewrite Hfree. cbn [Z.eqb].
      left. destruct (h =? 1); cbn [snd]; rewrite ?Hfree; auto.
    + rewrite Hheld. cbn [Z.eqb Pos.eqb negb].
      destruct (release_cases E st Hon Hheld)
        as [[_ ->] | (_ & Hlock & Hhas)].
      * rewrite Hheld. cbn [Z.eqb Pos.eqb]. left. auto.
      * rewrite Hhas. cbn [Z.eqb]. right. right.
        destruct (h =? 1); cbn [snd]; auto.
  - unfold kore_worker_make_busy. rewrite Hon.
    destruct Hbin as [Hfree | Hheld].
    + rewrite Hfree. left. auto.
    + rewrite Hheld. cbn [Z.eqb Pos.eqb negb]. right. right.
      destruct (unlock_and_broadcast_effect st). auto.
  - left. destruct st; cbn; auto.
  - left. destruct st; cbn; auto.
Qed.

Lemma pool_step_exclusive (E : env) (p : pool) (step : nat * worker_op) :
  exclusive p -> exclusive (pool_step E p step).
Proof.
  destruct p as [l ms]. destruct step as [i op].
  intros Hex. unfold pool_step. cbn [fst snd].
  destruct (ms !! i) as [[h st] | ] eqn:Hi; [ | exact Hex].
  destruct Hex as (Hwf & Hall & Hheld & Huniq). cbn [fst snd] in *.
  destruct (Hall i (h, st) Hi) as [Hon Hbin]. cbn [snd] in Hon, Hbin.
  set (sti := set_accept_lock l st).
  assert (Hon' : arbitration_off sti = false)
    by (subst sti; destruct st; exact Hon).
  assert (Hbin' : has_lock (worker sti) = 0 \/ has_lock (worker sti) = 1)
    by (subst sti; destruct st; exact Hbin).
  assert (Hl' : accept_lock sti = l) by (subst sti; destruct st; reflexivity).
  assert (Hhl' : has_lock (worker sti) = has_lock (worker st))
    by (subst sti; destruct st; reflexivity).
  assert (Hpid' : pid (worker sti) = pid (worker st))
    by (subst sti; destruct st; reflexivity).
  pose proof (run_op_frame E op (h, sti)) as (Fwc & Fnl & Fpid & _).
  pose proof (run_op_effect E op h sti Hon' Hbin') as Heff.
  cbn [snd] in Fwc, Fnl, Fpid, Heff.
  set (s' := run_op E op (h, sti)) in *.
  assert (Hlen : (i < length ms)%nat) by (eapply lookup_lt_Some, Hi).
  assert (Hnew : forall j s, <[i:=s']> ms !! j = Some s ->
                   (j = i /\ s = s') \/ (j <> i /\ ms !! j = Some s)).
  { intros j s Hj. destruct (decide (j = i)) as [-> | Hne].
    - rewrite list_lookup_insert_eq in Hj by exact Hlen.
      injection Hj as <-. auto.
    - rewrite list_lookup_insert_ne in Hj by congruence. auto. }
  assert (Hoff' : arbitration_off (snd s') = false).
  { unfold arbitration_off in *. rewrite Fwc, Fnl. exact Hon'. }
  rewrite Hl', Hhl', Hpid' in Heff. rewrite Hpid' in Fpid.
  assert (Hother : forall j s, j <> i -> ms !! j = Some s ->
                     has_lock (worker (snd s)) = 1 ->
                     accept_lock (snd s') = l
                     /\ has_lock (worker (snd s')) <> 1).
  { intros j s Hne Hj Hj1.
    destruct (Hheld j s Hj Hj1) as [Hlock _].
    destruct Heff as [[Ha Hb] | [(Hz & _) | (Hi1 & _)]].
    - split; [exact Ha | ]. rewrite Hb. intros Hi1.
      apply Hne. apply (Huniq j i); [exists s; auto | exists (h, st); auto].
    - lia.
    - exfalso. apply Hne.
      apply (Huniq j i); [exists s; auto | exists (h, st); auto]. }
  unfold exclusive. cbn [fst snd].
  split; [ | split; [ | split]].
  - destruct Heff as [[-> _] | [(_ & _ & -> & _) | (_ & _ & ->)]].
    + exact Hwf.
    + right; reflexivity.
    + left. destruct Hwf as [-> | ->]; reflexivity.
  - intros j s Hj. destruct (Hnew j s Hj) as [[-> ->] | [_ Hold]].
    + split; [exact Hoff' | ].
      destruct Heff as [[_ ->] | [(_ & _ & _ & ->) | (_ & -> & _)]]; auto.
    + exact (Hall j s Hold).
  - intros j s Hj Hs1. destruct (Hnew j s Hj) as [[-> ->] | [Hne Hold]].
    + rewrite Fpid.
      destruct Heff as [[-> Hb] | [(_ & _ & -> & _) | (_ & Hz & _)]].
      * rewrite Hb in Hs1. exact (Hheld i (h, st) Hi Hs1).
      * auto.
      * congruence.
    + destruct (Hother j s Hne Hold Hs1) as [-> _].
      exact (Hheld j s Hold Hs1).
  - intros a b (sa & Ha & Ha1) (sb & Hb & Hb1).
    destruct (Hnew a sa Ha) as [[-> ->] | [Hna Holda]];
      destruct (Hnew b sb Hb) as [[-> ->] | [Hnb Holdb]].
    + reflexivity.
    + destruct (Hother b sb Hnb Holdb Hb1) as [_ Hno]. contradiction.
    + destruct (Hother a sa Hna Holda Ha1) as [_ Hno]. contradiction.
    + apply Huniq; [exists sa; auto | exists sb; auto].
Qed.

(** X5. Mutual exclusion. In a pool of arbitrating workers that starts
    with a free lock and nobody holding, and whose members run whole
    acquire, release and make-busy steps in any order, at every moment at
    most one member has has_lock 1; that member is the holder the lock
    region records, and the lock word is 1. *)
Theorem at_most_one_holder (E : env) (schedule : list (nat * worker_op))
    (members : list (Z * state)) :
  (forall s, In s members ->
     arbitration_off (snd s) = false /\ has_lock (worker (snd s)) = 0) ->
  let p := pool_run E schedule (mk_wlock 0 0, members) in
  (forall i j, believes_held p i -> believes_held p j -> i = j)
  /\ (forall i s, snd p !! i = Some s -> has_lock (worker (snd s)) = 1 ->
        lock (fst p) = 1 /\ current (fst p) = pid (worker (snd s))).
Proof.
  intros Hfresh p.
  assert (Hex : exclusive p).
  { subst p.
    assert (H0 : exclusive (mk_wlock 0 0, members)).
    { unfold exclusive. cbn [fst snd].
      split; [left; reflexivity | ].
      split; [ | split].
      - intros i s Hi. apply list_elem_of_lookup_2, list_elem_of_In in Hi.
        destruct (Hfresh s Hi) as [Hon Hz]. split; [exact Hon | auto].
      - intros i s Hi H1. apply list_elem_of_lookup_2, list_elem_of_In in Hi.
        destruct (Hfresh s Hi) as [_ Hz]. congruence.
      - intros i j (s & Hi & H1) _.
        apply list_elem_of_lookup_2, list_elem_of_In in Hi.
        destruct (Hfresh s Hi) as [_ Hz]. congruence. }
    revert H0. generalize (mk_wlock 0 0, members).
    unfold pool_run.
    induction schedule as [| step rest IH]; intros q Hq; cbn; [exact Hq | ].
    apply IH, pool_step_exclusive, Hq. }
  destruct Hex as (_ & _ & Hheld & Huniq). auto.
Qed.

Lemma at_most_one_holder_witness :
  exists s,
    snd (pool_run sample_env handover
           (mk_wlock 0 0, [member 102; member 103])) !! 1%nat = Some s
    /\ has_lock (worker (snd s)) = 1
    /\ fst (pool_run sample_env handover
              (mk_wlock 0 0, [member 102; member 103]))
       = mk_wlock 1 103.
Proof.
  eexists. split; [vm_compute; reflexivity | ].
  split; [reflexivity | ].
  assert (Hfresh : forall s, In s [member 102; member 103] ->
                     arbitration_off (snd s) = false
                     /\ has_lock (worker (snd s)) = 0).
  { intros s [<- | [<- | []]]; split; reflexivity. }
  destruct (proj2 (at_most_one_holder sample_env handover
                     [member 102; member 103] Hfresh) 1%nat _
              ltac:(vm_compute; reflexivity) eq_refl) as [Hlock Hcur].
  destruct (fst (pool_run sample_env handover
                   (mk_wlock 0 0, [member 102; member 103]))) as [l c].
  cbn in Hlock, Hcur. subst. reflexivity.
Defined.

(** *** What the reaper does with a slot *)

Lemma fork_events_app (t u : list event) :
  fork_events (t ++ u) = fork_events t ++ fork_events u.
Proof. apply List.filter_app. Qed.

(** The reaper's loop comes to the slot that records the pid and ends
    there. *)
Lemma worker_reaper_at_slot (E : env) (os : reap_sys) (wpid status i : Z)
    (st : state) (kw : kore_worker) (r : outcome state) :
  reaped_slot st wpid i kw ->
  not_traced E wpid status ->
  reap_slot E os wpid status i st = Stop r ->
  worker_reaper E os wpid status st = r.
Proof.
  intros (Hi & H16 & Hslot & Hpid & Hfirst) Hnt Hstop.
  unfold worker_reaper. unfold not_traced in Hnt. rewrite Hnt.
  apply for_idx_stops_at with (i := i); auto.
  - intros j Hj. destruct (Hfirst j Hj) as (kwj & Hj1 & Hj2).
    eapply reap_slot_skips; eauto.
  - lia.
  - unfold U16_TESTS. lia.
Qed.

(** X6. A worker that exits cleanly is not restarted: its slot is marked
    stopped with pid 0 and nothing else happens. No process is forked, no
    signal raised, and the lock region is left alone even when the worker
    was its recorded holder. *)
Theorem reap_clean_exit (E : env) (os : reap_sys) (wpid status i : Z)
    (st : state) (kw : kore_worker) :
  reaped_slot st wpid i kw ->
  not_traced E wpid status ->
  clean_exit E status = true ->
  exists st',
    worker_reaper E os wpid status st = Returns st'
    /\ kore_workers st' = <[Z.to_nat i := emptied kw]> (kore_workers st)
    /\ accept_lock st' = accept_lock st
    /\ trace st'
       = trace st
           ++ (if kore_quiet (conf st) =? 0
               then [EvLog LOG_NOTICE "worker %s (%d) exited with status %d"
                       [LInt (id kw); LInt wpid; LInt status]]
               else []).
Proof.
  intros Hslot Hnt Hclean.
  pose proof Hslot as (_ & _ & Hlook & Hpid & _).
  eexists. split.
  - eapply worker_reaper_at_slot; [exact Hslot | exact Hnt | ].
    unfold reap_slot. rewrite Hlook.
    destruct (Z.eqb_spec (pid kw) wpid) as [_ | ]; [ | contradiction].
    cbn [negb]. unfold clean_exit in Hclean. rewrite Hclean. reflexivity.
  - unfold emptied.
    destruct (kore_quiet (conf st) =? 0); cbn;
      rewrite ?app_nil_r; auto.
Qed.

Lemma pool_with_holder_slot :
  reaped_slot pool_with_holder 104 4 holder_record.
Proof.
  unfold reaped_slot.
  split; [vm_compute; split; [discriminate | reflexivity] | ].
  split; [lia | ].
  split; [vm_compute; reflexivity | ].
  split; [reflexivity | ].
  intros j Hj.
  assert (Hcases : j = 0 \/ j = 1 \/ j = 2 \/ j = 3) by lia.
  destruct Hcases as [-> | [-> | [-> | ->]]];
    eexists; (split; [vm_compute; reflexivity | cbn; lia]).
Qed.

Lemma reap_clean_exit_witness :
  exists st',
    worker_reaper sample_env (respawn_as 204) 104 0 pool_with_holder
    = Returns st'
    /\ accept_lock st' = mk_wlock 1 104.
Proof.
  destruct (reap_clean_exit sample_env (respawn_as 204) 104 0 4
              pool_with_holder holder_record pool_with_holder_slot
              eq_refl eq_refl) as (st' & Hret & _ & Hlock & _).
  exists st'. split; [exact Hret | ]. rewrite Hlock. reflexivity.
Defined.

(** The slot of a process that did not exit cleanly, in the three ways the
    reaper deals with it. *)
Lemma reap_slot_sibling (E : env) (os : reap_sys) (wpid status i : Z)
    (st : state) (kw : kore_worker) :
  kore_workers st !! Z.to_nat i = Some kw ->
  pid kw = wpid ->
  clean_exit E status = false ->
  is_sibling E kw = true ->
  reap_slot E os wpid status i st
  = Stop (Returns
            (raise_sigterm os
               (store_worker i (emptied kw)
                  (kore_log LOG_CRIT "keymgr or acme process gone, stopping"
                     [] (gone_logged E wpid status kw st))))).
Proof.
  intros Hlook Hpid Hunclean Hsib.
  unfold reap_slot. rewrite Hlook.
  destruct (Z.eqb_spec (pid kw) wpid) as [_ | ]; [ | contradiction].
  cbn [negb]. unfold clean_exit in Hunclean. rewrite Hunclean.
  unfold is_sibling in Hsib. cbn [id kw_set_running]. rewrite Hsib.
  reflexivity.
Qed.

Lemma reap_slot_network (E : env) (os : reap_sys) (wpid status i : Z)
    (st : state) (kw : kore_worker) :
  kore_workers st !! Z.to_nat i = Some kw ->
  pid kw = wpid ->
  clean_exit E status = false ->
  is_sibling E kw = false ->
  reap_slot E os wpid status i st
  = let '(kw5, st5) :=
      blamed E (kw_set_running 0 kw)
        (holder_unlocked kw (gone_logged E wpid status kw st)) in
    match worker_policy (conf st5) with
    | KORE_WORKER_POLICY_TERMINATE =>
        Stop (Returns
                (raise_sigterm os
                   (store_worker i (kw_set_pid 0 kw5)
                      (kore_log LOG_NOTICE
                         "worker policy is 'terminate', stopping" [] st5))))
    | KORE_WORKER_POLICY_RESTART =>
        Stop (st6 <- kore_worker_spawn (respawn os) i (id kw5) (cpu kw5)
                       (store_worker i (kw_set_restarted 1 kw5)
                          (emit (EvMsgParentRemove i)
                             (kore_log LOG_NOTICE "restarting worker %d"
                                [LInt (id kw5)] st5))) ;;
              Returns (emit (EvMsgParentAdd i) st6))
    end.
Proof.
  intros Hlook Hpid Hunclean Hsib.
  unfold reap_slot. rewrite Hlook.
  destruct (Z.eqb_spec (pid kw) wpid) as [_ | ]; [ | contradiction].
  cbn [negb]. unfold clean_exit in Hunclean. rewrite Hunclean.
  unfold is_sibling in Hsib. cbn [id kw_set_running]. rewrite Hsib.
  reflexivity.
Qed.

(** The steps of the reaper that only write log lines, release the lock or
    raise a signal leave the table, the configuration and the forks on
    record alone. *)
Lemma gone_logged_frame (E : env) (wpid status : Z) (kw : kore_worker)
    (st : state) :
  let st' := gone_logged E wpid status kw st in
  kore_workers st' = kore_workers st
  /\ accept_lock st' = accept_lock st
  /\ conf st' = conf st
  /\ worker_no_lock st' = worker_no_lock st
  /\ fork_events (trace st') = fork_events (trace st)
  /\ cas_events (trace st') = cas_events (trace st).
Proof.
  destruct st as [c lk tbl w wc nl av conns reqs sig srvs tr].
  unfold gone_logged. cbn.
  destruct (kore_quiet c =? 0);
    destruct (linux E && WIFSIGNALED E status
              && (WTERMSIG E status =? SIGSYS E)); cbn;
    rewrite ?fork_events_app, ?cas_events_app; cbn;
    rewrite ?app_nil_r; repeat split; reflexivity.
Qed.

Lemma holder_unlocked_frame (kw : kore_worker) (st : state) :
  let st' := holder_unlocked kw st in
  kore_workers st' = kore_workers st
  /\ conf st' = conf st
  /\ worker_no_lock st' = worker_no_lock st
  /\ fork_events (trace st') = fork_events (trace st).
Proof.
  destruct st as [c [l cur] tbl w wc nl av conns reqs sig srvs tr].
  unfold holder_unlocked, worker_unlock, compare_and_swap. cbn.
  destruct ((pid kw =? cur) && (nl =? 0)); [ | auto].
  destruct (l =? 1); cbn; rewrite ?fork_events_app; cbn;
    rewrite ?app_nil_r; auto.
Qed.

Lemma holder_unlocked_other (kw : kore_worker) (st : state) :
  pid kw <> current (accept_lock st) \/ worker_no_lock st <> 0 ->
  holder_unlocked kw st = st.
Proof.
  intros Hno. unfold holder_unlocked.
  destruct (Z.eqb_spec (pid kw) (current (accept_lock st)));
    destruct (Z.eqb_spec (worker_no_lock st) 0); cbn; try reflexivity.
  destruct Hno; contradiction.
Qed.

Lemma blamed_frame (E : env) (kw : kore_worker) (st : state) :
  let r := blamed E kw st in
  kore_workers (snd r) = kore_workers st
  /\ accept_lock (snd r) = accept_lock st
  /\ conf (snd r) = conf st
  /\ worker_no_lock (snd r) = worker_no_lock st
  /\ fork_events (trace (snd r)) = fork_events (trace st)
  /\ cas_events (trace (snd r)) = cas_events (trace st)
  /\ id (fst r) = id kw /\ cpu (fst r) = cpu kw
  /\ restarted (fst r) = restarted kw /\ running (fst r) = running kw
  /\ pid (fst r) = pid kw.
Proof.
  destruct st as [c lk tbl w wc nl av conns reqs sig srvs tr].
  unfold blamed.
  destruct (negb (KORE_NO_HTTP E)); [ | cbn; repeat split; reflexivity].
  destruct (active_hdlr kw); cbn;
    rewrite ?fork_events_app, ?cas_events_app; cbn;
    rewrite ?app_nil_r; repeat split; reflexivity.
Qed.

Lemma raise_sigterm_frame (os : reap_sys) (st : state) :
  let st' := raise_sigterm os st in
  kore_workers st' = kore_workers st
  /\ accept_lock st' = accept_lock st
  /\ worker_no_lock st' = worker_no_lock st
  /\ fork_events (trace st') = fork_events (trace st)
  /\ cas_events (trace st') = cas_events (trace st)
  /\ In (EvRaise SIGTERM (raise_ret os)) (trace st').
Proof.
  destruct st as [c lk tbl w wc nl av conns reqs sig srvs tr].
  unfold raise_sigterm. cbn.
  destruct (negb (raise_ret os =? 0)); cbn;
    rewrite ?fork_events_app, ?cas_events_app; cbn;
    rewrite ?app_nil_r; repeat split; try reflexivity;
    rewrite ?in_app_iff; cbn; auto.
Qed.

(** X7. The siblings and, under policy terminate, the network workers are
    never started again: when such a process has not exited cleanly the
    supervisor empties its slot, raises SIGTERM on itself and forks
    nothing. For a sibling it leaves the lock region alone as well. *)
Theorem reap_without_restart (E : env) (os : reap_sys) (wpid status i : Z)
    (st : state) (kw : kore_worker) :
  reaped_slot st wpid i kw ->
  not_traced E wpid status ->
  clean_exit E status = false ->
  is_sibling E kw = true
  \/ worker_policy (conf st) = KORE_WORKER_POLICY_TERMINATE ->
  exists st',
    worker_reaper E os wpid status st = Returns st'
    /\ fork_events (trace st') = fork_events (trace st)
    /\ In (EvRaise SIGTERM (raise_ret os)) (trace st')
    /\ (exists kw',
          kore_workers st' !! Z.to_nat i = Some kw'
          /\ pid kw' = 0 /\ running kw' = 0
          /\ id kw' = id kw /\ cpu kw' = cpu kw)
    /\ (is_sibling E kw = true ->
        accept_lock st' = accept_lock st
        /\ cas_events (trace st') = cas_events (trace st)).
Proof.
  intros Hslot Hnt Hunclean Hwhy.
  pose proof Hslot as (_ & _ & Hlook & Hpid & _).
  assert (Hlen : (Z.to_nat i < length (kore_workers st))%nat)
    by (eapply lookup_lt_Some, Hlook).
  pose proof (gone_logged_frame E wpid status kw st)
    as (G1 & G2 & G3 & G4 & G5 & G6).
  destruct (is_sibling E kw) eqn:Hsib.
  - eexists. split.
    { eapply worker_reaper_at_slot; [exact Hslot | exact Hnt | ].
      exact (reap_slot_sibling E os wpid status i st kw Hlook Hpid
               Hunclean Hsib). }
    match goal with
    | |- context [raise_sigterm os ?s] =>
        pose proof (raise_sigterm_frame os s) as (R1 & R2 & R3 & R4 & R5 & R6)
    end.
    cbn in R1, R2, R4, R5.
    split; [rewrite R4, fork_events_app; cbn; rewrite app_nil_r; exact G5 | ].
    split; [exact R6 | ].
    split.
    + exists (emptied kw). rewrite R1, G1.
      split; [apply list_lookup_insert_eq; exact Hlen | ].
      repeat split; reflexivity.
    + intros _. rewrite R2, R5, cas_events_app. cbn. rewrite app_nil_r.
      auto.
  - destruct Hwhy as [ | Hpol]; [discriminate | ].
    pose proof (reap_slot_network E os wpid status i st kw Hlook Hpid
                  Hunclean Hsib) as Hshape.
    pose proof (holder_unlocked_frame kw (gone_logged E wpid status kw st))
      as (U1 & U2 & U3 & U4).
    pose proof (blamed_frame E (kw_set_running 0 kw)
                  (holder_unlocked kw (gone_logged E wpid status kw st)))
      as (B1 & B2 & B3 & B4 & B5 & B6 & B7 & B8 & B9 & B10 & B11).
    destruct (blamed E (kw_set_running 0 kw)
                (holder_unlocked kw (gone_logged E wpid status kw st)))
      as [kw5 st5].
    cbn [fst snd] in *.
    assert (Hpol5 : worker_policy (conf st5) = KORE_WORKER_POLICY_TERMINATE)
      by (rewrite B3, U2, G3; exact Hpol).
    rewrite Hpol5 in Hshape.
    eexists. split.
    { eapply worker_reaper_at_slot; [exact Hslot | exact Hnt | exact Hshape]. }
    match goal with
    | |- context [raise_sigterm os ?s] =>
        pose proof (raise_sigterm_frame os s) as (R1 & R2 & R3 & R4 & R5 & R6)
    end.
    cbn in R1, R4.
    split; [rewrite R4, fork_events_app; cbn; rewrite app_nil_r;
            congruence | ].
    split; [exact R6 | ].
    split; [ | discriminate].
    exists (kw_set_pid 0 kw5). rewrite R1, B1, U1, G1.
    split; [apply list_lookup_insert_eq; exact Hlen | ].
    cbn. rewrite B7, B8, B10. repeat split; reflexivity.
Qed.

Lemma reap_without_restart_witness :
  exists st',
    worker_reaper sample_env (respawn_as 204) 104 killed terminate_pool
    = Returns st'
    /\ fork_events (trace st') = [].
Proof.
  assert (Hslot : reaped_slot terminate_pool 104 4 holder_record).
  { unfold reaped_slot.
    split; [vm_compute; split; [discriminate | reflexivity] | ].
    split; [lia | ].
    split; [vm_compute; reflexivity | ].
    split; [reflexivity | ].
    intros j Hj.
    assert (Hcases : j = 0 \/ j = 1 \/ j = 2 \/ j = 3) by lia.
    destruct Hcases as [-> | [-> | [-> | ->]]];
      eexists; (split; [vm_compute; reflexivity | cbn; lia]). }
  destruct (reap_without_restart sample_env (respawn_as 204) 104 killed 4
              terminate_pool holder_record Hslot eq_refl eq_refl
              (or_intror eq_refl)) as (st' & Hret & Hforks & _).
  exists st'. split; [exact Hret | ]. rewrite Hforks. reflexivity.
Defined.

Lemma lock_kept_spawn (os : spawn_sys) (i wid wcpu : Z)
    (st0 st : state) :
  lock_kept st0 st ->
  outcome_sat (lock_kept st0) (fun _ => lock_kept st0)
    (kore_worker_spawn os i wid wcpu st).
Proof.
  intros (K1 & K2 & K3).
  eapply outcome_sat_weaken; [ | | apply kore_worker_spawn_sat]; cbn.
  - intros st' (kw' & -> & _). unfold lock_kept. cbn.
    rewrite cas_events_app. cbn. rewrite app_nil_r. auto.
  - intros kw' st' (-> & _). unfold lock_kept. cbn.
    rewrite cas_events_app. cbn. rewrite app_nil_r. auto.
Qed.

Lemma reap_slot_keeps_lock (E : env) (os : reap_sys) (wpid status i : Z)
    (st0 st : state) :
  wpid <> current (accept_lock st0) \/ worker_no_lock st0 <> 0 ->
  lock_kept st0 st ->
  match reap_slot E os wpid status i st with
  | Next st' => lock_kept st0 st'
  | Stop r => outcome_sat (lock_kept st0) (fun _ => lock_kept st0) r
  end.
Proof.
  intros Hwhy Hkept. pose proof Hkept as (K1 & K2 & K3).
  destruct (kore_workers st !! Z.to_nat i) as [kw | ] eqn:Hlook.
  2: { unfold reap_slot. rewrite Hlook. exact I. }
  destruct (Z.eq_dec (pid kw) wpid) as [Hpid | Hpid].
  2: { rewrite (reap_slot_skips E os wpid status i st kw Hlook Hpid).
       exact Hkept. }
  destruct (clean_exit E status) eqn:Hclean.
  { unfold reap_slot. rewrite Hlook.
    destruct (Z.eqb_spec (pid kw) wpid) as [_ | ]; [ | contradiction].
    cbn [negb]. unfold clean_exit in Hclean. rewrite Hclean.
    unfold lock_kept. cbn.
    destruct (kore_quiet (conf st) =? 0); cbn;
      rewrite ?cas_events_app; cbn; rewrite ?app_nil_r; auto. }
  pose proof (gone_logged_frame E wpid status kw st)
    as (G1 & G2 & G3 & G4 & G5 & G6).
  destruct (is_sibling E kw) eqn:Hsib.
  - rewrite (reap_slot_sibling E os wpid status i st kw Hlook Hpid Hclean
               Hsib).
    match goal with
    | |- context [raise_sigterm os ?s] =>
        pose proof (raise_sigterm_frame os s) as (R1 & R2 & R3 & R4 & R5 & R6)
    end.
    unfold lock_kept. cbn in R2, R3, R5 |- *.
    rewrite R2, R3, R5, cas_events_app. cbn. rewrite app_nil_r.
    repeat split; congruence.
  - rewrite (reap_slot_network E os wpid status i st kw Hlook Hpid Hclean
               Hsib).
    rewrite holder_unlocked_other
      by (rewrite G2, G4, K1, K2, Hpid; exact Hwhy).
    pose proof (blamed_frame E (kw_set_running 0 kw)
                  (gone_logged E wpid status kw st))
      as (B1 & B2 & B3 & B4 & B5 & B6 & _).
    destruct (blamed E (kw_set_running 0 kw)
                (gone_logged E wpid status kw st)) as [kw5 st5].
    cbn [fst snd] in *.
    assert (Hk5 : lock_kept st0 st5)
      by (unfold lock_kept; repeat split; congruence).
    destruct (worker_policy (conf st5)).
    + cbn [outcome_sat].
      eapply bind_sat.
      * apply lock_kept_spawn with (st0 := st0).
        destruct Hk5 as (H1 & H2 & H3). unfold lock_kept. cbn.
        rewrite !cas_events_app. cbn. rewrite !app_nil_r. auto.
      * intros st6 (H1 & H2 & H3). unfold lock_kept. cbn.
        rewrite cas_events_app. cbn. rewrite app_nil_r. auto.
    + match goal with
      | |- context [raise_sigterm os ?s] =>
          pose proof (raise_sigterm_frame os s)
            as (R1 & R2 & R3 & R4 & R5 & R6)
      end.
      destruct Hk5 as (H1 & H2 & H3).
      unfold lock_kept. cbn in R2, R3, R5 |- *.
      rewrite R2, R3, R5, cas_events_app. cbn. rewrite app_nil_r.
      repeat split; congruence.
Qed.

(** X8. The supervisor takes the lock away from nobody but a dead holder:
    when the reaped pid is not the recorded holder of the lock (or the
    supervisor runs with worker_no_lock set), the reaper leaves the lock
    region as it is and makes no compare-and-swap, whatever it does with the
    slot; the same holds, at the fork, in a child it starts again. *)
Theorem reap_of_other_keeps_lock (E : env) (os : reap_sys) (wpid status : Z)
    (st : state) :
  wpid <> current (accept_lock st) \/ worker_no_lock st <> 0 ->
  outcome_sat
    (fun st' => accept_lock st' = accept_lock st
                /\ cas_events (trace st') = cas_events (trace st))
    (fun _ st' => accept_lock st' = accept_lock st
                  /\ cas_events (trace st') = cas_events (trace st))
    (worker_reaper E os wpid status st).
Proof.
  intros Hwhy.
  apply outcome_sat_weaken
    with (P := lock_kept st) (C := fun _ => lock_kept st).
  - intros st' (H1 & _ & H3). auto.
  - intros _ st' (H1 & _ & H3). auto.
  - unfold worker_reaper.
    destruct (linux E && negb (kore_seccomp_trace E wpid status =? 0)).
    + cbn. unfold lock_kept. auto.
    + apply for_idx_sat.
      * intros i s Hs. apply reap_slot_keeps_lock; assumption.
      * unfold lock_kept. auto.
Qed.

Lemma reap_of_other_keeps_lock_witness :
  outcome_sat
    (fun st' => accept_lock st' = accept_lock pool_with_holder
                /\ cas_events (trace st')
                   = cas_events (trace pool_with_holder))
    (fun _ st' => accept_lock st' = accept_lock pool_with_holder
                  /\ cas_events (trace st')
                     = cas_events (trace pool_with_holder))
    (worker_reaper sample_env (respawn_as 203) 103 killed pool_with_holder).
Proof.
  apply (reap_of_other_keeps_lock sample_env (respawn_as 203) 103 killed
           pool_with_holder).
  left. vm_compute. discriminate.
Defined.

(** X9. Reaping a pid that no slot records changes nothing. *)
Theorem reap_of_unknown_pid (E : env) (os : reap_sys) (wpid status : Z)
    (st : state) :
  table_wf st ->
  (forall kw, In kw (kore_workers st) -> pid kw <> wpid) ->
  worker_reaper E os wpid status st = Returns st.
Proof.
  intros Hwf Hnone. unfold worker_reaper.
  destruct (linux E && negb (kore_seccomp_trace E wpid status =? 0));
    [reflexivity | ].
  destruct (for_idx_returns (fun s => s = st) (reap_slot E os wpid status)
              (worker_count st) (proj2 Hwf))
    with (fuel := U16_TESTS) (idx := 0) (s := st) as (st' & Hret & ->).
  - intros i s Hi ->.
    destruct (kore_workers st !! Z.to_nat i) as [kw | ] eqn:Hlook.
    + rewrite (reap_slot_skips E os wpid status i st kw Hlook);
        [reflexivity | ].
      apply Hnone. apply list_elem_of_In.
      eapply list_elem_of_lookup_2, Hlook.
    + apply lookup_ge_None in Hlook. destruct Hwf as [Hlen _]. lia.
  - lia.
  - unfold U16_TESTS. lia.
  - destruct Hwf. unfold U16_TESTS. lia.
  - reflexivity.
  - exact Hret.
Qed.

Lemma reap_of_unknown_pid_witness :
  worker_reaper sample_env (respawn_as 204) 999 killed pool_with_holder
  = Returns pool_with_holder.
Proof.
  apply (reap_of_unknown_pid sample_env (respawn_as 204) 999 killed
           pool_with_holder).
  - vm_compute. split; reflexivity.
  - assert (Hall : forallb (fun kw => negb (pid kw =? 999))
                     (kore_workers pool_with_holder) = true)
      by (vm_compute; reflexivity).
    intros kw Hin.
    pose proof (proj1 (forallb_forall _ _) Hall kw Hin) as Hkw.
    apply negb_true_iff, Z.eqb_neq in Hkw. exact Hkw.
Defined.

(** *** Restarted workers *)

Lemma cert_requests_app (t u : list event) :
  cert_requests (t ++ u) = cert_requests t ++ cert_requests u.
Proof. apply List.filter_app. Qed.

Lemma kore_worker_spawn_child (os : spawn_sys) (idx wid wcpu : Z)
    (st : state) (kw : kore_worker) :
  spawn_in_child os ->
  kore_workers st !! Z.to_nat idx = Some kw ->
  kore_worker_spawn os idx wid wcpu st
  = InChild
      (mk_worker wid wcpu (getpid_ret os) (socketpair_fds os) 1 0
         (restarted kw) None (lb_offset kw))
      (store_worker idx
         (mk_worker wid wcpu (getpid_ret os) (socketpair_fds os) 1 0
            (restarted kw) None (lb_offset kw))
         (emit (EvFork (fork_ret os)) st)).
Proof.
  intros (Hsp & Hn0 & Hn1 & Hf) Hslot.
  unfold kore_worker_spawn. rewrite Hslot.
  destruct (Z.eqb_spec (socketpair_ret os) (-1)); [contradiction | ].
  destruct (Z.eqb_spec (nonblock0 os) 0); [contradiction | ].
  destruct (Z.eqb_spec (nonblock1 os) 0); [contradiction | ].
  rewrite Hf. reflexivity.
Qed.

(** What the start of kore_worker_entry sends to the keymgr: a request for
    certificates, once, when there is a keymgr and the slot is marked
    restarted; and the mark is cleared. *)
Lemma kore_worker_entry_setup_cert_req (E : env) (kw : kore_worker)
    (st : state) :
  is_sibling E kw = false ->
  exists st',
    kore_worker_entry_setup E kw st = Some st'
    /\ restarted (worker st') = 0
    /\ cert_requests (trace st')
       = cert_requests (trace st)
           ++ (if negb (keymgr_active (conf st) =? 0)
                  && negb (restarted kw =? 0)
               then [EvMsgSend (KORE_MSG_TO (KORE_WORKER_KEYMGR E))
                       KORE_MSG_CERTIFICATE_REQ 0]
               else []).
Proof.
  unfold is_sibling. intros Hsib. apply orb_false_elim in Hsib.
  destruct Hsib as [Hk Ha].
  unfold kore_worker_entry_setup. rewrite Hk, Ha, andb_false_r.
  eexists. split; [reflexivity | ].
  destruct st as [c lk tbl w wc nl av conns reqs sig srvs tr].
  split; [reflexivity | ].
  repeat (cbn;
          match goal with
          | |- context [if ?c then _ else _] =>
              lazymatch c with
              | context [if _ then _ else _] => fail
              | _ => destruct c
              end
          end);
    cbn; rewrite ?cert_requests_app; cbn; rewrite ?app_nil_r;
    rewrite <- ?app_assoc; reflexivity.
Qed.

Lemma reap_prefix_cert_requests (E : env) (wpid status : Z)
    (kw kw0 : kore_worker) (st : state) :
  let r := blamed E kw0
             (holder_unlocked kw (gone_logged E wpid status kw st)) in
  cert_requests (trace (snd r)) = cert_requests (trace st)
  /\ conf (snd r) = conf st.
Proof.
  destruct st as [c [l cur] tbl w wc nl av conns reqs sig srvs tr].
  unfold blamed, holder_unlocked, gone_logged, worker_unlock,
    compare_and_swap.
  cbn.
  repeat (match goal with
          | |- context [if ?c then _ else _] =>
              lazymatch c with
              | context [if _ then _ else _] => fail
              | _ => destruct c
              end
          | |- context [match active_hdlr ?k with _ => _ end] =>
              destruct (active_hdlr k)
          end; cbn);
    rewrite ?cert_requests_app; cbn; rewrite ?app_nil_r; auto.
Qed.

(** X10. A worker that is started again learns so and asks for its
    certificates: seen from the child forked for the slot of a network
    worker that crashed, the slot has the id and cpu it had, the new pid,
    no lock and the restarted mark; the child's start-up sends one
    CERTIFICATE_REQ to the keymgr when there is a keymgr, and clears the
    mark. *)
Theorem restarted_child_requests_certificates (E : env) (os : reap_sys)
    (wpid status i : Z) (st : state) (kw : kore_worker) :
  reaped_slot st wpid i kw ->
  not_traced E wpid status ->
  clean_exit E status = false ->
  is_sibling E kw = false ->
  worker_policy (conf st) = KORE_WORKER_POLICY_RESTART ->
  spawn_in_child (respawn os) ->
  exists kw' st' st'',
    worker_reaper E os wpid status st = InChild kw' st'
    /\ id kw' = id kw /\ cpu kw' = cpu kw
    /\ pid kw' = getpid_ret (respawn os)
    /\ restarted kw' = 1 /\ has_lock kw' = 0
    /\ kore_worker_entry_setup E kw' st' = Some st''
    /\ restarted (worker st'') = 0
    /\ cert_requests (trace st'')
       = cert_requests (trace st)
           ++ (if keymgr_active (conf st) =? 0 then []
               else [EvMsgSend (KORE_MSG_TO (KORE_WORKER_KEYMGR E))
                       KORE_MSG_CERTIFICATE_REQ 0]).
Proof.
  intros Hslot Hnt Hunclean Hsib Hpol Hos.
  pose proof Hslot as (_ & _ & Hlook & Hpid & _).
  pose proof (reap_slot_network E os wpid status i st kw Hlook Hpid
                Hunclean Hsib) as Hshape.
  pose proof (gone_logged_frame E wpid status kw st)
    as (G1 & G2 & G3 & G4 & G5 & G6).
  pose proof (holder_unlocked_frame kw (gone_logged E wpid status kw st))
    as (U1 & U2 & U3 & U4).
  pose proof (blamed_frame E (kw_set_running 0 kw)
                (holder_unlocked kw (gone_logged E wpid status kw st)))
    as (B1 & B2 & B3 & B4 & B5 & B6 & B7 & B8 & B9 & B10 & B11).
  destruct (reap_prefix_cert_requests E wpid status kw (kw_set_running 0 kw)
              st) as [C1 C2].
  destruct (blamed E (kw_set_running 0 kw)
              (holder_unlocked kw (gone_logged E wpid status kw st)))
    as [kw5 st5] eqn:Hb.
  cbn [fst snd] in *.
  rewrite C2, Hpol in Hshape.
  set (S0 := store_worker i (kw_set_restarted 1 kw5)
               (emit (EvMsgParentRemove i)
                  (kore_log LOG_NOTICE "restarting worker %d"
                     [LInt (id kw5)] st5))) in *.
  assert (Hl0 : kore_workers S0 !! Z.to_nat i
                = Some (kw_set_restarted 1 kw5)).
  { apply store_worker_lookup with (kw := kw). cbn. rewrite B1, U1, G1.
    exact Hlook. }
  pose proof (kore_worker_spawn_child (respawn os) i (id kw5) (cpu kw5) S0
                _ Hos Hl0) as Hsp.
  rewrite Hsp in Hshape. cbn [bind] in Hshape.
  pose proof (worker_reaper_at_slot E os wpid status i st kw _ Hslot Hnt
                Hshape) as Hr.
  match type of Hr with _ = InChild ?k ?s =>
    assert (Hc : conf s = conf st)
      by (subst S0; destruct st5; cbn in *; exact C2);
    assert (Ht : cert_requests (trace s) = cert_requests (trace st))
      by (subst S0; destruct st5; cbn in *; rewrite !cert_requests_app; cbn;
          rewrite !app_nil_r; exact C1);
    destruct (kore_worker_entry_setup_cert_req E k s) as (st'' & S1 & S2 & S3);
    [ | exists k, s, st'' ]
  end.
  - unfold is_sibling in *. cbn [id]. rewrite B7. exact Hsib.
  - split; [exact Hr | ].
    split; [cbn; rewrite B7; reflexivity | ].
    split; [cbn; rewrite B8; reflexivity | ].
    split; [reflexivity | ].
    split; [reflexivity | ].
    split; [reflexivity | ].
    split; [exact S1 | ].
    split; [exact S2 | ].
    rewrite S3, Hc, Ht. f_equal.
    destruct (keymgr_active (conf st) =? 0); reflexivity.
Qed.

Lemma pool_with_holder_policy :
  worker_policy (conf pool_with_holder) = KORE_WORKER_POLICY_RESTART.
Proof. vm_compute. reflexivity. Qed.

Lemma respawn_child_ok (newpid : Z) : spawn_in_child (respawn (respawn_child newpid)).
Proof. repeat split; discriminate. Qed.

Lemma restarted_child_requests_certificates_witness :
  exists kw' st' st'',
    worker_reaper sample_env (respawn_child 204) 104 killed pool_with_holder
    = InChild kw' st'
    /\ pid kw' = 204 /\ restarted kw' = 1
    /\ kore_worker_entry_setup sample_env kw' st' = Some st''
    /\ restarted (worker st'') = 0.
Proof.
  destruct (restarted_child_requests_certificates sample_env
              (respawn_child 204) 104 killed 4 pool_with_holder holder_record
              pool_with_holder_slot eq_refl eq_refl eq_refl
              pool_with_holder_policy (respawn_child_ok 204))
    as (kw' & st' & st'' & Hr & _ & _ & Hpid & Hre & _ & Hs & Hz & _).
  exists kw', st', st''. auto.
Defined.

(** *** Start-up of a pool of any size *)

Lemma for_idx_counts {S : Type} (Inv : Z -> S -> Prop)
    (body : Z -> S -> ctl S) (bound : Z) :
  bound < 65536 ->
  (forall i s, 0 <= i < bound -> Inv i s ->
     exists s', body i s = Next s' /\ Inv (i + 1) s') ->
  forall fuel idx s,
    0 <= idx <= bound -> bound - idx < Z.of_nat fuel -> Inv idx s ->
    exists s', for_idx fuel idx bound body s = Returns s' /\ Inv bound s'.
Proof.
  intros Hbound Hbody fuel.
  induction fuel as [| fuel IH]; intros idx s Hidx Hfuel Hs; [lia | ].
  cbn [for_idx].
  destruct (Z.ltb_spec idx bound) as [Hlt | Hge].
  - destruct (Hbody idx s (conj (proj1 Hidx) Hlt) Hs) as (s' & -> & Hs').
    assert (Hu : u16 (idx + 1) = idx + 1)
      by (unfold u16; apply Z.mod_small; lia).
    rewrite Hu. apply IH; [lia | lia | exact Hs'].
  - assert (idx = bound) as -> by lia. eauto.
Qed.

Lemma next_cpu (cpus m : Z) :
  0 < cpus -> 0 <= m ->
  (if m mod cpus + 1 >=? cpus then 0 else m mod cpus + 1)
  = (m + 1) mod cpus.
Proof.
  intros Hc Hm.
  pose proof (Z.mod_pos_bound m cpus Hc) as Hr.
  pose proof (Z.div_mod m cpus ltac:(lia)) as Hdm.
  rewrite Z.geb_leb.
  destruct (Z.leb_spec cpus (m mod cpus + 1)).
  - apply Z.mod_unique_pos with (q := m / cpus + 1); lia.
  - apply Z.mod_unique_pos with (q := m / cpus); lia.
Qed.

Lemma init_log_buffer_zero (i : Z) (st : state) (m : nat) :
  kore_workers st = replicate m zero_worker ->
  (Z.to_nat i < m)%nat ->
  init_log_buffer i st = Next st.
Proof.
  intros Htbl Hi. unfold init_log_buffer.
  rewrite Htbl, lookup_replicate_2 by exact Hi.
  f_equal. destruct st as [c lk tbl w wc nl av conns reqs sig srvs tr].
  unfold store_worker, set_kore_workers. cbn in *. subst tbl. f_equal.
  apply list_insert_id. apply lookup_replicate_2. exact Hi.
Qed.

Lemma seqZ_snoc (m n : Z) : 0 <= n -> seqZ m (n + 1) = seqZ m n ++ [m + n].
Proof. intros Hn. rewrite seqZ_app by lia. reflexivity. Qed.

Lemma init_table_length (os : Z -> spawn_sys) (cpus n : Z) :
  0 <= n -> length (init_table os cpus n) = Z.to_nat (n + 2).
Proof.
  intros Hn. unfold init_table. cbn. rewrite length_map, length_seqZ. lia.
Qed.

Lemma spawn_next_init (os : Z -> spawn_sys) (p : state) (i : Z) :
  0 < cpu_count (conf p) ->
  2 <= i < pool_size p + 2 ->
  pool_size p + 2 < 65536 ->
  spawn_ok (os i) ->
  spawn_next os i
    (i - 1, (i - 2) mod cpu_count (conf p) + 1, init_upto os p i)
  = Next (i, (i - 1) mod cpu_count (conf p) + 1, init_upto os p (i + 1)).
Proof.
  intros Hc Hi Hn Hos.
  unfold spawn_next.
  change (conf (init_upto os p i)) with (conf p).
  rewrite (next_cpu (cpu_count (conf p)) (i - 2)) by lia.
  replace (i - 2 + 1) with (i - 1) by lia.
  assert (Hlook : kore_workers (init_upto os p i) !! Z.to_nat i
                  = Some zero_worker).
  { unfold init_upto. cbn [kore_workers].
    rewrite lookup_app_r by (rewrite init_table_length; lia).
    rewrite init_table_length by lia.
    apply lookup_replicate_2. lia. }
  rewrite (kore_worker_spawn_ok (os i) i (i - 1)
             ((i - 1) mod cpu_count (conf p)) _ zero_worker Hos Hlook).
  pose proof (Z.mod_pos_bound (i - 1) (cpu_count (conf p)) Hc) as Hr.
  pose proof (Z.mod_le (i - 1) (cpu_count (conf p)) ltac:(lia) Hc) as Hle.
  f_equal. f_equal; [f_equal | ].
  - replace (i - 1 + 1) with i by lia. unfold u16. apply Z.mod_small. lia.
  - unfold u16. apply Z.mod_small. lia.
  - unfold init_upto, store_worker, emit, set_kore_workers, set_trace.
    cbn [conf accept_lock kore_workers worker worker_count worker_no_lock
         accept_avail worker_active_connections http_request_count sig_recv
         kore_servers trace].
    f_equal.
    + replace (i + 1 - 2) with (i - 2 + 1) by lia.
      replace (Z.to_nat (pool_size p + 2 - i))
        with (S (Z.to_nat (pool_size p + 2 - (i + 1)))) by lia.
      unfold init_table at 2. rewrite seqZ_snoc by lia.
      rewrite map_app. cbn [map].
      replace (2 + (i - 2)) with i by lia.
      fold (init_table os (cpu_count (conf p)) (i - 2)).
      rewrite app_assoc. fold (init_table os (cpu_count (conf p)) (i - 2)).
      rewrite <- app_assoc. cbn [app replicate].
      replace (Z.to_nat i)
        with (length (init_table os (cpu_count (conf p)) (i - 2)) + 0)%nat
        by (rewrite init_table_length; lia).
      rewrite insert_app_r. reflexivity.
    + replace (i + 1 - 2) with (i - 2 + 1) by lia.
      unfold init_forks. rewrite seqZ_snoc by lia. rewrite map_app.
      cbn [map]. replace (2 + (i - 2)) with i by lia.
      rewrite app_assoc. reflexivity.
Qed.

Lemma init_upto_start (os : Z -> spawn_sys) (p : state) :
  0 <= pool_size p ->
  init_upto os p 2
  = mk_state (conf p) (mk_wlock 0 0)
      (replicate (Z.to_nat (pool_size p + 2)) zero_worker)
      (worker p) (pool_size p + 2) 0 (accept_avail p)
      (worker_active_connections p) (http_request_count p) (sig_recv p)
      (kore_servers p) (trace p).
Proof.
  intros Hn. unfold init_upto, init_table, init_forks.
  replace (2 - 2) with 0 by lia.
  replace (pool_size p + 2 - 2) with (pool_size p) by lia.
  replace (Z.to_nat (pool_size p + 2)) with (S (S (Z.to_nat (pool_size p))))
    by lia.
  cbn. rewrite app_nil_r. reflexivity.
Qed.

Lemma init_upto_end (os : Z -> spawn_sys) (p : state) :
  0 <= pool_size p ->
  kore_workers (init_upto os p (pool_size p + 2))
  = init_table os (cpu_count (conf p)) (pool_size p).
Proof.
  intros Hn. unfold init_upto. cbn [kore_workers].
  replace (pool_size p + 2 - (pool_size p + 2)) with 0 by lia.
  replace (pool_size p + 2 - 2) with (pool_size p) by lia.
  change (Z.to_nat 0) with 0%nat. apply app_nil_r.
Qed.

(** kore_worker_init up to the start of the siblings: the two loops run to
    their end and leave the network workers in their slots. *)
Lemma kore_worker_init_loops (E : env) (sys : init_sys)
    (os : Z -> spawn_sys) (p : state) :
  0 < cpu_count (conf p) ->
  pool_fits E p ->
  shmget_ret sys <> -1 ->
  shmat_failed sys = false ->
  (forall i, 2 <= i < pool_size p + 2 -> spawn_ok (os i)) ->
  kore_worker_init E sys os p
  = let st := init_upto os p (pool_size p + 2) in
    if negb (keymgr_active (conf p) =? 0) then
      st <- (if KORE_USE_ACME E && acme_provider (conf p) then
               kore_worker_spawn (os (KORE_WORKER_ACME_IDX E))
                 (KORE_WORKER_ACME_IDX E) (KORE_WORKER_ACME E) 0 st
             else Returns st) ;;
      kore_worker_spawn (os (KORE_WORKER_KEYMGR_IDX E))
        (KORE_WORKER_KEYMGR_IDX E) (KORE_WORKER_KEYMGR E) 0 st
    else Returns st.
Proof.
  intros Hc (Hn & Hrange & Hmax) Hget Hat Hos.
  unfold kore_worker_init.
  destruct (Z.eqb_spec (shmget_ret sys) (-1)); [contradiction | ].
  rewrite Hat.
  match goal with
  | |- context [for_idx _ _ _ init_log_buffer ?s] =>
      assert (Hst : s = init_upto os p 2)
  end.
  { rewrite init_upto_start by exact Hn.
    pose proof (init_count_fits E p Hn Hrange) as Hcount.
    unfold init_count in Hcount.
    destruct p as [c l tbl w wc nl av conns reqs sig srvs tr].
    cbn in Hcount |- *.
    destruct (wc =? 0); cbn in Hcount |- *; rewrite Hcount; reflexivity. }
  rewrite Hst.
  change (worker_count (init_upto os p 2)) with (pool_size p + 2).
  destruct (for_idx_counts (fun _ s => s = init_upto os p 2)
              init_log_buffer (pool_size p + 2) Hmax) with
    (fuel := U16_TESTS) (idx := KORE_WORKER_BASE) (s := init_upto os p 2)
    as (s1 & -> & ->).
  { intros i s Hi ->. exists (init_upto os p 2). split; [ | reflexivity].
    apply init_log_buffer_zero with (m := Z.to_nat (pool_size p + 2)).
    - rewrite init_upto_start by exact Hn. reflexivity.
    - lia. }
  { unfold KORE_WORKER_BASE. lia. }
  { unfold KORE_WORKER_BASE, U16_TESTS. lia. }
  { reflexivity. }
  cbn [bind].
  change (worker_count (init_upto os p 2)) with (pool_size p + 2).
  destruct (for_idx_counts
              (fun i s =>
                 2 <= i
                 /\ s = (i - 1, (i - 2) mod cpu_count (conf p) + 1,
                         init_upto os p i))
              (spawn_next os) (pool_size p + 2) Hmax) with
    (fuel := U16_TESTS) (idx := KORE_WORKER_BASE)
    (s := (1, 1, init_upto os p 2))
    as (s2 & -> & _ & ->).
  { intros i s Hi [H2 ->]. eexists. split.
    - apply spawn_next_init; [exact Hc | lia | exact Hmax | apply Hos; lia].
    - split; [lia | ]. replace (i + 1 - 1) with i by lia.
      replace (i + 1 - 2) with (i - 1) by lia. reflexivity. }
  { unfold KORE_WORKER_BASE. lia. }
  { unfold KORE_WORKER_BASE, U16_TESTS. lia. }
  { unfold KORE_WORKER_BASE. split; [lia | ].
    replace (2 - 2) with 0 by lia. rewrite Z.mod_0_l by lia. reflexivity. }
  cbn [bind snd]. reflexivity.
Qed.

(** X11. Started without a keymgr on a machine with at least one cpu,
    with a pool that fits (its size and the two reserved slots are within
    the range of worker_count and of the 16-bit slot index), the
    supervisor comes back with a pool of the configured size (as many
    workers as cpus when none is configured): the worker with id k sits
    in slot k + 1 on cpu k mod cpus, running, without the lock; the two
    reserved slots are empty; one fork per worker is on record, in slot
    order; the lock is free and arbitration is on. *)
Theorem init_deals_cpus_round_robin (E : env) (sys : init_sys)
    (os : Z -> spawn_sys) (p : state) :
  0 < cpu_count (conf p) ->
  pool_fits E p ->
  keymgr_active (conf p) = 0 ->
  shmget_ret sys <> -1 ->
  shmat_failed sys = false ->
  (forall i, 2 <= i < pool_size p + 2 -> spawn_ok (os i)) ->
  exists st',
    kore_worker_init E sys os p = Returns st'
    /\ kore_workers st'
       = init_table os (cpu_count (conf p)) (pool_size p)
    /\ worker_count st' = pool_size p + 2
    /\ accept_lock st' = mk_wlock 0 0
    /\ worker_no_lock st' = 0
    /\ trace st' = trace p ++ init_forks os (pool_size p).
Proof.
  intros Hc Hfits Hkey Hget Hat Hos.
  rewrite (kore_worker_init_loops E sys os p Hc Hfits Hget Hat Hos).
  destruct Hfits as (Hn & _ & Hmax).
  cbn zeta. rewrite Hkey. change (negb (0 =? 0)) with false. cbn iota.
  eexists. split; [reflexivity | ].
  split; [apply init_upto_end; exact Hn | ].
  unfold init_upto. cbn.
  replace (pool_size p + 2 - 2) with (pool_size p) by lia. auto.
Qed.

Lemma init_deals_cpus_round_robin_witness :
  exists st',
    kore_worker_init sample_env shm_ok forks_ok (boot_state 5 4)
    = Returns st'
    /\ map cpu (kore_workers st') = [0; 0; 1; 2; 3; 0; 1]
    /\ map pid (kore_workers st') = [0; 0; 102; 103; 104; 105; 106].
Proof.
  assert (Hget : shmget_ret shm_ok <> -1) by (cbn; lia).
  assert (Hos : forall i, 2 <= i < pool_size (boot_state 5 4) + 2 ->
                  spawn_ok (forks_ok i)).
  { intros i Hi. unfold spawn_ok. cbn. lia. }
  assert (Hfits : pool_fits sample_env (boot_state 5 4)).
  { unfold pool_fits.
    split; [ | split]; vm_compute; first [reflexivity | discriminate]. }
  destruct (init_deals_cpus_round_robin sample_env shm_ok forks_ok
              (boot_state 5 4) ltac:(cbn; lia) Hfits eq_refl Hget eq_refl
              Hos)
    as (st' & Hinit & Htable & _).
  exists st'. split; [exact Hinit | ]. rewrite Htable.
  split; reflexivity.
Defined.

(** X12. With a keymgr and a pool that fits worker_count and the slot
    index, the siblings are started last, in the reserved slots: after the
    network workers the supervisor forks the ACME process when it is built
    in and asked for, then the keymgr. Each sits in its slot with its own
    id on cpu 0, and the slots of the network workers are as they were. *)
Theorem init_starts_siblings_last (E : env) (sys : init_sys)
    (os : Z -> spawn_sys) (p : state) :
  0 < cpu_count (conf p) ->
  pool_fits E p ->
  keymgr_active (conf p) <> 0 ->
  reserved_slots E ->
  shmget_ret sys <> -1 ->
  shmat_failed sys = false ->
  (forall i, 0 <= i < pool_size p + 2 -> spawn_ok (os i)) ->
  exists st',
    kore_worker_init E sys os p = Returns st'
    /\ kore_workers st' !! Z.to_nat (KORE_WORKER_KEYMGR_IDX E)
       = Some (sibling_slot os (KORE_WORKER_KEYMGR_IDX E)
                 (KORE_WORKER_KEYMGR E))
    /\ kore_workers st' !! Z.to_nat (KORE_WORKER_ACME_IDX E)
       = Some (if acme_wanted E p
               then sibling_slot os (KORE_WORKER_ACME_IDX E)
                      (KORE_WORKER_ACME E)
               else zero_worker)
    /\ drop 2 (kore_workers st')
       = map (network_slot os (cpu_count (conf p))) (seqZ 2 (pool_size p))
    /\ trace st'
       = trace p ++ init_forks os (pool_size p)
           ++ (if acme_wanted E p
               then [EvFork (fork_ret (os (KORE_WORKER_ACME_IDX E)))]
               else [])
           ++ [EvFork (fork_ret (os (KORE_WORKER_KEYMGR_IDX E)))].
Proof.
  intros Hc Hfits Hkey (Hk & Ha & Hka) Hget Hat Hos.
  rewrite (kore_worker_init_loops E sys os p Hc Hfits Hget Hat)
    by (intros i Hi; apply Hos; lia).
  destruct Hfits as (Hn & _ & Hmax).
  cbn zeta.
  destruct (Z.eqb_spec (keymgr_active (conf p)) 0); [contradiction | ].
  cbn [negb]. unfold acme_wanted.
  unfold KORE_WORKER_BASE in Hk, Ha.
  assert (Hok : spawn_ok (os (KORE_WORKER_KEYMGR_IDX E)))
    by (apply Hos; lia).
  assert (Hoa : spawn_ok (os (KORE_WORKER_ACME_IDX E)))
    by (apply Hos; lia).
  set (tbl := map (network_slot os (cpu_count (conf p)))
                (seqZ 2 (pool_size p))).
  assert (Htbl : kore_workers (init_upto os p (pool_size p + 2))
                 = zero_worker :: zero_worker :: tbl)
    by (rewrite init_upto_end by exact Hn; reflexivity).
  assert (Htr : trace (init_upto os p (pool_size p + 2))
                = trace p ++ init_forks os (pool_size p)).
  { unfold init_upto. cbn [trace].
    replace (pool_size p + 2 - 2) with (pool_size p) by lia. reflexivity. }
  destruct (init_upto os p (pool_size p + 2))
    as [c l tb w wc nl av conns reqs sig srvs tr].
  cbn in Htbl, Htr. subst tb tr.
  assert (Hcases : (KORE_WORKER_KEYMGR_IDX E = 0
                    /\ KORE_WORKER_ACME_IDX E = 1)
                   \/ (KORE_WORKER_KEYMGR_IDX E = 1
                       /\ KORE_WORKER_ACME_IDX E = 0)) by lia.
  destruct (KORE_USE_ACME E && acme_provider (conf p)).
  - erewrite kore_worker_spawn_ok; [ | exact Hoa | ].
    2: { destruct Hcases as [[_ ->] | [_ ->]]; reflexivity. }
    cbn [bind].
    erewrite kore_worker_spawn_ok; [ | exact Hok | ].
    2: { destruct Hcases as [[-> ->] | [-> ->]]; reflexivity. }
    eexists. split; [reflexivity | ].
    unfold sibling_slot.
    destruct Hcases as [[-> ->] | [-> ->]]; cbn;
      rewrite <- !app_assoc; auto.
  - cbn [bind].
    erewrite kore_worker_spawn_ok; [ | exact Hok | ].
    2: { destruct Hcases as [[-> _] | [-> _]]; reflexivity. }
    eexists. split; [reflexivity | ].
    unfold sibling_slot.
    destruct Hcases as [[-> ->] | [-> ->]]; cbn;
      rewrite <- !app_assoc; auto.
Qed.

Lemma init_starts_siblings_last_witness :
  exists st',
    kore_worker_init sample_env shm_ok forks_ok (keymgr_boot 2 2)
    = Returns st'
    /\ trace st' = [EvFork 102; EvFork 103; EvFork 101; EvFork 100].
Proof.
  assert (Hkey : keymgr_active (conf (keymgr_boot 2 2)) <> 0)
    by (cbn; lia).
  assert (Hres : reserved_slots sample_env)
    by (unfold reserved_slots, KORE_WORKER_BASE; cbn; lia).
  assert (Hget : shmget_ret shm_ok <> -1) by (cbn; lia).
  assert (Hos : forall i, 0 <= i < pool_size (keymgr_boot 2 2) + 2 ->
                  spawn_ok (forks_ok i)).
  { intros i Hi. unfold spawn_ok. cbn. lia. }
  assert (Hfits : pool_fits sample_env (keymgr_boot 2 2)).
  { unfold pool_fits.
    split; [ | split]; vm_compute; first [reflexivity | discriminate]. }
  destruct (init_starts_siblings_last sample_env shm_ok forks_ok
              (keymgr_boot 2 2) ltac:(cbn; lia) Hfits Hkey Hres Hget eq_refl
              Hos)
    as (st' & Hinit & _ & _ & _ & Htrace).
  exists st'. split; [exact Hinit | ]. rewrite Htrace. reflexivity.
Defined.

Lemma init_count_wraps (E : env) (p : state) :
  0 <= pool_size p ->
  pool_size p + 2 = worker_count_range E ->
  init_count E p = 0.
Proof.
  unfold init_count, pool_size. intros H0 Hfull.
  pose proof (worker_count_range_min E) as Hmin.
  destruct (worker_count p =? 0).
  - rewrite (to_worker_count_fits E (cpu_count (conf p))) by lia.
    unfold to_worker_count. rewrite Hfull. apply Z.mod_same. lia.
  - unfold to_worker_count. rewrite Hfull. apply Z.mod_same. lia.
Qed.

(** X25. worker_count wraps: when the pool and the two reserved slots
    are one more than worker_count can hold (254 workers for a worker_count
    of one byte), kore_worker_init without a keymgr returns with
    worker_count 0 and an empty table, having started no worker at all. *)
Theorem init_wraps_to_empty_pool (E : env) (sys : init_sys)
    (os : Z -> spawn_sys) (p : state) :
  0 <= pool_size p ->
  pool_size p + 2 = worker_count_range E ->
  keymgr_active (conf p) = 0 ->
  shmget_ret sys <> -1 ->
  shmat_failed sys = false ->
  exists st',
    kore_worker_init E sys os p = Returns st'
    /\ worker_count st' = 0
    /\ kore_workers st' = []
    /\ accept_lock st' = mk_wlock 0 0
    /\ trace st' = trace p.
Proof.
  intros H0 Hfull Hkey Hget Hat.
  pose proof (init_count_wraps E p H0 Hfull) as Hcount.
  unfold init_count in Hcount.
  unfold kore_worker_init. rewrite U16_TESTS_unfold.
  generalize (Z.to_nat 65533) as fuel; intros fuel.
  destruct (Z.eqb_spec (shmget_ret sys) (-1)); [contradiction | ].
  rewrite Hat.
  destruct p as [c l tbl w wc nl av conns reqs sig srvs tr].
  cbn in Hkey. unfold KORE_WORKER_BASE.
  cbn -[to_worker_count] in Hcount |- *.
  destruct (wc =? 0); cbn -[to_worker_count] in Hcount |- *;
    rewrite !Hcount; change (2 <? 0) with false;
    cbn -[to_worker_count]; rewrite Hkey; cbn -[to_worker_count];
    (eexists; split; [reflexivity | ]); cbn -[to_worker_count];
    rewrite ?Hcount; auto.
Qed.

Lemma init_wraps_to_empty_pool_witness :
  exists st',
    kore_worker_init sample_env shm_ok forks_ok (boot_state 254 4)
    = Returns st'
    /\ worker_count st' = 0
    /\ kore_workers st' = [].
Proof.
  assert (Hget : shmget_ret shm_ok <> -1) by (cbn; lia).
  destruct (init_wraps_to_empty_pool sample_env shm_ok forks_ok
              (boot_state 254 4) ltac:(cbn; lia) eq_refl eq_refl Hget
              eq_refl)
    as (st' & Hinit & Hwc & Htbl & _).
  exists st'. auto.
Defined.

(** *** The domain a keymgr response is for *)

Lemma domain_lookup_first (doms : list kore_domain) (name : list Z) :
  forall d0 di,
    domain_lookup doms name d0 = Some di ->
    exists k dom,
      di = (d0 + k)%nat /\ doms !! k = Some dom
      /\ strcmp (domain dom) name = 0
      /\ forall dj d, (dj < k)%nat -> doms !! dj = Some d ->
           strcmp (domain d) name <> 0.
Proof.
  induction doms as [| dom rest IH]; intros d0 di; cbn; [discriminate | ].
  destruct (Z.eqb_spec (strcmp (domain dom) name) 0) as [Heq | Hne].
  - intros [= <-]. exists 0%nat, dom.
    split; [lia | ]. split; [reflexivity | ]. split; [exact Heq | ].
    intros dj d Hdj. lia.
  - intros Hrest. destruct (IH _ _ Hrest) as (k & d & -> & Hk & Hd & Hfirst).
    exists (S k), d. split; [lia | ]. split; [exact Hk | ].
    split; [exact Hd | ].
    intros [| dj] d' Hdj; cbn.
    + intros [= <-]. exact Hne.
    + apply Hfirst. lia.
Qed.

Lemma server_lookup_first (srvs : list kore_server) (name : list Z) :
  forall s0 si di,
    server_lookup srvs name s0 = Some (si, di) ->
    exists k, si = (s0 + k)%nat /\ first_match srvs name k di.
Proof.
  induction srvs as [| srv rest IH]; intros s0 si di; cbn; [discriminate | ].
  assert (Hskip :
            (forall d, tls srv <> 0 -> In d (domains srv) ->
               strcmp (domain d) name <> 0) ->
            server_lookup rest name (S s0) = Some (si, di) ->
            exists k, si = (s0 + k)%nat
                      /\ first_match (srv :: rest) name k di).
  { intros Hnone Hrest.
    destruct (IH _ _ _ Hrest)
      as (k & -> & srv' & dom & H1 & H2 & H3 & H4 & H5 & H6).
    exists (S k). split; [lia | ].
    exists srv', dom. repeat split; auto.
    intros [| sj] srv'' d Hsj; cbn.
    - intros [= <-]. apply Hnone.
    - apply H6. lia. }
  destruct (Z.eqb_spec (tls srv) 0) as [Hplain | Htls].
  { apply Hskip. intros d Ht. contradiction. }
  destruct (domain_lookup (domains srv) name 0) as [dk | ] eqn:Hdom.
  - intros [= <- <-].
    destruct (domain_lookup_first _ _ _ _ Hdom)
      as (k & dom & -> & Hk & Hd & Hfirst).
    exists 0%nat. split; [lia | ].
    exists srv, dom. cbn. repeat split; auto.
    intros sj srv' d Hsj. lia.
  - apply Hskip. intros d _ Hin Hcmp.
    destruct (proj2 (domain_lookup_found (domains srv) name 0%nat))
      as [x Hx]; [eauto | ].
    rewrite Hdom in Hx. discriminate.
Qed.

(** The verification hands out a domain only with KORE_RESULT_OK, without
    touching the state, and it is the one the lookup finds. *)
Lemma keymgr_verify_out (E : env) (msg : kore_msg) (req : kore_x509_msg)
    (out_given : bool) (st : state) (loc : nat * nat) :
  snd (fst (kore_worker_keymgr_response_verify E msg req out_given st))
  = Some loc ->
  kore_worker_keymgr_response_verify E msg req out_given st
  = (KORE_RESULT_OK, Some loc, st)
  /\ out_given = true
  /\ server_lookup (kore_servers st) (x509_domain req) 0 = Some loc.
Proof.
  unfold kore_worker_keymgr_response_verify.
  destruct (msg_length msg <? sizeof_kore_x509_msg E); [discriminate | ].
  destruct (negb (msg_length msg
                  =? size_t_wrap (sizeof_kore_x509_msg E + data_len req)));
    [discriminate | ].
  destruct (negb (domain_last_byte E req =? 0)); [discriminate | ].
  destruct out_given; cbn [negb]; [ | discriminate].
  destruct (server_lookup (kore_servers st) (x509_domain req) 0)
    as [loc' | ]; cbn; [ | discriminate].
  intros [= ->]. auto.
Qed.

(** X13. The domain a keymgr response is applied to is the first match
    of the lookup: the first domain named as the message says of the first
    TLS-enabled server that has one. Servers without TLS are passed over,
    whatever their domains; and a domain is handed out only with
    KORE_RESULT_OK and an unchanged state. *)
Theorem keymgr_verify_first_match (E : env) (msg : kore_msg)
    (req : kore_x509_msg) (out_given : bool) (st : state) (si di : nat) :
  snd (fst (kore_worker_keymgr_response_verify E msg req out_given st))
  = Some (si, di) ->
  kore_worker_keymgr_response_verify E msg req out_given st
  = (KORE_RESULT_OK, Some (si, di), st)
  /\ first_match (kore_servers st) (x509_domain req) si di.
Proof.
  intros Hout.
  destruct (keymgr_verify_out E msg req out_given st (si, di) Hout)
    as (Hv & _ & Hlook).
  split; [exact Hv | ].
  destruct (server_lookup_first _ _ _ _ _ Hlook) as (k & -> & Hfirst).
  exact Hfirst.
Qed.

Lemma keymgr_verify_first_match_witness :
  first_match shadowed_servers (x509_domain (cert_req "example.com")) 1 1.
Proof.
  apply (keymgr_verify_first_match sample_env cert_msg
           (cert_req "example.com") true
           (with_servers shadowed_servers (worker_state 4 0 (mk_wlock 0 0) 0))
           1%nat 1%nat).
  vm_compute. reflexivity.
Defined.


Lemma lookup_domain_update (loc : nat * nat)
    (f : kore_domain -> kore_domain) (st : state) :
  lookup_domain loc (update_domain loc f st) = f <$> lookup_domain loc st.
Proof.
  destruct loc as [si di].
  unfold lookup_domain, update_domain. cbn.
  rewrite list_lookup_alter_eq.
  destruct (kore_servers st !! si) as [srv | ]; cbn; [ | reflexivity].
  apply list_lookup_alter_eq.
Qed.





(** *** ACME challenges *)

Lemma keymgr_verify_well_formed (E : env) (msg : kore_msg)
    (req : kore_x509_msg) (st : state) :
  well_formed E msg req = true ->
  kore_worker_keymgr_response_verify E msg req true st
  = match server_lookup (kore_servers st) (x509_domain req) 0 with
    | None =>
        (KORE_RESULT_ERROR, None,
         kore_log LOG_WARNING
           "got keymgr response for domain that does not exist" [] st)
    | Some loc => (KORE_RESULT_OK, Some loc, st)
    end.
Proof.
  unfold well_formed, kore_worker_keymgr_response_verify.
  intros Hwf. apply andb_prop in Hwf. destruct Hwf as [Hwf H3].
  apply andb_prop in Hwf. destruct Hwf as [H1 H2].
  apply negb_true_iff in H1. rewrite H1, H2, H3. reflexivity.
Qed.

Lemma domain_lookup_alter (f : kore_domain -> kore_domain)
    (doms : list kore_domain) (name : list Z) (k : nat) :
  (forall d, domain (f d) = domain d) ->
  forall d0, domain_lookup (alter f k doms) name d0
             = domain_lookup doms name d0.
Proof.
  intros Hf. revert k.
  induction doms as [| dom rest IH]; intros [| k] d0; cbn;
    rewrite ?Hf; try reflexivity.
  rewrite IH. reflexivity.
Qed.

Lemma server_lookup_alter (f : kore_domain -> kore_domain)
    (srvs : list kore_server) (name : list Z) (si di : nat) :
  (forall d, domain (f d) = domain d) ->
  forall s0,
    server_lookup
      (alter (fun srv => mk_server (tls srv) (alter f di (domains srv))) si
         srvs) name s0
    = server_lookup srvs name s0.
Proof.
  intros Hf. revert si.
  induction srvs as [| srv rest IH]; intros [| si] s0; cbn;
    try reflexivity.
  - rewrite domain_lookup_alter by exact Hf. reflexivity.
  - rewrite IH. reflexivity.
Qed.

Lemma server_lookup_update (loc : nat * nat)
    (f : kore_domain -> kore_domain) (st : state) (name : list Z) :
  (forall d, domain (f d) = domain d) ->
  server_lookup (kore_servers (update_domain loc f st)) name 0
  = server_lookup (kore_servers st) name 0.
Proof.
  intros Hf. destruct loc as [si di]. unfold update_domain. cbn.
  apply server_lookup_alter, Hf.
Qed.

Lemma lookup_domain_emit (loc : nat * nat) (e : event) (st : state) :
  lookup_domain loc (emit e st) = lookup_domain loc st.
Proof. reflexivity. Qed.

Lemma server_lookup_emit (e : event) (st : state) (name : list Z) :
  server_lookup (kore_servers (emit e st)) name 0
  = server_lookup (kore_servers st) name 0.
Proof. reflexivity. Qed.

Lemma free_events_app (t u : list event) :
  free_events (t ++ u) = free_events t ++ free_events u.
Proof. apply List.filter_app. Qed.

Lemma acme_tlsinit_name (E : env) (req : kore_x509_msg) :
  tlsinit_keeps_name E ->
  forall d, domain (acme_tlsinit E req d) = domain d.
Proof.
  intros Hname d. unfold acme_tlsinit.
  destruct (ssl_ctx d); [reflexivity | apply Hname].
Qed.

Lemma first_match_lookup (st : state) (name : list Z) (loc : nat * nat) :
  server_lookup (kore_servers st) name 0 = Some loc ->
  exists dom, lookup_domain loc st = Some dom
              /\ strcmp (domain dom) name = 0.
Proof.
  destruct loc as [si di]. intros Hlook.
  destruct (server_lookup_first _ _ _ _ _ Hlook)
    as (k & -> & srv & dom & H1 & _ & H3 & H4 & _).
  exists dom. unfold lookup_domain. cbn. rewrite H1. auto.
Qed.

(** The SET_CERT case, on the domain it is for. *)
Lemma acme_set_cert_effect (E : env) (req : kore_x509_msg)
    (loc : nat * nat) (st : state) (dom : kore_domain) (name : list Z) :
  tlsinit_keeps_name E ->
  lookup_domain loc st = Some dom ->
  lookup_domain loc (acme_set_cert E req loc st)
  = Some (mk_domain (domain (acme_tlsinit E req dom))
            (ssl_ctx (acme_tlsinit E req dom))
            (CertLive (take (Z.to_nat (data_len req)) (data req)))
            (data_len req) 1)
  /\ free_events (trace (acme_set_cert E req loc st))
     = free_events (trace st)
         ++ [EvFree (acme_cert (acme_tlsinit E req dom))]
  /\ server_lookup (kore_servers (acme_set_cert E req loc st)) name 0
     = server_lookup (kore_servers st) name 0.
Proof.
  intros Hname Hdom.
  unfold acme_set_cert, free_acme_cert, kore_log, domain_cert.
  split; [ | split].
  - repeat (rewrite ?lookup_domain_update, ?lookup_domain_emit).
    rewrite Hdom. reflexivity.
  - cbn [trace emit set_trace update_domain set_kore_servers].
    rewrite lookup_domain_update, Hdom.
    rewrite !free_events_app. cbn. rewrite app_nil_r. reflexivity.
  - repeat first [ rewrite server_lookup_emit
                 | rewrite server_lookup_update
                     by first [ reflexivity
                              | apply acme_tlsinit_name, Hname ] ].
    reflexivity.
Qed.

(** The CLEAR_CERT case, on the domain it is for. *)
Lemma acme_clear_cert_effect (loc : nat * nat) (st : state)
    (dom : kore_domain) (name : list Z) :
  lookup_domain loc st = Some dom ->
  lookup_domain loc (acme_clear_cert loc st)
  = Some (mk_domain (domain dom) (ssl_ctx dom) (freed (acme_cert dom)) 0 0)
  /\ free_events (trace (acme_clear_cert loc st))
     = free_events (trace st) ++ [EvFree (acme_cert dom)]
  /\ server_lookup (kore_servers (acme_clear_cert loc st)) name 0
     = server_lookup (kore_servers st) name 0.
Proof.
  intros Hdom.
  unfold acme_clear_cert, free_acme_cert, kore_log, domain_cert.
  split; [ | split].
  - repeat (rewrite ?lookup_domain_update, ?lookup_domain_emit).
    rewrite Hdom. reflexivity.
  - cbn [trace emit set_trace update_domain set_kore_servers].
    rewrite lookup_domain_update, Hdom.
    rewrite !free_events_app. cbn. rewrite app_nil_r. reflexivity.
  - repeat first [ rewrite server_lookup_emit
                 | rewrite server_lookup_update by reflexivity ].
    reflexivity.
Qed.

Lemma keymgr_response_set (E : env) (msg : kore_msg) (req : kore_x509_msg)
    (st : state) (loc : nat * nat) :
  KORE_USE_ACME E = true ->
  msg_id_of msg = KORE_ACME_CHALLENGE_SET_CERT ->
  well_formed E msg req = true ->
  server_lookup (kore_servers st) (x509_domain req) 0 = Some loc ->
  worker_keymgr_response E msg req st = acme_set_cert E req loc st.
Proof.
  intros Hacme Hid Hwf Hlook. unfold worker_keymgr_response.
  rewrite (keymgr_verify_well_formed E msg req st Hwf), Hlook.
  change (KORE_RESULT_OK =? 0) with false. cbn iota.
  rewrite Hid, Hacme. reflexivity.
Qed.

Lemma keymgr_response_clear (E : env) (msg : kore_msg) (req : kore_x509_msg)
    (st : state) (loc : nat * nat) :
  KORE_USE_ACME E = true ->
  msg_id_of msg = KORE_ACME_CHALLENGE_CLEAR_CERT ->
  well_formed E msg req = true ->
  server_lookup (kore_servers st) (x509_domain req) 0 = Some loc ->
  worker_keymgr_response E msg req st = acme_clear_cert loc st.
Proof.
  intros Hacme Hid Hwf Hlook. unfold worker_keymgr_response.
  rewrite (keymgr_verify_well_formed E msg req st Hwf), Hlook.
  change (KORE_RESULT_OK =? 0) with false. cbn iota.
  rewrite Hid, Hacme. reflexivity.
Qed.

(** X15. An ACME challenge set and then cleared for the same name: the
    SET_CERT message arms the challenge of the domain it names, with a
    fresh copy of the certificate it carries, after one kore_free of what
    the field held; the CLEAR_CERT message that follows finds the same
    domain again and disarms it, with one kore_free of that copy. The
    field is not reset: it keeps the pointer to the freed buffer, and a
    further CLEAR_CERT for the name hands this pointer to kore_free once
    more. The name of the domain and the TLS context it got stay. *)
Theorem acme_set_then_clear (E : env) (set clr : kore_msg)
    (req req' : kore_x509_msg) (st : state) (loc : nat * nat) :
  KORE_USE_ACME E = true ->
  tlsinit_keeps_name E ->
  msg_id_of set = KORE_ACME_CHALLENGE_SET_CERT ->
  msg_id_of clr = KORE_ACME_CHALLENGE_CLEAR_CERT ->
  well_formed E set req = true ->
  well_formed E clr req' = true ->
  x509_domain req' = x509_domain req ->
  server_lookup (kore_servers st) (x509_domain req) 0 = Some loc ->
  exists dom d1 d2,
    lookup_domain loc st = Some dom
    /\ lookup_domain loc (worker_keymgr_response E set req st) = Some d1
    /\ acme_challenge d1 = 1
    /\ acme_cert d1 = CertLive (take (Z.to_nat (data_len req)) (data req))
    /\ acme_cert_len d1 = data_len req
    /\ lookup_domain loc
         (worker_keymgr_response E clr req'
            (worker_keymgr_response E set req st)) = Some d2
    /\ acme_challenge d2 = 0 /\ acme_cert d2 = CertStale
    /\ acme_cert_len d2 = 0
    /\ domain d2 = domain dom /\ ssl_ctx d2 = ssl_ctx d1
    /\ free_events
         (trace (worker_keymgr_response E clr req'
                   (worker_keymgr_response E set req st)))
       = free_events (trace st)
           ++ [EvFree (acme_cert (acme_tlsinit E req dom));
               EvFree (CertLive (take (Z.to_nat (data_len req))
                                   (data req)))]
    /\ free_events
         (trace (worker_keymgr_response E clr req'
                   (worker_keymgr_response E clr req'
                      (worker_keymgr_response E set req st))))
       = free_events
           (trace (worker_keymgr_response E clr req'
                     (worker_keymgr_response E set req st)))
           ++ [EvFree CertStale].
Proof.
  intros Hacme Hname Hset Hclr Hwf Hwf' Hsame Hlook.
  destruct (first_match_lookup st _ loc Hlook) as (dom & Hdom & _).
  rewrite (keymgr_response_set E set req st loc Hacme Hset Hwf Hlook).
  destruct (acme_set_cert_effect E req loc st dom (x509_domain req') Hname
              Hdom) as (Hd1 & Hf1 & Hl1).
  rewrite Hsame in Hl1 at 2. rewrite Hlook in Hl1.
  rewrite (keymgr_response_clear E clr req' _ loc Hacme Hclr Hwf' Hl1).
  destruct (acme_clear_cert_effect loc _ _ (x509_domain req') Hd1)
    as (Hd2 & Hf2 & Hl2).
  rewrite Hl1 in Hl2.
  rewrite (keymgr_response_clear E clr req' _ loc Hacme Hclr Hwf' Hl2).
  destruct (acme_clear_cert_effect loc _ _ (x509_domain req') Hd2)
    as (_ & Hf3 & _).
  eexists dom, _, _.
  split; [exact Hdom | ]. split; [exact Hd1 | ].
  split; [reflexivity | ]. split; [reflexivity | ]. split; [reflexivity | ].
  split; [exact Hd2 | ].
  split; [reflexivity | ]. split; [reflexivity | ]. split; [reflexivity | ].
  split; [apply (acme_tlsinit_name E req Hname) | ].
  split; [reflexivity | ].
  split.
  - rewrite Hf2, Hf1, <- app_assoc. reflexivity.
  - rewrite Hf3. reflexivity.
Qed.

Lemma acme_set_then_clear_witness :
  exists d2,
    lookup_domain (1%nat, 0%nat)
      (worker_keymgr_response sample_env challenge_clear
         (clear_req "example.com")
         (worker_keymgr_response sample_env challenge_set
            (cert_req "example.com") tls_worker)) = Some d2
    /\ acme_challenge d2 = 0
    /\ acme_cert d2 = CertStale.
Proof.
  destruct (acme_set_then_clear sample_env challenge_set challenge_clear
              (cert_req "example.com") (clear_req "example.com") tls_worker
              (1%nat, 0%nat) eq_refl (fun _ _ _ _ => eq_refl) eq_refl eq_refl
              eq_refl eq_refl eq_refl eq_refl)
    as (dom & d1 & d2 & _ & _ & _ & _ & _ & Hd2 & Hc & Hp & _).
  exists d2. auto.
Defined.

(** *** Slots and signals *)

(** X16. kore_worker_data never reads outside the table: on a table of
    worker_count slots it returns the slot of its argument taken modulo
    256, or is fatal when that is not below worker_count. Slots from 256
    on cannot be asked for. *)
Theorem kore_worker_data_bounds (wid : Z) (st : state) :
  table_wf st ->
  match kore_worker_data wid st with
  | Returns kw =>
      wid mod 256 < worker_count st
      /\ kore_workers st !! Z.to_nat (wid mod 256) = Some kw
  | Fatal _ => worker_count st <= wid mod 256
  | _ => False
  end.
Proof.
  intros [Hlen Hmax]. unfold kore_worker_data. cbn zeta.
  pose proof (Z.mod_pos_bound wid 256 ltac:(lia)) as Hm.
  rewrite Z.geb_leb.
  destruct (Z.leb_spec (worker_count st) (wid mod 256)) as [Hge | Hlt];
    [exact Hge | ].
  destruct (lookup_lt_is_Some_2 (kore_workers st) (Z.to_nat (wid mod 256)))
    as [kw Hkw]; [lia | ].
  rewrite Hkw. auto.
Qed.

Lemma started_2_4_wf : table_wf (started 2 4).
Proof. split; vm_compute; reflexivity. Qed.

Lemma kore_worker_data_bounds_witness :
  kore_worker_data 258 (started 2 4)
  = Returns (mk_worker 1 1 102 (14, 15) 1 0 0 None 0).
Proof.
  pose proof (kore_worker_data_bounds 258 (started 2 4) started_2_4_wf)
    as Hb.
  destruct (kore_worker_data 258 (started 2 4)) as [kw | | | | ];
    try contradiction.
  destruct Hb as [_ Hkw]. f_equal.
  assert (Hv : kore_workers (started 2 4) !! Z.to_nat (258 mod 256)
               = Some (mk_worker 1 1 102 (14, 15) 1 0 0 None 0))
    by (vm_compute; reflexivity).
  congruence.
Defined.

(** X17. kore_worker_dispatch_signal sends the signal once to the pid of
    every slot of the table, in slot order, whatever the slot holds: the
    slots of workers that are gone, and reserved slots that were never
    filled, are signalled with the pid 0 they record. *)
Theorem dispatch_signal_every_slot (sig : Z) (st : state) :
  table_wf st ->
  kore_worker_dispatch_signal sig st = Returns (kill_calls sig st).
Proof.
  intros [Hlen Hmax]. unfold kore_worker_dispatch_signal, kill_calls.
  destruct (for_idx_counts
              (fun i kills =>
                 kills = map (fun kw => (pid kw, sig))
                           (take (Z.to_nat i) (kore_workers st)))
              (dispatch_slot sig st) (worker_count st) Hmax) with
    (fuel := U16_TESTS) (idx := 0) (s := @nil (Z * Z))
    as (kills & -> & ->).
  - intros i kills Hi ->. unfold dispatch_slot.
    destruct (lookup_lt_is_Some_2 (kore_workers st) (Z.to_nat i))
      as [kw Hkw]; [lia | ].
    rewrite Hkw. eexists. split; [reflexivity | ].
    replace (Z.to_nat (i + 1)) with (S (Z.to_nat i)) by lia.
    rewrite (take_S_r _ _ _ Hkw), map_app. reflexivity.
  - lia.
  - unfold U16_TESTS. lia.
  - reflexivity.
  - rewrite take_ge by lia. reflexivity.
Qed.

Lemma dispatch_signal_every_slot_witness :
  kore_worker_dispatch_signal SIGTERM (started 2 4)
  = Returns [(0, 15); (0, 15); (102, 15); (103, 15)].
Proof.
  rewrite (dispatch_signal_every_slot SIGTERM (started 2 4) started_2_4_wf).
  vm_compute. reflexivity.
Defined.

(** *** Shutdown *)

Lemma round_upto_step (sys : shutdown_sys) (round : nat) (st : state)
    (i : nat) (kw : kore_worker) :
  kore_workers st !! i = Some kw ->
  round_upto sys round st (S i)
  = set_trace
      (trace (round_upto sys round st i)
         ++ exit_log sys round (conf st) i kw)
      (store_worker (Z.of_nat i) (waited sys round i kw)
         (round_upto sys round st i)).
Proof.
  intros Hkw. pose proof (lookup_lt_Some _ _ _ Hkw) as Hlt.
  unfold round_upto, store_worker, set_trace, set_kore_workers.
  cbn [conf accept_lock kore_workers worker worker_count worker_no_lock
       accept_avail worker_active_connections http_request_count sig_recv
       kore_servers trace].
  rewrite (take_S_r _ _ _ Hkw), !imap_app, concat_app. cbn [imap concat].
  rewrite length_take, Nat.min_l, Nat.add_0_r by lia.
  rewrite app_nil_r, <- !app_assoc.
  f_equal.
  rewrite (drop_S _ _ _ Hkw). rewrite Nat2Z.id.
  replace i with (length (imap (waited sys round)
                            (take i (kore_workers st))) + 0)%nat at 4
    by (rewrite length_imap, length_take; lia).
  rewrite insert_app_r. reflexivity.
Qed.

Lemma round_upto_lookup (sys : shutdown_sys) (round : nat) (st : state)
    (i : nat) :
  (i <= length (kore_workers st))%nat ->
  kore_workers (round_upto sys round st i) !! i = kore_workers st !! i.
Proof.
  intros Hi. unfold round_upto. cbn [kore_workers].
  rewrite lookup_app_r by (rewrite length_imap, length_take; lia).
  rewrite length_imap, length_take, Nat.min_l, Nat.sub_diag by lia.
  rewrite lookup_drop. f_equal. lia.
Qed.

Lemma round_upto_start (sys : shutdown_sys) (round : nat) (st : state) :
  round_upto sys round st 0 = st.
Proof.
  unfold round_upto. rewrite take_0, drop_0. cbn. rewrite app_nil_r.
  destruct st. reflexivity.
Qed.

(** The first inner loop runs through the whole table. *)
Lemma shutdown_wait_loop (sys : shutdown_sys) (round : nat) (st : state) :
  table_wf st ->
  for_idx U16_TESTS 0 (worker_count st) (shutdown_wait sys round) st
  = Returns (round_state sys round st).
Proof.
  intros [Hlen Hmax].
  destruct (for_idx_counts
              (fun i s => s = round_upto sys round st (Z.to_nat i))
              (shutdown_wait sys round) (worker_count st) Hmax) with
    (fuel := U16_TESTS) (idx := 0) (s := st) as (s & -> & ->).
  - intros i s Hi ->.
    destruct (lookup_lt_is_Some_2 (kore_workers st) (Z.to_nat i))
      as [kw Hkw]; [lia | ].
    eexists. split; [ | reflexivity].
    replace (Z.to_nat (i + 1)) with (S (Z.to_nat i)) by lia.
    rewrite (round_upto_step sys round st _ kw Hkw).
    unfold shutdown_wait.
    rewrite round_upto_lookup by lia. rewrite Hkw.
    rewrite Z2Nat.id by lia.
    unfold waited, exit_log, reaped. rewrite Z2Nat.id by lia.
    assert (Hsame : forall s0 : state,
              kore_workers s0 !! Z.to_nat i = Some kw ->
              set_trace (trace s0 ++ []) (store_worker i kw s0) = s0).
    { intros s0 Hs0. unfold store_worker, set_trace, set_kore_workers.
      rewrite app_nil_r, list_insert_id by exact Hs0.
      destruct s0; reflexivity. }
    pose proof (round_upto_lookup sys round st (Z.to_nat i) ltac:(lia))
      as Hl. rewrite Hkw in Hl.
    destruct (running kw =? 0); cbn [negb andb];
      [rewrite Hsame by exact Hl; reflexivity | ].
    destruct (pid kw =? 0); cbn [negb andb];
      [rewrite Hsame by exact Hl; reflexivity | ].
    destruct (waitpid_ret sys round i =? -1); cbn [negb andb];
      [rewrite Hsame by exact Hl; reflexivity | ].
    f_equal.
    change (conf (store_worker ?a ?b ?s)) with (conf s).
    change (conf (round_upto sys round st (Z.to_nat i))) with (conf st).
    destruct (kore_quiet (conf st) =? 0).
    + reflexivity.
    + unfold store_worker, set_trace, set_kore_workers. cbn.
      rewrite app_nil_r. reflexivity.
  - lia.
  - unfold U16_TESTS. lia.
  - symmetry. apply round_upto_start.
  - unfold round_state. rewrite <- Hlen, Nat2Z.id. reflexivity.
Qed.

Lemma filter_stopped_le (l : list kore_worker) :
  (length (List.filter stopped l) <= length l)%nat.
Proof. apply List.filter_length_le. Qed.

Lemma all_stopped (l : list kore_worker) :
  length (List.filter stopped l) = length l ->
  Forall (fun kw => running kw = 0) l.
Proof.
  induction l as [| kw l IH]; cbn; [constructor | ].
  pose proof (filter_stopped_le l) as Hle.
  unfold stopped at 1. destruct (Z.eqb_spec (running kw) 0) as [Hz | Hnz];
    cbn; intros Hlen.
  - constructor; [exact Hz | apply IH; lia].
  - lia.
Qed.

Lemma some_running (l : list kore_worker) (i : nat) (kw : kore_worker) :
  l !! i = Some kw -> running kw <> 0 ->
  (length (List.filter stopped l) < length l)%nat.
Proof.
  revert i. induction l as [| x l IH]; intros [| i]; cbn;
    try discriminate.
  - intros [= ->] Hrun. pose proof (filter_stopped_le l).
    unfold stopped at 1.
    destruct (Z.eqb_spec (running kw) 0); [contradiction | lia].
  - intros Hi Hrun. specialize (IH i Hi Hrun).
    destruct (stopped x); cbn; lia.
Qed.

(** The second inner loop counts the slots that are not running. *)
Lemma shutdown_count_loop (st : state) :
  table_wf st ->
  for_idx U16_TESTS 0 (worker_count st) (shutdown_count st) 0
  = Returns (Z.of_nat (length (List.filter stopped (kore_workers st)))).
Proof.
  intros [Hlen Hmax].
  destruct (for_idx_counts
              (fun i done =>
                 done = Z.of_nat
                          (length (List.filter stopped
                                     (take (Z.to_nat i) (kore_workers st)))))
              (shutdown_count st) (worker_count st) Hmax) with
    (fuel := U16_TESTS) (idx := 0) (s := 0) as (done & -> & ->).
  - intros i done Hi ->. unfold shutdown_count.
    destruct (lookup_lt_is_Some_2 (kore_workers st) (Z.to_nat i))
      as [kw Hkw]; [lia | ].
    rewrite Hkw.
    replace (Z.to_nat (i + 1)) with (S (Z.to_nat i)) by lia.
    rewrite (take_S_r _ _ _ Hkw), List.filter_app, length_app.
    cbn [List.filter].
    pose proof (filter_stopped_le (take (Z.to_nat i) (kore_workers st)))
      as Hle.
    rewrite length_take in Hle.
    change (running kw =? 0) with (stopped kw).
    destruct (stopped kw); cbn [length];
      (eexists; split; [reflexivity | ]).
    + unfold u16. rewrite Z.mod_small by lia. lia.
    + lia.
  - lia.
  - unfold U16_TESTS. lia.
  - reflexivity.
  - rewrite take_ge by lia. reflexivity.
Qed.

Lemma round_state_table (sys : shutdown_sys) (round : nat) (st : state) :
  kore_workers (round_state sys round st)
  = imap (waited sys round) (kore_workers st).
Proof.
  unfold round_state, round_upto. cbn [kore_workers].
  rewrite take_ge, drop_ge by lia. apply app_nil_r.
Qed.

Lemma waited_ids (sys : shutdown_sys) (round : nat)
    (l : list kore_worker) :
  forall i0,
    map (fun kw => (id kw, cpu kw))
      (imap (fun i => waited sys round (i0 + i)) l)
    = map (fun kw => (id kw, cpu kw)) l.
Proof.
  induction l as [| kw l IH]; intros i0; cbn; [reflexivity | ].
  f_equal.
  - unfold waited. destruct (reaped sys round (i0 + 0) kw); reflexivity.
  - rewrite <- (IH (S i0)). f_equal. apply imap_ext. intros i x _. cbn.
    f_equal. lia.
Qed.

Lemma round_state_frame (sys : shutdown_sys) (round : nat) (st : state) :
  table_wf st ->
  table_wf (round_state sys round st)
  /\ slot_ids (round_state sys round st) = slot_ids st
  /\ accept_lock (round_state sys round st) = accept_lock st
  /\ worker_count (round_state sys round st) = worker_count st.
Proof.
  intros [Hlen Hmax].
  split.
  { split; [ | exact Hmax]. rewrite round_state_table, length_imap.
    exact Hlen. }
  split; [ | split; reflexivity].
  unfold slot_ids. rewrite round_state_table.
  apply (waited_ids sys round (kore_workers st) 0%nat).
Qed.

Lemma shutdown_round (sys : shutdown_sys) (fuel round : nat) (st : state) :
  table_wf st ->
  shutdown_rounds sys (S fuel) round st
  = if Z.of_nat (length (List.filter stopped
                           (kore_workers (round_state sys round st))))
       =? worker_count st
    then Returns (round_state sys round st)
    else shutdown_rounds sys fuel (S round) (round_state sys round st).
Proof.
  intros Hwf. cbn [shutdown_rounds].
  rewrite (shutdown_wait_loop sys round st Hwf). cbn [bind].
  destruct (round_state_frame sys round st Hwf) as (Hwf' & _ & _ & Hwc).
  rewrite (shutdown_count_loop _ Hwf'). cbn [bind]. rewrite Hwc.
  reflexivity.
Qed.

Lemma shutdown_rounds_sat (sys : shutdown_sys) (fuel : nat) :
  forall round st,
    table_wf st ->
    outcome_sat (shut_down st) (fun _ _ => False)
      (shutdown_rounds sys fuel round st).
Proof.
  induction fuel as [| fuel IH]; intros round st Hwf; [exact I | ].
  rewrite (shutdown_round sys fuel round st Hwf).
  destruct (round_state_frame sys round st Hwf) as (Hwf' & Hids & Hlk & Hwc).
  destruct (Z.eqb_spec
              (Z.of_nat (length (List.filter stopped
                                   (kore_workers (round_state sys round
                                                    st)))))
              (worker_count st)) as [Hdone | Hmore].
  - cbn. split; [ | auto]. apply all_stopped.
    destruct Hwf' as [Hlen' _]. lia.
  - eapply outcome_sat_weaken; [ | | apply (IH (S round) _ Hwf')]; cbn;
      [ | auto].
    intros st' (S1 & S2 & S3 & S4). unfold shut_down.
    repeat split; congruence.
Qed.

(** X18. When kore_worker_shutdown returns no slot is running any more,
    whatever waitpid answered on the way; the ids and cpus of the table,
    the lock region and worker_count are as they were; and the function
    never reads outside the table or forks. *)
Theorem shutdown_leaves_none_running (sys : shutdown_sys) (fuel : nat)
    (st : state) :
  table_wf st ->
  match kore_worker_shutdown sys fuel st with
  | Returns st' => shut_down st st'
  | Loops => True
  | _ => False
  end.
Proof.
  intros Hwf. unfold kore_worker_shutdown.
  assert (Hwf0 : table_wf (shutdown_start st)
                 /\ slot_ids (shutdown_start st) = slot_ids st
                 /\ accept_lock (shutdown_start st) = accept_lock st
                 /\ worker_count (shutdown_start st) = worker_count st).
  { unfold shutdown_start. destruct (kore_quiet (conf st) =? 0); auto. }
  fold (shutdown_start st).
  destruct Hwf0 as (Hwf0 & H1 & H2 & H3).
  pose proof (shutdown_rounds_sat sys fuel 0 _ Hwf0) as Hsat.
  assert (Hnf : forall round s,
            table_wf s ->
            match shutdown_rounds sys fuel round s with
            | Returns _ | Loops => True
            | _ => False
            end).
  { clear. induction fuel as [| fuel IH]; intros round s Hwf; [exact I | ].
    rewrite (shutdown_round sys fuel round s Hwf).
    destruct (_ =? _); [exact I | ].
    apply IH. apply round_state_frame. exact Hwf. }
  specialize (Hnf 0%nat _ Hwf0).
  destruct (shutdown_rounds sys fuel 0 (shutdown_start st)) as [s1 | | | | ];
    cbn [bind outcome_sat] in *; try contradiction; try exact I.
  destruct Hsat as (S1 & S2 & S3 & S4). unfold shut_down.
  rewrite <- H1, <- H2, <- H3, <- S2, <- S3, <- S4.
  destruct (shmctl_ret sys =? -1);
    (split; [exact S1 | repeat split; reflexivity]).
Qed.

Lemma imap_as_map {A B : Type} (f : nat -> A -> B) (g : A -> B)
    (l : list A) :
  (forall i x, l !! i = Some x -> f i x = g x) -> imap f l = map g l.
Proof.
  revert f. induction l as [| a l IH]; intros f Hfg; cbn; [reflexivity | ].
  f_equal; [apply (Hfg 0%nat); reflexivity | ].
  apply IH. intros i x Hi. apply (Hfg (S i)). exact Hi.
Qed.

Lemma halted_all_stopped (l : list kore_worker) :
  length (List.filter stopped (map halted l)) = length l.
Proof.
  induction l as [| kw l IH]; cbn; [reflexivity | ].
  assert (Hs : stopped (halted kw) = true).
  { unfold halted. destruct (stopped kw) eqn:Hkw; [exact Hkw | reflexivity]. }
  rewrite Hs. cbn. rewrite IH. reflexivity.
Qed.

Lemma reaped_running (sys : shutdown_sys) (st : state) :
  all_waitable sys st ->
  forall i kw, kore_workers st !! i = Some kw ->
    reaped sys 0 i kw = negb (stopped kw).
Proof.
  intros Hall i kw Hkw. unfold reaped, stopped.
  destruct (Z.eqb_spec (running kw) 0) as [Hz | Hnz]; [reflexivity | ].
  destruct (Hall i kw Hkw Hnz) as [Hpid Hwait].
  destruct (Z.eqb_spec (pid kw) 0); [contradiction | ].
  destruct (Z.eqb_spec (waitpid_ret sys 0 (Z.of_nat i)) (-1));
    [contradiction | reflexivity].
Qed.

(** X19. When every worker that is still running has a pid and can be
    waited for, kore_worker_shutdown returns after one round: the slots
    that were running are stopped with pid 0, the others are as they
    were, and the log has one line for each worker that exited, in slot
    order, between the opening line and the line for a failed shmctl. *)
Theorem shutdown_returns_after_one_round (sys : shutdown_sys) (fuel : nat)
    (st : state) :
  table_wf st ->
  all_waitable sys st ->
  exists st',
    kore_worker_shutdown sys (S fuel) st = Returns st'
    /\ kore_workers st' = map halted (kore_workers st)
    /\ trace st'
       = trace (shutdown_start st)
           ++ exit_lines (conf st) (kore_workers st)
           ++ trace (shutdown_end sys (set_trace [] st)).
Proof.
  intros Hwf Hall. unfold kore_worker_shutdown. fold (shutdown_start st).
  assert (Htbl : kore_workers (shutdown_start st) = kore_workers st)
    by (unfold shutdown_start; destruct (_ =? _); reflexivity).
  assert (Hconf : conf (shutdown_start st) = conf st)
    by (unfold shutdown_start; destruct (_ =? _); reflexivity).
  assert (Hwf0 : table_wf (shutdown_start st)).
  { unfold shutdown_start. destruct (_ =? _); exact Hwf. }
  assert (Hall0 : all_waitable sys (shutdown_start st)).
  { unfold all_waitable. rewrite Htbl. exact Hall. }
  pose proof (reaped_running sys _ Hall0) as Hreaped.
  assert (Hround : kore_workers (round_state sys 0 (shutdown_start st))
                   = map halted (kore_workers st)).
  { rewrite round_state_table, <- Htbl. apply imap_as_map.
    intros i kw Hkw. unfold waited, halted.
    rewrite (Hreaped i kw Hkw). destruct (stopped kw); reflexivity. }
  rewrite (shutdown_round sys fuel 0 _ Hwf0).
  rewrite Hround, halted_all_stopped.
  destruct Hwf0 as [Hlen0 _]. rewrite Htbl in Hlen0. rewrite Hlen0.
  rewrite Z.eqb_refl. cbn [bind].
  eexists. split; [reflexivity | ].
  assert (Htr : trace (round_state sys 0 (shutdown_start st))
                = trace (shutdown_start st)
                    ++ exit_lines (conf st) (kore_workers st)).
  { unfold round_state, round_upto. cbn [trace].
    rewrite take_ge by lia. rewrite Hconf. f_equal.
    unfold exit_lines. f_equal. rewrite Htbl. apply imap_as_map.
    intros i kw Hkw. unfold exit_log.
    rewrite <- Htbl in Hkw. rewrite (Hreaped i kw Hkw). reflexivity. }
  unfold shutdown_end. destruct (shmctl_ret sys =? -1).
  - split; [exact Hround | ]. cbn [trace kore_log emit set_trace app].
    rewrite Htr, <- app_assoc. reflexivity.
  - split; [exact Hround | ]. cbn [trace set_trace].
    rewrite Htr, app_nil_r. reflexivity.
Qed.

Lemma shutdown_rounds_spin (sys : shutdown_sys) (i : nat)
    (kw : kore_worker) (fuel : nat) :
  running kw <> 0 ->
  pid kw = 0 \/ (forall round, waitpid_ret sys round (Z.of_nat i) = -1) ->
  forall round st,
    table_wf st ->
    kore_workers st !! i = Some kw ->
    shutdown_rounds sys fuel round st = Loops.
Proof.
  intros Hrun Hwhy.
  assert (Hnot : forall round, reaped sys round i kw = false).
  { intros round. unfold reaped.
    destruct Hwhy as [-> | Hfail].
    - change (negb (0 =? 0)) with false. rewrite andb_false_r. reflexivity.
    - rewrite Hfail. change (negb (-1 =? -1)) with false.
      apply andb_false_r. }
  induction fuel as [| fuel IH]; intros round st Hwf Hkw; [reflexivity | ].
  rewrite (shutdown_round sys fuel round st Hwf).
  destruct (round_state_frame sys round st Hwf) as (Hwf' & _ & _ & Hwc).
  assert (Hkw' : kore_workers (round_state sys round st) !! i = Some kw).
  { rewrite round_state_table, list_lookup_imap, Hkw. cbn.
    unfold waited. rewrite Hnot. reflexivity. }
  pose proof (some_running _ _ _ Hkw' Hrun) as Hlt.
  destruct Hwf' as [Hlen' Hmax']. rewrite Hwc in Hlen'.
  destruct (Z.eqb_spec
              (Z.of_nat (length (List.filter stopped
                                   (kore_workers (round_state sys round
                                                    st)))))
              (worker_count st)) as [Hdone | _]; [lia | ].
  apply IH; [ | exact Hkw'].
  split; [rewrite Hwc; exact Hlen' | rewrite Hwc; exact Hmax'].
Qed.

(** X20. kore_worker_shutdown does not return while a slot stays
    running: when waitpid fails for a running worker round after round,
    or a running slot records no pid, the outer loop goes on for as many
    rounds as it is given. *)
Theorem shutdown_spins (sys : shutdown_sys) (fuel i : nat) (st : state)
    (kw : kore_worker) :
  table_wf st ->
  kore_workers st !! i = Some kw ->
  running kw <> 0 ->
  pid kw = 0 \/ (forall round, waitpid_ret sys round (Z.of_nat i) = -1) ->
  kore_worker_shutdown sys fuel st = Loops.
Proof.
  intros Hwf Hkw Hrun Hwhy. unfold kore_worker_shutdown.
  rewrite (shutdown_rounds_spin sys i kw fuel Hrun Hwhy 0).
  - reflexivity.
  - destruct (_ =? _); exact Hwf.
  - destruct (_ =? _); exact Hkw.
Qed.

Lemma shutdown_leaves_none_running_witness :
  exists st',
    kore_worker_shutdown waits_ok 1 (started 2 4) = Returns st'
    /\ shut_down (started 2 4) st'.
Proof.
  pose proof (shutdown_leaves_none_running waits_ok 1 (started 2 4)
                started_2_4_wf) as Hsat.
  destruct (kore_worker_shutdown waits_ok 1 (started 2 4)) as [st' | | | | ]
    eqn:Hrun; try contradiction.
  - exists st'. split; [reflexivity | exact Hsat].
  - exfalso. revert Hrun. vm_compute. discriminate.
Defined.

Lemma started_2_4_waitable : all_waitable waits_ok (started 2 4).
Proof.
  intros i kw Hkw Hrun.
  assert (Hin : In kw (kore_workers (started 2 4)))
    by (apply list_elem_of_In; eapply list_elem_of_lookup_2; exact Hkw).
  assert (Hall : forallb (fun kw => (running kw =? 0) || negb (pid kw =? 0))
                   (kore_workers (started 2 4)) = true)
    by (vm_compute; reflexivity).
  rewrite forallb_forall in Hall. specialize (Hall kw Hin).
  split.
  - destruct (Z.eqb_spec (running kw) 0); [contradiction | ].
    destruct (Z.eqb_spec (pid kw) 0); [discriminate | assumption].
  - cbn. lia.
Qed.

Lemma shutdown_returns_after_one_round_witness :
  exists st',
    kore_worker_shutdown waits_ok 1 (started 2 4) = Returns st'
    /\ map pid (kore_workers st') = [0; 0; 0; 0]
    /\ map running (kore_workers st') = [0; 0; 0; 0].
Proof.
  destruct (shutdown_returns_after_one_round waits_ok 0 (started 2 4)
              started_2_4_wf started_2_4_waitable)
    as (st' & Hret & Htbl & _).
  exists st'. split; [exact Hret | ]. rewrite Htbl.
  split; vm_compute; reflexivity.
Defined.

Lemma shutdown_spins_witness :
  kore_worker_shutdown waits_fail 3 (started 2 4) = Loops.
Proof.
  apply (shutdown_spins waits_fail 3 2 (started 2 4)
           (mk_worker 1 1 102 (14, 15) 1 0 0 None 0) started_2_4_wf).
  - vm_compute. reflexivity.
  - cbn. lia.
  - right. intros round. reflexivity.
Defined.

(** *** Reaping, as kore_worker_reap drives it *)

Lemma bind_assoc {A B C : Type} (o : outcome A) (f : A -> outcome B)
    (g : B -> outcome C) :
  bind (bind o f) g = bind o (fun a => bind (f a) g).
Proof. destruct o; reflexivity. Qed.

Lemma bind_ext {A B : Type} (o : outcome A) (f g : A -> outcome B) :
  (forall a, f a = g a) -> bind o f = bind o g.
Proof. intros Hfg. destruct o; cbn; auto. Qed.

(** X21. kore_worker_reap hands worker_reaper the children waitpid
    reports, one after the other, until waitpid says that no child is left
    or fails: a call interrupted by a signal is made again, any other
    failure but ECHILD is logged, and what waitpid would answer after
    that is never asked for. *)
Theorem kore_worker_reap_until_none_left (E : env) (pre rest : list wait_sys)
    (w : wait_sys) (st : state) :
  Forall goes_on pre ->
  ends_reap w ->
  kore_worker_reap E (pre ++ w :: rest) st
  = (st1 <- reap_all E (children pre) st ;; Returns (reap_end w st1)).
Proof.
  intros Hpre Hend. revert st.
  induction Hpre as [| a pre [Ha0 Ha1] Hpre IH]; intros st.
  - cbn. unfold reap_end.
    destruct Hend as [-> | [-> Herr]].
    + reflexivity.
    + cbn. destruct (wait_err w); try reflexivity. contradiction.
  - cbn [app kore_worker_reap]. unfold children. cbn [List.filter].
    destruct (Z.eqb_spec (wait_ret a) (-1)) as [Hfail | Hchild].
    + rewrite (Ha1 Hfail). cbn [negb]. apply IH.
    + destruct (Z.eqb_spec (wait_ret a) 0); [contradiction | ].
      cbn [negb map reap_all]. rewrite bind_assoc.
      apply bind_ext. intros st1. apply IH.
Qed.

Lemma kore_worker_reap_until_none_left_witness :
  kore_worker_reap sample_env
    [wait_child 103 200; wait_eintr; wait_child 200 201; wait_none;
     wait_child 102 202] (started 2 4)
  = reap_all sample_env
      [(respawn_as 200, 103, killed); (respawn_as 201, 200, killed)]
      (started 2 4).
Proof.
  assert (Hpre : Forall goes_on
                   [wait_child 103 200; wait_eintr; wait_child 200 201]).
  { repeat constructor; cbn; try lia; try discriminate; auto. }
  assert (Hend : ends_reap wait_none) by (left; reflexivity).
  refine (eq_trans
            (kore_worker_reap_until_none_left sample_env
               [wait_child 103 200; wait_eintr; wait_child 200 201]
               [wait_child 102 202] wait_none (started 2 4) Hpre Hend) _).
  change (children [wait_child 103 200; wait_eintr; wait_child 200 201])
    with [(respawn_as 200, 103, killed); (respawn_as 201, 200, killed)].
  destruct (reap_all sample_env
              [(respawn_as 200, 103, killed);
               (respawn_as 201, 200, killed)] (started 2 4));
    reflexivity.
Defined.

(** *** Dropping privileges *)

Lemma count_fds_open (sys : privdrop_sys) (n : nat) :
  forall fd nofiles,
    0 <= nofiles < 2 ^ 32 ->
    count_fds sys n fd nofiles = u32 (nofiles + open_fds sys fd n).
Proof.
  induction n as [| n IH]; intros fd nofiles Hn.
  - cbn. unfold open_fds, u32. cbn. rewrite Z.add_0_r, Z.mod_small; lia.
  - cbn [count_fds]. unfold open_fds.
    replace (Z.of_nat (S n)) with (1 + Z.of_nat n) by lia.
    rewrite seqZ_app by lia. change (seqZ fd 1) with [fd].
    cbn [app List.filter].
    destruct (fcntl_ret sys fd =? -1); cbn [negb length].
    + rewrite IH by exact Hn. unfold open_fds. reflexivity.
    + rewrite IH by (unfold u32; apply Z.mod_pos_bound; lia).
      unfold open_fds, u32. rewrite Z.add_mod_idemp_l by lia.
      f_equal. lia.
Qed.

Lemma drop_chain_done (sys : privdrop_sys) (cs made : list priv_call) :
  drop_chain sys cs = (false, made) ->
  made = cs /\ Forall (fun c => ids_ret sys c = 0) cs.
Proof.
  revert made. induction cs as [| c cs IH]; intros made; cbn.
  - intros [= <-]. auto.
  - destruct (Z.eqb_spec (ids_ret sys c) 0) as [Hz | Hnz]; cbn;
      [ | discriminate].
    destruct (drop_chain sys cs) as [failed made'].
    intros [= -> <-]. destruct (IH made' eq_refl) as [-> Hall].
    auto.
Qed.

(** X22. The descriptor limit a worker gives itself: when
    kore_worker_privdrop returns it has called setrlimit with one value
    for the soft and the hard limit, worker_rlimit_nofiles as it then
    stands, which is the configured value plus the number of descriptors
    below the current soft limit that are open (counted in 32 bits), or
    the configured value alone when getrlimit failed. *)
Theorem privdrop_descriptor_limit (mach : bool) (sys : privdrop_sys)
    (skip_runas skip_chroot : Z) (runas root : option string)
    (nofiles n' : Z) (calls : list priv_call) :
  0 <= nofiles < 2 ^ 32 ->
  kore_worker_privdrop mach sys skip_runas skip_chroot runas root nofiles
  = Returns (n', calls) ->
  In (Csetrlimit n' n') calls
  /\ n' = (if getrlimit_ret sys =? -1 then nofiles
           else u32 (nofiles
                     + open_fds sys 0 (Z.to_nat (rlim_cur sys)))).
Proof.
  intros Hn. unfold kore_worker_privdrop.
  rewrite <- (count_fds_open sys _ 0 nofiles Hn).
  destruct root as [root | ]; [ | discriminate].
  destruct (skip_runas =? 0);
    [destruct runas as [user | ]; [ | discriminate];
     destruct (getpwnam_found sys); [ | discriminate] | ];
    cbn [bind];
    (destruct (skip_chroot =? 0);
     [destruct (chroot_ret sys =? -1); [discriminate | ] | ];
     (destruct (chdir_ret sys =? -1); [discriminate | ]));
    cbn [bind];
    destruct (getrlimit_ret sys =? -1);
    destruct (setrlimit_ret sys =? -1);
    try destruct (drop_chain sys (drop_calls mach)) as [[ | ] made];
    try discriminate;
    cbn [bind]; intros [= <- <-];
    (split; [ | reflexivity]);
    rewrite ?in_app_iff; cbn; tauto.
Qed.

Lemma calls_shape_nil (R : list priv_call) :
  exists pre,
    R = pre ++ R /\ forallb (fun c => negb (sets_id c)) pre = true.
Proof. exists []. auto. Qed.

Lemma calls_shape_cons (c : priv_call) (t R : list priv_call) :
  sets_id c = false ->
  (exists pre,
     t = pre ++ R /\ forallb (fun c => negb (sets_id c)) pre = true) ->
  exists pre,
    c :: t = pre ++ R /\ forallb (fun c => negb (sets_id c)) pre = true.
Proof.
  intros Hc (pre & -> & Hpre). exists (c :: pre). cbn. rewrite Hc, Hpre.
  auto.
Qed.

Lemma last_cons_some {A : Type} (c y : A) (t : list A) :
  last t = Some y -> last (c :: t) = Some y.
Proof. destruct t; [discriminate | auto]. Qed.

(** X23. kore_worker_privdrop gives up the privileges completely or not
    at all: when it returns and runas is not skipped, the user was found
    and every call of the sequence that sets the groups, the group ids
    and the user ids was made and returned 0, the groups before the user,
    after the root directory and the descriptor limit were set, with only
    the sandbox after it; when runas is skipped no id is touched. With
    chroot not skipped the chroot was made and went through. *)
Theorem privdrop_gives_up_ids (mach : bool) (sys : privdrop_sys)
    (skip_runas skip_chroot : Z) (runas root : option string)
    (nofiles n' : Z) (calls : list priv_call) :
  kore_worker_privdrop mach sys skip_runas skip_chroot runas root nofiles
  = Returns (n', calls) ->
  (skip_runas = 0 ->
   (exists user, runas = Some user)
   /\ getpwnam_found sys = true
   /\ Forall (fun c => ids_ret sys c = 0) (drop_calls mach)
   /\ exists pre,
        calls = pre ++ drop_calls mach ++ [Csandbox]
        /\ forallb (fun c => negb (sets_id c)) pre = true)
  /\ (skip_runas <> 0 -> forallb (fun c => negb (sets_id c)) calls = true)
  /\ (skip_chroot = 0 ->
      exists path,
        root = Some path /\ In (Cchroot path) calls
        /\ chroot_ret sys <> -1)
  /\ last calls = Some Csandbox.
Proof.
  unfold kore_worker_privdrop.
  destruct root as [path | ]; [ | discriminate].
  destruct (Z.eqb_spec skip_runas 0) as [Hrun | Hrun];
    [destruct runas as [user | ]; [ | discriminate];
     destruct (getpwnam_found sys) eqn:Hpw; [ | discriminate] | ];
    cbn [bind];
    (destruct (Z.eqb_spec skip_chroot 0) as [Hch | Hch];
     [destruct (Z.eqb_spec (chroot_ret sys) (-1)) as [ | Hcr];
      [discriminate | ] | ];
     (destruct (chdir_ret sys =? -1); [discriminate | ]));
    cbn [bind];
    destruct (getrlimit_ret sys =? -1);
    destruct (setrlimit_ret sys =? -1);
    try (destruct (drop_chain sys (drop_calls mach)) as [[ | ] made] eqn:Hdc;
         [discriminate | ];
         destruct (drop_chain_done sys _ _ Hdc) as [-> Hall]);
    cbn [bind]; intros [= <- <-];
    (split;
     [ intros Hr;
       first
         [ contradiction
         | (split; [eexists; reflexivity | ]);
           (split; [reflexivity | ]);
           (split; [exact Hall | ]);
           repeat (apply calls_shape_cons; [reflexivity | ]);
           apply calls_shape_nil ]
     | split;
       [ intros Hr; first [contradiction | reflexivity]
       | split;
         [ intros Hc;
           first
             [ contradiction
             | exists path; split; [reflexivity | ];
               split; [cbn; tauto | exact Hcr] ]
         | first [ reflexivity
                 | repeat apply last_cons_some; apply last_snoc ] ] ] ]).
Qed.

Lemma privdrop_ok_returns :
  kore_worker_privdrop false privdrop_ok 0 0 (Some "kore")
    (Some "/var/chroot/kore") 768 = Returns (773, privdrop_calls).
Proof. vm_compute. reflexivity. Qed.

Lemma privdrop_descriptor_limit_witness :
  In (Csetrlimit 773 773) privdrop_calls
  /\ 773 = u32 (768 + open_fds privdrop_ok 0 1024).
Proof.
  exact (privdrop_descriptor_limit false privdrop_ok 0 0 (Some "kore")
           (Some "/var/chroot/kore") 768 773 privdrop_calls ltac:(lia)
           privdrop_ok_returns).
Defined.

Lemma privdrop_gives_up_ids_witness :
  exists pre,
    privdrop_calls = pre ++ [Csetgroups; Csetresgid; Csetresuid; Csandbox]
    /\ forallb (fun c => negb (sets_id c)) pre = true.
Proof.
  destruct (privdrop_gives_up_ids false privdrop_ok 0 0 (Some "kore")
              (Some "/var/chroot/kore") 768 773 privdrop_calls
              privdrop_ok_returns) as (Hids & _).
  destruct (Hids eq_refl) as (_ & _ & _ & Hpre).
  exact Hpre.
Defined.

(** *** Restarts, seen from the supervisor *)

Lemma reap_prefix_trace (E : env) (wpid status : Z) (kw kw0 : kore_worker)
    (st : state) :
  let r := blamed E kw0
             (holder_unlocked kw (gone_logged E wpid status kw st)) in
  exists t,
    trace (snd r) = trace st ++ t
    /\ forallb is_log_or_cas t = true.
Proof.
  destruct st as [c [l cur] tbl w wc nl av conns reqs sig srvs tr].
  unfold blamed, holder_unlocked, gone_logged, worker_unlock,
    compare_and_swap.
  cbn.
  repeat (match goal with
          | |- context [if ?c then _ else _] =>
              lazymatch c with
              | context [if _ then _ else _] => fail
              | _ => destruct c
              end
          | |- context [match active_hdlr ?k with _ => _ end] =>
              destruct (active_hdlr k)
          end; cbn);
    rewrite <- ?app_assoc; cbn;
    try (eexists; split; [reflexivity | reflexivity]);
    exists []; rewrite app_nil_r; auto.
Qed.

(** X24. A network worker that did not exit cleanly is started again in
    its slot under policy restart: the supervisor logs (and frees the lock
    if the worker held it), takes the slot out of its message loop, forks
    once, and puts the slot back. The slot keeps its id, cpu and log
    offset, records the new pid, is running, restarted and without the
    lock; no other slot changes. *)
Theorem reap_restarts_network_worker (E : env) (os : reap_sys)
    (wpid status i : Z) (st : state) (kw : kore_worker) :
  reaped_slot st wpid i kw ->
  not_traced E wpid status ->
  clean_exit E status = false ->
  is_sibling E kw = false ->
  worker_policy (conf st) = KORE_WORKER_POLICY_RESTART ->
  spawn_ok (respawn os) ->
  exists st' t,
    worker_reaper E os wpid status st = Returns st'
    /\ kore_workers st'
       = <[Z.to_nat i := restarted_slot os kw]> (kore_workers st)
    /\ trace st'
       = trace st ++ t
           ++ [EvMsgParentRemove i; EvFork (fork_ret (respawn os));
               EvMsgParentAdd i]
    /\ forallb is_log_or_cas t = true.
Proof.
  intros Hslot Hnt Hunclean Hsib Hpol Hos.
  pose proof Hslot as (_ & _ & Hlook & Hpid & _).
  pose proof (reap_slot_network E os wpid status i st kw Hlook Hpid
                Hunclean Hsib) as Hshape.
  pose proof (gone_logged_frame E wpid status kw st)
    as (G1 & G2 & G3 & G4 & G5 & G6).
  pose proof (holder_unlocked_frame kw (gone_logged E wpid status kw st))
    as (U1 & U2 & U3 & U4).
  pose proof (blamed_frame E (kw_set_running 0 kw)
                (holder_unlocked kw (gone_logged E wpid status kw st)))
    as (B1 & B2 & B3 & B4 & B5 & B6 & B7 & B8 & B9 & B10 & B11).
  destruct (reap_prefix_trace E wpid status kw (kw_set_running 0 kw) st)
    as (t & Ht & Hlogs).
  assert (Hlb : lb_offset (fst (blamed E (kw_set_running 0 kw)
                  (holder_unlocked kw (gone_logged E wpid status kw st))))
                = lb_offset kw).
  { unfold blamed. destruct (negb (KORE_NO_HTTP E)); [ | reflexivity].
    cbn. destruct (active_hdlr kw); reflexivity. }
  destruct (blamed E (kw_set_running 0 kw)
              (holder_unlocked kw (gone_logged E wpid status kw st)))
    as [kw5 st5] eqn:Hb.
  cbn [fst snd] in *.
  rewrite B3, U2, G3, Hpol in Hshape.
  erewrite kore_worker_spawn_ok in Hshape; [ | exact Hos | ].
  2: { apply store_worker_lookup with (kw := kw). cbn. rewrite B1, U1, G1.
       exact Hlook. }
  cbn [bind] in Hshape.
  pose proof (worker_reaper_at_slot E os wpid status i st kw _ Hslot Hnt
                Hshape) as Hr.
  eexists. exists (t ++ [EvLog LOG_NOTICE "restarting worker %d"
                          [LInt (id kw5)]]).
  split; [exact Hr | ].
  split.
  - unfold store_worker. cbn. rewrite B1, U1, G1.
    rewrite list_insert_insert_eq. unfold restarted_slot.
    rewrite B7, B8, Hlb. reflexivity.
  - split.
    + cbn. rewrite Ht, <- !app_assoc. reflexivity.
    + rewrite forallb_app, Hlogs. reflexivity.
Qed.

Lemma reap_restarts_network_worker_witness :
  exists st',
    worker_reaper sample_env (respawn_as 204) 104 killed pool_with_holder
    = Returns st'
    /\ map pid (kore_workers st') = [0; 0; 102; 103; 204; 105].
Proof.
  destruct (reap_restarts_network_worker sample_env (respawn_as 204) 104
              killed 4 pool_with_holder holder_record pool_with_holder_slot
              eq_refl eq_refl eq_refl pool_with_holder_policy)
    as (st' & t & Hr & Htbl & _).
  { unfold spawn_ok. cbn. lia. }
  exists st'. split; [exact Hr | ]. rewrite Htbl.
  vm_compute. reflexivity.
Defined.
